(* ===== verification/_CoqProject ===== *)
-Q . S2P
Prelude.v
JsNumber.v
NumberString.v
JsDate.v
JsValue.v
Validators.v
Form.v
Component.v
ModeSpec.v
Records.v
Requests.v
