(* ===== verification/Prelude.v ===== *)
(** * ControleGarantias: a verification development of the product form

    The program is one Angular component,
    src/src/app/produto/cadastro/cadastro.component.ts ([CadastroComponent]),
    which registers or edits a product with its warranty.  Its parts:
    - a reactive form ([produtoForm], declared at lines 17-22 and rebuilt
      by [createForm], lines 44-51) with the controls [id], [nome],
      [dataCompra], [duracaoGarantiaMeses] and their validators;
    - three validators ([numberValidator], [stringValidator],
      [dateValidator], lines 94-114) run by Angular beside
      [Validators.required];
    - the mode controller [ngOnInit]/[checkEditMode] (lines 36-73): a
      [switchMap] over [route.params] that enters edit mode and fetches
      the product when the route has an [id];
    - the derived-field calculator [calcularDataFimGarantia] (lines
      76-92): [new Date(dataCompra)], [setMonth(getMonth() + duracaoMeses)],
      [patchValue({ dataFimGarantia })];
    - the submission dispatcher [onSubmit] (lines 117-161): [updateProduto]
      with the stored id in edit mode, [addProduto] otherwise, and the
      snack-bar / dialog / console callbacks of each request.
    These parts interact through the component's fields and the
    JavaScript values in the form: text typed by the user reaches the
    validators and the calculator as a string, and every conversion the
    code relies on implicitly ([Number], [+], [new Date], [getMonth],
    [setMonth]) is ECMAScript semantics, which is modelled too.

    ** Files
    - [Prelude] (this file): the [js_scope] notation for string
      concatenation, the hint databases [js] and [jsrw], floor-division
      lemmas for the calendar, and the tactics [zdiv] and [zcases].
    - [JsNumber] (Module [JsNumber]): Number values ([NaN], the
      infinities, exact decimals [Fin m e]), Number::add, StringToNumber
      (ES2023 7.1.4.1.1) as an executable parser, Number::toString, and the
      standard's StringNumericLiteral grammar as an inductive predicate.
      Theorem [string_to_number_not_nan_iff]: the parser gives a number
      exactly on the strings of the grammar.
    - [NumberString] (Module [NumberString]): Number::toString against
      StringToNumber on integers: the digits printed are those of the
      Standard Library's [Pos.to_uint], and they read back (the lemma
      [number_string_roundtrip], a check of the model of the engine).
    - [JsDate] (Module [JsDate]): time values, the [LocalTZA] interface
      (a class: the host's zone rules, an offset from UTC and the
      transitions of daylight saving time, each offset less than a day,
      with the instances [UTC_zone], [SaoPaulo_zone] and the 2018/19
      summer [SaoPaulo_2018_zone]), LocalTime through the offset in force
      at an instant ([offset_at]) and UTC through the offset chosen for a
      local time ([offset_local]: the one before the transition in a
      repeated or skipped hour, ES2023 21.4.1.26), Day,
      MakeDay/MakeDate/TimeClip, [getMonth], [setMonth], the Date Time
      String Format parser and [Date.prototype.toString].  Civil dates use
      the closed-form [days_from_civil]/[civil_from_days]; the lemma
      [calendar_refines_ecmascript] checks them against the standard's
      DayFromYear tables.  C13/C14 give [setMonth]'s result (same day, or
      overflow into the next month) when the local time it builds is not
      skipped; the lemma [UTC_earliest_instant] proves, by induction on
      the transitions, that [UTC] picks the earliest instant of a local
      time in every zone whose transitions are more than two days apart.
    - [JsValue] (Module [JsValue]): JavaScript values ([undefined],
      [null], booleans, numbers, strings, Date references), the heap of
      Date objects as a stdpp [gmap], typeof/ToBoolean/ToNumber/ToString/
      ToPrimitive, the [+] operator and the one-argument Date constructor.
    - [Validators] (Module [Validators]): the three validators of the code,
      [Validators.required] and Angular's error merging; C6, C19.
    - [Form] (Module [Form]): FormGroup as its list of controls,
      [value] (enabled controls only), [patchValue] (unknown keys ignored),
      [setValue] of one control, validity; plain objects as association
      lists with [o[k]] and [o[k] = v].
    - [Component] (Module [Component]): the component as a state machine.
      Its [state] record holds the fields ([produtoForm], [produtoId],
      [isEditing]), the Date heap, whether [ngOnInit] ran, whether the
      route subscription lives, whether a fetch is in flight, the
      subscriptions to submit requests still open ([pending], numbered in
      the order the calls were made) and the trace of calls to the
      collaborators.  One definition per handler ([ngOnInit], [on_params]
      for the [switchMap] projection, [on_produto] for the subscriber,
      [calcularDataFimGarantia], [onSubmit], [on_request_done] for the
      request callbacks, [on_input] for the template's bindings),
      dispatched by [step]; [reachable] is the step relation's
      reachability, and [inv] its invariant (C26).  C27 says what daylight
      saving time does to the end date, in every zone.
    - [ModeSpec] (Module [ModeSpec]): the spec's mode controller as an
      abstract machine [ctrl_step] over (initialised, route live, fetch in
      flight, mode); [abstract] projects a component state onto it, and
      C12 proves [Component.step] refines it on every event sequence.
    - [Records] (Module [Records]): the records sent to the service and
      their keys (C9).
    - [Requests] (Module [Requests]): the submit requests in flight:
      double submission (C10); the lemmas [pending_wf_reachable] and
      [pending_drains] on the model's bookkeeping of open subscriptions.

    ** What the theorems show
    - The end date (C1-C4, C7, C8, C11, C13, C14, C27): after [ngOnInit]
      the form has no [dataFimGarantia] control, so the computed date is
      dropped (C1); the result depends on the host's time zone for
      purchases on the first of a month (C2); a duration held as text is
      appended to the month's digits instead of added (C3; the lemma
      [end_date_string_duration] works the example "2024-03-10" with
      "12") and a non-numeric one gives an Invalid Date (C11); otherwise
      the end date is the same day [n] months later, with overflow past
      the month's end, in every zone with a fixed offset (C4, C13, C14);
      in every zone, daylight saving time included, it keeps the
      purchase's local time of day exactly when that time occurs on the
      target day, at its first occurrence (C27); the purchase date object
      is never changed (C7); nothing happens without both inputs (C8).
    - Submission (C5, C9, C10, C15, C16, C25): the stored id overrides the
      form's in edit mode; every record sent has exactly the keys id,
      nome, dataCompra, duracaoGarantiaMeses; two submissions make two
      identical service calls and open two requests; validity is never
      consulted; each request's callbacks run once, with the code's
      messages, and leave the form as it was.
    - Validation (C6, C19): [numberValidator] on text is exactly the
      standard's StringNumericLiteral grammar (so "Infinity" passes,
      against the spec's "finite"); blank strings pass both [required]
      and [numberValidator].  The lemmas [dateValidator_string_iff],
      [dateValidator_null] and [stringValidator_iff] describe the other
      validators on the model's [Date.parse].
    - Mode control (C12, C17, C18, C20-C24): the component refines the
      abstract mode controller; only the route changes the mode; edit
      mode is never left; edit/create on initialisation, re-emission of
      the route switching the id, a fetch error ending the subscription,
      the fetched product patched into the form.
    - The state invariant (C26).

    ** Bounds
    No definition uses fuel: every recursion is structural on strings or
    lists (the zone's offsets are folds over its list of transitions),
    and every handler is a total function, so each theorem holds of the
    code's whole behaviour and termination needs no theorem of its own.
    The zone theorems ask for transitions more than two days apart: every
    offset is less than a day, so the hour a transition repeats or skips
    is then untouched by the next; real zone histories are months apart.
    Time values are unbounded integers clipped by TimeClip at 8.64e15 ms
    as the standard says.  Numbers are exact decimals: the component only
    computes with integers typed by the user (ids, month counts) and
    month indices, which binary64 holds exactly below 2^53, and the
    validators observe only NaN-ness, which rounding does not change.
    Rounding of larger or fractional values (and -0) is therefore not
    modelled.  Strings are lists of 8-bit characters, so white space
    above U+00FF is not represented.

    ** Not modelled
    The HTML template and styles (no logic), [ProdutoService] (outside
    src/app/produto/cadastro: its calls are recorded in the trace, and
    their answers, like the product the fetch of [checkEditMode]
    returns, are events of the environment; each answer is delivered at
    most once, as one HttpClient emission), routing and the
    [ActivatedRoute] stream (its emissions are events), [MatSnackBar] and
    [MatDialog] (their calls are recorded in the trace), the zone rules
    of a real host beyond the listed instances (a host's tz database is
    data, given as an instance), the engine-specific date formats
    [Date.parse] accepts beyond the Date Time String Format (browsers
    accept "2024/01/15" or "Jan 15 2024"; they read as NaN here, so the
    theorems about [dateValidator] on text are about that format only),
    the time-zone name in [Date.prototype.toString], and the later
    mutation of the object [produtoForm.value] returned by [onSubmit]'s
    [produto.id = ...] (the object is sent at once and not read again). *)

From Stdlib Require Import ZArith String Ascii List Bool Lia.
Import ListNotations.

(** ** Scope and notations *)

Declare Scope js_scope.
Delimit Scope js_scope with js.

(** JavaScript string concatenation on the modelled strings. *)
Notation "a +++ b" := (String.append a b) (at level 60, right associativity) : js_scope.

(** ** Hint database of the development *)

Create HintDb js discriminated.
Create Rewrite HintDb jsrw.

(** ** Generic lemmas on floor division (calendar arithmetic) *)

Open Scope Z_scope.

Lemma mod_bounds_pos (a b : Z) : 0 < b -> 0 <= a mod b < b.
Proof. intros Hb. apply Z.mod_pos_bound; exact Hb. Qed.

Lemma div_mod_decomp (a b : Z) : b <> 0 -> a = b * (a / b) + a mod b.
Proof. intros Hb. apply Z.div_mod; exact Hb. Qed.

Lemma div_add_mul_r (a q b : Z) : 0 < b -> (a + q * b) / b = a / b + q.
Proof. intros Hb. apply Z.div_add; lia. Qed.

Lemma mod_add_mul_r (a q b : Z) : 0 < b -> (a + q * b) mod b = a mod b.
Proof. intros Hb. apply Z.mod_add; lia. Qed.

Lemma div_small_eq (a b : Z) : 0 <= a < b -> a / b = 0.
Proof. apply Z.div_small. Qed.

Lemma mod_small_eq (a b : Z) : 0 <= a < b -> a mod b = a.
Proof. apply Z.mod_small. Qed.

#[export] Hint Resolve mod_bounds_pos : js.
#[export] Hint Rewrite div_add_mul_r mod_add_mul_r using lia : jsrw.

(** Floor division and modulus together: [a / b = q] and [a mod b = r]
    from the Euclidean characterisation. *)
Lemma div_mod_unique_pos (a b q r : Z) :
  0 < b -> 0 <= r < b -> a = b * q + r -> a / b = q /\ a mod b = r.
Proof.
  intros Hb Hr ->. split.
  - rewrite Z.add_comm, Z.mul_comm, Z.div_add by lia. rewrite Z.div_small by lia. lia.
  - rewrite Z.add_comm, Z.mul_comm, Z.mod_add by lia. apply Z.mod_small; lia.
Qed.

(** ** Generic lemmas on strings and options *)

Lemma string_append_assoc (a b c : string) :
  ((a +++ b) +++ c = a +++ (b +++ c))%js.
Proof. induction a as [|x a IH]; simpl; [reflexivity | now rewrite IH]. Qed.

Lemma string_append_nil_r (a : string) : (a +++ EmptyString)%js = a.
Proof. induction a as [|x a IH]; simpl; [reflexivity | now rewrite IH]. Qed.

#[export] Hint Rewrite string_append_assoc string_append_nil_r : jsrw.

(** ** Tactics *)

(** Close a goal of integer arithmetic with floor division and modulus. *)
Ltac zdiv := Z.div_mod_to_equations; lia.

(** Case on every boolean comparison of integers in the goal. *)
Ltac zcases :=
  repeat match goal with
  | |- context [Z.eqb ?a ?b] => destruct (Z.eqb_spec a b)
  | |- context [Z.ltb ?a ?b] => destruct (Z.ltb_spec a b)
  | |- context [Z.leb ?a ?b] => destruct (Z.leb_spec a b)
  end.

Close Scope Z_scope.
