(* ===== verification/JsNumber.v ===== *)
(** * JsNumber: the JavaScript Number values the component computes with

    [Number(control.value)] in [numberValidator], [+params['id']] in
    [checkEditMode] and the month argument of [setMonth] in
    [calcularDataFimGarantia] all go through the ECMAScript conversion
    [StringToNumber] (ES2023 7.1.4.1.1) and the Number operations
    modelled here.  Finite values are exact decimals [m * 10^e]; NaN and
    the two infinities are constructors of their own.  The grammar of
    numeric strings is stated twice: as the executable parser the engine
    runs and as the declarative grammar of the standard
    ([StrNumericLiteral]), and the two are proved equivalent. *)

From Stdlib Require Import ZArith String Ascii List Bool Lia DecimalString.
From S2P Require Import Prelude.
Import ListNotations.
Open Scope Z_scope.

Module JsNumber.

(** ** Values *)

(** [Fin m e] is the finite value [m * 10^e].  Binary64 rounding is not
    modelled: every finite value is kept exactly (see the header of
    Prelude.v for why this does not change the component's results). *)
Inductive number : Type :=
| NaN
| Infinity (neg : bool)
| Fin (m e : Z).

Definition of_Z (z : Z) : number := Fin z 0.

Definition is_nan (n : number) : bool :=
  match n with NaN => true | _ => false end.

Definition is_finite (n : number) : bool :=
  match n with Fin _ _ => true | _ => false end.

(** ToBoolean on a Number (ES2023 7.1.2): false exactly for NaN and zero. *)
Definition to_boolean (n : number) : bool :=
  match n with
  | NaN => false
  | Infinity _ => true
  | Fin m _ => negb (m =? 0)
  end.

Definition neg (n : number) : number :=
  match n with
  | NaN => NaN
  | Infinity s => Infinity (negb s)
  | Fin m e => Fin (- m) e
  end.

(** Number::add (ES2023 6.1.6.1.7), exact on finite values. *)
Definition add (a b : number) : number :=
  match a, b with
  | NaN, _ | _, NaN => NaN
  | Infinity s1, Infinity s2 => if Bool.eqb s1 s2 then Infinity s1 else NaN
  | Infinity s, Fin _ _ | Fin _ _, Infinity s => Infinity s
  | Fin m1 e1, Fin m2 e2 =>
      let e := Z.min e1 e2 in
      Fin (m1 * 10 ^ (e1 - e) + m2 * 10 ^ (e2 - e)) e
  end.

(** Truncation toward zero of the finite value [m * 10^e]. *)
Definition trunc (m e : Z) : Z :=
  if 0 <=? e then m * 10 ^ e else Z.quot m (10 ^ (- e)).

(** ToIntegerOrInfinity (ES2023 7.1.5): [None] for an infinity. *)
Definition to_integer_or_infinity (n : number) : option Z :=
  match n with
  | NaN => Some 0
  | Infinity _ => None
  | Fin m e => Some (trunc m e)
  end.

(** ** Characters *)

(** WhiteSpace and LineTerminator code points below 256: TAB, LF, VT, FF,
    CR, SPACE and NO-BREAK SPACE. *)
Definition is_ws (c : ascii) : bool :=
  match nat_of_ascii c with
  | 9 | 10 | 11 | 12 | 13 | 32 | 160 => true
  | _ => false
  end%nat.

Definition digit_in (base : Z) (c : ascii) : option Z :=
  let n := Z.of_nat (nat_of_ascii c) in
  let d :=
    if (48 <=? n) && (n <=? 57) then n - 48
    else if (97 <=? n) && (n <=? 102) then n - 87
    else if (65 <=? n) && (n <=? 70) then n - 55
    else 16 in
  if d <? base then Some d else None.

Definition dec_digit : ascii -> option Z := digit_in 10.

Definition is_digit_in (base : Z) (c : ascii) : bool :=
  match digit_in base c with Some _ => true | None => false end.

Fixpoint all_chars (p : ascii -> bool) (s : string) : bool :=
  match s with
  | EmptyString => true
  | String c r => p c && all_chars p r
  end.

(** ** TrimString (ES2023 22.1.3.32.1) *)

(** A digit of [base] starts the string. *)
Definition head_digit (base : Z) (s : string) : bool :=
  match s with String c _ => is_digit_in base c | EmptyString => false end.

Definition non_ws (c : ascii) : bool := negb (is_ws c).

Fixpoint trim_start (s : string) : string :=
  match s with
  | String c r => if is_ws c then trim_start r else s
  | EmptyString => EmptyString
  end.

Fixpoint trim_end (s : string) : string :=
  match s with
  | EmptyString => EmptyString
  | String c r =>
      let r' := trim_end r in
      if is_ws c && String.eqb r' EmptyString then EmptyString else String c r'
  end.

Definition trim (s : string) : string := trim_end (trim_start s).

(** ** The engine's parser *)

(** The longest prefix of digits of [base], with the rest of the string. *)
Fixpoint take_digits (base : Z) (s : string) : list Z * string :=
  match s with
  | String c r =>
      match digit_in base c with
      | Some d => let (ds, rest) := take_digits base r in (d :: ds, rest)
      | None => ([], s)
      end
  | EmptyString => ([], EmptyString)
  end.

Definition digits_value (base : Z) (ds : list Z) : Z :=
  fold_left (fun acc d => acc * base + d) ds 0.

(** The mathematical value of the leading decimal digits of a string. *)
Definition decimal_value (s : string) : Z := digits_value 10 (fst (take_digits 10 s)).

(** A whole string of at least one digit of [base]. *)
Definition digits_only (base : Z) (s : string) : option Z :=
  match take_digits base s with
  | ((_ :: _) as ds, EmptyString) => Some (digits_value base ds)
  | _ => None
  end.

(** The rest of [s] when its first character is [c]. *)
Definition strip_char (c : ascii) (s : string) : option string :=
  match s with
  | String d r => if (d =? c)%char then Some r else None
  | EmptyString => None
  end.

(** SignedInteger after the exponent indicator. *)
Definition parse_signed_integer (s : string) : option Z :=
  match strip_char "+" s with
  | Some r => digits_only 10 r
  | None =>
      match strip_char "-" s with
      | Some r => option_map Z.opp (digits_only 10 r)
      | None => digits_only 10 s
      end
  end.

(** An optional ExponentPart making up the rest of the string. *)
Definition parse_exponent (s : string) : option Z :=
  match s with
  | EmptyString => Some 0
  | String c r =>
      if (c =? "e")%char || (c =? "E")%char then parse_signed_integer r else None
  end.

(** StrUnsignedDecimalLiteral. *)
Definition parse_unsigned (u : string) : option number :=
  if String.eqb u "Infinity" then Some (Infinity false) else
  let (d1, r1) := take_digits 10 u in
  match strip_char "." r1 with
  | Some r2 =>
      let (d2, r3) := take_digits 10 r2 in
      match d1 ++ d2 with
      | [] => None
      | _ =>
          option_map (fun x => Fin (digits_value 10 (d1 ++ d2)) (x - Z.of_nat (length d2)))
            (parse_exponent r3)
      end
  | None =>
      match d1 with
      | [] => None
      | _ => option_map (fun x => Fin (digits_value 10 d1) x) (parse_exponent r1)
      end
  end.

(** The base selected by a NonDecimalIntegerLiteral prefix letter. *)
Definition radix_of (c : ascii) : option Z :=
  if (c =? "x")%char || (c =? "X")%char then Some 16
  else if (c =? "o")%char || (c =? "O")%char then Some 8
  else if (c =? "b")%char || (c =? "B")%char then Some 2
  else None.

(** StrNumericLiteral on a trimmed, non-empty string. *)
Definition parse_numeric (t : string) : option number :=
  match t with
  | String c t' =>
      if (c =? "0")%char then
        match t' with
        | String c2 r =>
            match radix_of c2 with
            | Some b => option_map of_Z (digits_only b r)
            | None => parse_unsigned t
            end
        | EmptyString => parse_unsigned t
        end
      else if (c =? "+")%char then parse_unsigned t'
      else if (c =? "-")%char then option_map neg (parse_unsigned t')
      else parse_unsigned t
  | EmptyString => None
  end.

(** StringToNumber (ES2023 7.1.4.1.1). *)
Definition string_to_number (s : string) : number :=
  let t := trim s in
  if String.eqb t EmptyString then Fin 0 0
  else match parse_numeric t with Some n => n | None => NaN end.

(** ** Number::toString (ES2023 6.1.6.1.20), radix 10 *)

(** Decimal digits of a positive integer, most significant first. *)
Definition pos_digits (p : positive) : list ascii :=
  list_ascii_of_string (NilEmpty.string_of_uint (Pos.to_uint p)).

(** Removes trailing zeros of a digit list given reversed; the count of
    removed zeros is added to [k]. *)
Fixpoint strip_zeros_rev (r : list ascii) (k : Z) : list ascii * Z :=
  match r with
  | c :: r' => if (c =? "0")%char then strip_zeros_rev r' (k + 1) else (r, k)
  | [] => ([], k)
  end.

Definition zeros (n : Z) : list ascii := repeat "0"%char (Z.to_nat n).

Definition int_digits (z : Z) : list ascii :=
  match Z.abs z with Zpos p => pos_digits p | _ => ["0"%char] end.

(** The four layouts of the standard for digits [s] (no trailing zero)
    of length [k] and decimal point position [n]. *)
Definition layout (s : list ascii) (n : Z) : list ascii :=
  let k := Z.of_nat (length s) in
  if (k <=? n) && (n <=? 21) then s ++ zeros (n - k)
  else if (0 <? n) && (n <=? 21) then
    firstn (Z.to_nat n) s ++ "."%char :: skipn (Z.to_nat n) s
  else if (-6 <? n) && (n <=? 0) then "0"%char :: "."%char :: zeros (- n) ++ s
  else
    let ex := (if n - 1 <? 0 then "-"%char else "+"%char) :: int_digits (n - 1) in
    match s with
    | [d] => d :: "e"%char :: ex
    | d :: rest => d :: "."%char :: rest ++ "e"%char :: ex
    | [] => []
    end.

(** The string of the positive value [p * 10^e]. *)
Definition positive_to_string (p : positive) (e : Z) : list ascii :=
  let (r, k) := strip_zeros_rev (rev (pos_digits p)) 0 in
  let s := rev r in
  layout s (e + k + Z.of_nat (length s)).

Definition number_to_string (n : number) : string :=
  match n with
  | NaN => "NaN"
  | Infinity false => "Infinity"
  | Infinity true => "-Infinity"
  | Fin (Zpos p) e => string_of_list_ascii (positive_to_string p e)
  | Fin (Zneg p) e => String "-" (string_of_list_ascii (positive_to_string p e))
  | Fin Z0 _ => "0"
  end.

(** ** The grammar of numeric strings (ES2023 7.1.4.1), declaratively *)

(** A non-empty string of digits of [base]. *)
Definition Digits (base : Z) (s : string) : Prop :=
  s <> EmptyString /\ all_chars (is_digit_in base) s = true.

Inductive ExponentPart : string -> Prop :=
| ExpPart (c : ascii) (sg ds : string) :
    (c = "e"%char \/ c = "E"%char) -> (sg = ""%string \/ sg = "+"%string \/ sg = "-"%string) ->
    Digits 10 ds -> ExponentPart (String c (sg ++ ds))%string.

Definition OptExponentPart (s : string) : Prop := s = EmptyString \/ ExponentPart s.

Inductive StrUnsignedDecimalLiteral : string -> Prop :=
| SudInfinity : StrUnsignedDecimalLiteral "Infinity"%string
| SudPoint (a b x : string) :
    Digits 10 a -> all_chars (is_digit_in 10) b = true -> OptExponentPart x ->
    StrUnsignedDecimalLiteral (a ++ String "." (b ++ x))%string
| SudFraction (b x : string) :
    Digits 10 b -> OptExponentPart x -> StrUnsignedDecimalLiteral (String "." (b ++ x))%string
| SudInteger (a x : string) :
    Digits 10 a -> OptExponentPart x -> StrUnsignedDecimalLiteral (a ++ x)%string.

Inductive StrDecimalLiteral : string -> Prop :=
| SdlUnsigned (u : string) : StrUnsignedDecimalLiteral u -> StrDecimalLiteral u
| SdlPlus (u : string) : StrUnsignedDecimalLiteral u -> StrDecimalLiteral (String "+" u)%string
| SdlMinus (u : string) : StrUnsignedDecimalLiteral u -> StrDecimalLiteral (String "-" u)%string.

(** BinaryIntegerLiteral, OctalIntegerLiteral, HexIntegerLiteral (without
    numeric separators, which StringToNumber does not accept). *)
Inductive NonDecimalIntegerLiteral : string -> Prop :=
| Ndil (c : ascii) (b : Z) (ds : string) :
    radix_of c = Some b -> Digits b ds -> NonDecimalIntegerLiteral (String "0" (String c ds))%string.

Inductive StrNumericLiteral : string -> Prop :=
| SnlDecimal (s : string) : StrDecimalLiteral s -> StrNumericLiteral s
| SnlNonDecimal (s : string) : NonDecimalIntegerLiteral s -> StrNumericLiteral s.

(** StringNumericLiteral: optional white space around an optional literal. *)
Definition StringNumericLiteral (s : string) : Prop :=
  exists w1 lit w2, s = (w1 ++ lit ++ w2)%string /\ all_chars is_ws w1 = true /\
    all_chars is_ws w2 = true /\ (lit = EmptyString \/ StrNumericLiteral lit).

(** ** Lemmas: arithmetic *)

Lemma add_int (a b : Z) : add (of_Z a) (of_Z b) = of_Z (a + b).
Proof. unfold add, of_Z. rewrite Z.min_id, Z.sub_diag, Z.pow_0_r, !Z.mul_1_r. reflexivity. Qed.

(** ** Lemmas: digit spans *)

Lemma all_chars_app (p : ascii -> bool) (a b : string) :
  all_chars p (a ++ b)%string = all_chars p a && all_chars p b.
Proof. induction a as [|c a IH]; simpl; [reflexivity | now rewrite IH, andb_assoc]. Qed.

Lemma all_chars_impl (p q : ascii -> bool) (s : string) :
  (forall c, p c = true -> q c = true) -> all_chars p s = true -> all_chars q s = true.
Proof.
  intros Hpq. induction s as [|c s IH]; simpl; [reflexivity|].
  intros [Hc Hs]%andb_prop. now rewrite (Hpq c Hc), (IH Hs).
Qed.

#[export] Hint Rewrite all_chars_app : jsrw.

(** [take_digits] reads exactly a maximal run of digits. *)
Lemma take_digits_app (base : Z) (p rest : string) :
  all_chars (is_digit_in base) p = true -> head_digit base rest = false ->
  exists ds, take_digits base (p ++ rest)%string = (ds, rest) /\ length ds = String.length p.
Proof.
  induction p as [|c p IH]; simpl; intros Hp Hr.
  - destruct rest as [|c r]; simpl in *; [now exists []|].
    unfold is_digit_in in Hr. destruct (digit_in base c); [discriminate|]. now exists [].
  - apply andb_prop in Hp as [Hc Hp]. unfold is_digit_in in Hc.
    destruct (digit_in base c) as [d|]; [|discriminate].
    destruct (IH Hp Hr) as [ds [-> Hl]]. exists (d :: ds). simpl. auto.
Qed.

Lemma take_digits_split (base : Z) (s : string) ds rest :
  take_digits base s = (ds, rest) ->
  exists p, s = (p ++ rest)%string /\ all_chars (is_digit_in base) p = true /\
    head_digit base rest = false /\ length ds = String.length p.
Proof.
  revert ds rest. induction s as [|c s IH]; simpl; intros ds rest H.
  - inversion H; subst. now exists ""%string.
  - destruct (digit_in base c) as [d|] eqn:E.
    + destruct (take_digits base s) as [ds' r'] eqn:E'. inversion H; subst.
      destruct (IH _ _ eq_refl) as (p & -> & Hp & Hh & Hl).
      exists (String c p). simpl. unfold is_digit_in at 1. rewrite E. auto.
    + inversion H; subst. exists ""%string. simpl. unfold is_digit_in. rewrite E. auto.
Qed.

Lemma digits_only_sound (base : Z) (s : string) (v : Z) :
  digits_only base s = Some v -> Digits base s.
Proof.
  unfold digits_only. destruct (take_digits base s) as [ds rest] eqn:E.
  destruct ds as [|d ds]; [discriminate|]. destruct rest; [|discriminate]. intros _.
  destruct (take_digits_split _ _ _ _ E) as (p & -> & Hp & _ & Hl).
  rewrite (string_append_nil_r p). split; [|exact Hp].
  intros ->. discriminate.
Qed.

Lemma digits_only_complete (base : Z) (s : string) :
  Digits base s -> exists v, digits_only base s = Some v.
Proof.
  intros [Hne Hs]. unfold digits_only.
  destruct (take_digits_app base s "" Hs eq_refl) as [ds [E Hl]].
  rewrite (string_append_nil_r s) in E. rewrite E.
  destruct ds; [destruct s; simpl in Hl; [contradiction | discriminate]|eauto].
Qed.

(** ** Lemmas: soundness of the parser *)

Lemma strip_char_some (c : ascii) (s r : string) :
  strip_char c s = Some r -> s = String c r.
Proof.
  destruct s as [|d s]; simpl; [discriminate|].
  destruct (Ascii.eqb_spec d c); congruence.
Qed.

Lemma parse_signed_integer_sound (s : string) (v : Z) :
  parse_signed_integer s = Some v ->
  exists sg ds, s = (sg ++ ds)%string /\
    (sg = ""%string \/ sg = "+"%string \/ sg = "-"%string) /\ Digits 10 ds.
Proof.
  unfold parse_signed_integer.
  destruct (strip_char "+" s) as [r|] eqn:Ep.
  - intros H. apply strip_char_some in Ep. subst.
    exists "+"%string, r. split; [reflexivity|split; [auto|eapply digits_only_sound; eauto]].
  - destruct (strip_char "-" s) as [r|] eqn:Em.
    + intros H. apply strip_char_some in Em. subst.
      destruct (digits_only 10 r) eqn:Ed; [|discriminate].
      exists "-"%string, r. split; [reflexivity|split; [auto|eapply digits_only_sound; eauto]].
    + intros H. exists ""%string, s. split; [reflexivity|split; [auto|eapply digits_only_sound; eauto]].
Qed.

Lemma parse_exponent_sound (s : string) (v : Z) :
  parse_exponent s = Some v -> OptExponentPart s.
Proof.
  unfold parse_exponent, OptExponentPart. destruct s as [|c r]; [auto|].
  intros H. right.
  destruct (Ascii.eqb_spec c "e"), (Ascii.eqb_spec c "E"); simpl in H; try discriminate;
    destruct (parse_signed_integer_sound _ _ H) as (sg & ds & -> & Hsg & Hds);
    constructor; auto.
Qed.

Lemma parse_unsigned_sound (u : string) (n : number) :
  parse_unsigned u = Some n -> StrUnsignedDecimalLiteral u.
Proof.
  unfold parse_unsigned. destruct (String.eqb_spec u "Infinity") as [->|_]; [constructor|].
  destruct (take_digits 10 u) as [d1 r1] eqn:E1.
  destruct (take_digits_split _ _ _ _ E1) as (p1 & -> & Hp1 & _ & Hl1).
  destruct (strip_char "." r1) as [r2|] eqn:Es.
  - apply strip_char_some in Es. subst r1.
    destruct (take_digits 10 r2) as [d2 r3] eqn:E2.
    destruct (take_digits_split _ _ _ _ E2) as (p2 & -> & Hp2 & _ & Hl2).
    destruct (d1 ++ d2) eqn:Ed; [discriminate|].
    destruct (parse_exponent r3) eqn:Ex; [|discriminate]. intros _.
    apply parse_exponent_sound in Ex.
    destruct p1 as [|c p1].
    + destruct d1; [|discriminate Hl1]. simpl in Ed.
      destruct p2 as [|c p2]; [destruct d2; [discriminate Ed | discriminate Hl2]|].
      apply (SudFraction (String c p2) r3); [split; [discriminate|exact Hp2]|exact Ex].
    + apply SudPoint; [split; [discriminate|exact Hp1]|exact Hp2|exact Ex].
  - destruct d1 as [|d d1]; [discriminate|].
    destruct (parse_exponent r1) eqn:Ex; [|discriminate]. intros _.
    apply parse_exponent_sound in Ex.
    destruct p1 as [|c p1]; [discriminate Hl1|].
    apply SudInteger; [split; [discriminate|exact Hp1]|exact Ex].
Qed.

Lemma parse_numeric_sound (t : string) (n : number) :
  parse_numeric t = Some n -> StrNumericLiteral t.
Proof.
  unfold parse_numeric. destruct t as [|c t']; [discriminate|].
  destruct (Ascii.eqb_spec c "0") as [->|_].
  - destruct t' as [|c2 r].
    + intros H. do 2 constructor. eapply parse_unsigned_sound; eauto.
    + destruct (radix_of c2) as [b|] eqn:Er.
      * destruct (digits_only b r) eqn:Ed; [|discriminate]. intros _.
        apply SnlNonDecimal. econstructor; eauto using digits_only_sound.
      * intros H. do 2 constructor. eapply parse_unsigned_sound; eauto.
  - destruct (Ascii.eqb_spec c "+") as [->|_].
    + intros H. apply SnlDecimal, SdlPlus. eapply parse_unsigned_sound; eauto.
    + destruct (Ascii.eqb_spec c "-") as [->|_].
      * destruct (parse_unsigned t') eqn:Hu; [|discriminate]. intros _.
        apply SnlDecimal, SdlMinus. eapply parse_unsigned_sound; eauto.
      * intros H. do 2 constructor. eapply parse_unsigned_sound; eauto.
Qed.

(** ** Lemmas: completeness of the parser *)

Lemma digit_head_neq (d c : ascii) :
  is_digit_in 10 d = true -> is_digit_in 10 c = false -> (d =? c)%char = false.
Proof. intros Hd Hc. destruct (Ascii.eqb_spec d c); congruence. Qed.

Lemma digits_app_not_infinity (a r : string) :
  Digits 10 a -> (a ++ r)%string <> "Infinity"%string.
Proof.
  intros [Hne Ha]. destruct a as [|d a]; [contradiction|].
  simpl. intros H. injection H as -> _. discriminate Ha.
Qed.

Lemma opt_exponent_head (x : string) :
  OptExponentPart x -> head_digit 10 x = false /\ strip_char "." x = None.
Proof.
  intros [->|H]; [split; reflexivity|].
  inversion H as [c sg ds Hc _ _]; subst. destruct Hc as [-> | ->]; split; reflexivity.
Qed.

Lemma digits_strip_sign (ds : string) (c : ascii) :
  Digits 10 ds -> is_digit_in 10 c = false -> strip_char c ds = None.
Proof.
  intros [Hne Hd] Hc. destruct ds as [|d ds]; [contradiction|]. simpl in *.
  apply andb_prop in Hd as [Hd _]. now rewrite (digit_head_neq d c Hd Hc).
Qed.

Lemma parse_exponent_complete (x : string) :
  OptExponentPart x -> exists v, parse_exponent x = Some v.
Proof.
  intros [->|Hx]; [exists 0; reflexivity|].
  destruct Hx as [c sg ds Hc Hsg Hds].
  assert (Hpi : exists v, parse_signed_integer (sg ++ ds) = Some v).
  { unfold parse_signed_integer.
    destruct Hsg as [-> | [-> | ->]]; simpl;
      rewrite ?(digits_strip_sign ds "+" Hds eq_refl), ?(digits_strip_sign ds "-" Hds eq_refl);
      destruct (digits_only_complete 10 ds Hds) as [v Hv]; rewrite Hv; simpl; eexists; reflexivity. }
  destruct Hc as [-> | ->]; exact Hpi.
Qed.

Lemma digits_length_pos (b : Z) (a : string) : Digits b a -> (0 < String.length a)%nat.
Proof. intros [Hne _]. destruct a; [contradiction|simpl; lia]. Qed.

Lemma parse_unsigned_complete (u : string) :
  StrUnsignedDecimalLiteral u -> exists n, parse_unsigned u = Some n.
Proof.
  intros Hu. unfold parse_unsigned.
  destruct Hu as [| a b x Ha Hb Hx | b x Hb Hx | a x Ha Hx];
    [eexists; reflexivity| | |];
    destruct (opt_exponent_head x Hx) as [Hhx Hsx];
    destruct (parse_exponent_complete x Hx) as [v Hv].
  - rewrite (proj2 (String.eqb_neq _ _) (digits_app_not_infinity _ _ Ha)).
    destruct (take_digits_app 10 a (String "." (b ++ x)) (proj2 Ha) eq_refl) as [d1 [-> L1]].
    destruct (take_digits_app 10 b x Hb Hhx) as [d2 [E2 L2]]. simpl. rewrite E2, Hv.
    destruct d1 as [|d0 d1]; [pose proof (digits_length_pos _ _ Ha); simpl in L1; lia|].
    eexists; reflexivity.
  - simpl. destruct (take_digits_app 10 b x (proj2 Hb) Hhx) as [d2 [-> L2]]. rewrite Hv.
    destruct d2 as [|d0 d2]; [pose proof (digits_length_pos _ _ Hb); simpl in L2; lia|].
    eexists; reflexivity.
  - rewrite (proj2 (String.eqb_neq _ _) (digits_app_not_infinity _ _ Ha)).
    destruct (take_digits_app 10 a x (proj2 Ha) Hhx) as [d1 [-> L1]]. rewrite Hsx, Hv.
    destruct d1 as [|d0 d1]; [pose proof (digits_length_pos _ _ Ha); simpl in L1; lia|].
    eexists; reflexivity.
Qed.

Lemma radix_of_letter (c : ascii) (b : Z) :
  radix_of c = Some b ->
  c = "x"%char \/ c = "X"%char \/ c = "o"%char \/ c = "O"%char \/ c = "b"%char \/ c = "B"%char.
Proof.
  unfold radix_of.
  destruct (Ascii.eqb_spec c "x"), (Ascii.eqb_spec c "X"), (Ascii.eqb_spec c "o"),
    (Ascii.eqb_spec c "O"), (Ascii.eqb_spec c "b"), (Ascii.eqb_spec c "B");
    simpl; intros H; try discriminate; tauto.
Qed.

Lemma radix_of_le (c : ascii) (b : Z) : radix_of c = Some b -> b <= 16.
Proof.
  intros H. pose proof H as H'.
  apply radix_of_letter in H as [->|[->|[->|[->|[->| ->]]]]]; injection H' as <-; lia.
Qed.

(** A StrUnsignedDecimalLiteral never starts with a sign or a radix prefix,
    so [parse_numeric] hands it to [parse_unsigned] unchanged. *)
Lemma parse_numeric_of_unsigned (u : string) (n : number) :
  parse_unsigned u = Some n -> parse_numeric u = Some n.
Proof.
  intros H. unfold parse_numeric. destruct u as [|c t']; [discriminate|].
  destruct (Ascii.eqb_spec c "0") as [->|_].
  - destruct t' as [|c2 r]; [exact H|].
    destruct (radix_of c2) as [b|] eqn:Er; [|exact H].
    exfalso. destruct (radix_of_letter _ _ Er) as [->|[->|[->|[->|[->| ->]]]]];
      cbn in H; discriminate.
  - destruct (Ascii.eqb_spec c "+") as [->|_]; [cbn in H; discriminate|].
    destruct (Ascii.eqb_spec c "-") as [->|_]; [cbn in H; discriminate|exact H].
Qed.

Lemma parse_numeric_complete (t : string) :
  StrNumericLiteral t -> exists n, parse_numeric t = Some n.
Proof.
  intros [s Hs | s Hs].
  - destruct Hs as [u Hu | u Hu | u Hu]; destruct (parse_unsigned_complete u Hu) as [n Hn].
    + exists n. now apply parse_numeric_of_unsigned.
    + exists n. exact Hn.
    + exists (neg n). simpl. now rewrite Hn.
  - destruct Hs as [c b ds Hr Hds]. simpl. rewrite Hr.
    destruct (digits_only_complete b ds Hds) as [v ->]. eexists; reflexivity.
Qed.

Lemma parse_unsigned_not_nan (u : string) (n : number) :
  parse_unsigned u = Some n -> is_nan n = false.
Proof.
  unfold parse_unsigned. destruct (String.eqb u "Infinity"); [intros [= <-]; reflexivity|].
  destruct (take_digits 10 u) as [d1 r1]. destruct (strip_char "." r1) as [r2|].
  - destruct (take_digits 10 r2) as [d2 r3]. destruct (d1 ++ d2); [discriminate|].
    destruct (parse_exponent r3); simpl; [intros [= <-]; reflexivity|discriminate].
  - destruct d1; [discriminate|].
    destruct (parse_exponent r1); simpl; [intros [= <-]; reflexivity|discriminate].
Qed.

Lemma parse_numeric_not_nan (t : string) (n : number) :
  parse_numeric t = Some n -> is_nan n = false.
Proof.
  unfold parse_numeric. destruct t as [|c t']; [discriminate|].
  destruct ((c =? "0")%char).
  - destruct t' as [|c2 r]; [apply parse_unsigned_not_nan|].
    destruct (radix_of c2); [|apply parse_unsigned_not_nan].
    destruct (digits_only z r); simpl; [intros [= <-]; reflexivity|discriminate].
  - destruct ((c =? "+")%char); [apply parse_unsigned_not_nan|].
    destruct ((c =? "-")%char); [|apply parse_unsigned_not_nan].
    destruct (parse_unsigned t') as [m|] eqn:E; simpl; [intros [= <-]|discriminate].
    apply parse_unsigned_not_nan in E. destruct m; easy.
Qed.

(** ** Lemmas: TrimString *)

Lemma trim_start_ws_app (w s : string) :
  all_chars is_ws w = true -> trim_start (w ++ s) = trim_start s.
Proof. induction w as [|c w IH]; simpl; [auto|]. intros [-> Hw]%andb_prop. auto. Qed.

Lemma trim_end_app_ws (s w : string) :
  all_chars is_ws w = true -> trim_end (s ++ w) = trim_end s.
Proof.
  intros Hw. induction s as [|c s IH]; simpl; [|now rewrite IH].
  induction w as [|c w IHw]; simpl; [reflexivity|].
  apply andb_prop in Hw as [-> Hw]. now rewrite (IHw Hw).
Qed.

Lemma trim_end_non_ws (s : string) : all_chars non_ws s = true -> trim_end s = s.
Proof.
  induction s as [|c s IH]; simpl; [auto|]. intros [Hc Hs]%andb_prop. rewrite (IH Hs).
  unfold non_ws in Hc. destruct (is_ws c); [discriminate|reflexivity].
Qed.

(** Trimming white space around a literal without white space gives the literal. *)
Lemma trim_padded (w1 lit w2 : string) :
  all_chars is_ws w1 = true -> all_chars is_ws w2 = true -> all_chars non_ws lit = true ->
  trim (w1 ++ lit ++ w2) = lit.
Proof.
  intros H1 H2 Hl. unfold trim. rewrite (trim_start_ws_app w1 _ H1).
  destruct lit as [|c r].
  - assert (E : trim_start w2 = EmptyString).
    { rewrite <- (string_append_nil_r w2) at 1. now rewrite (trim_start_ws_app w2 _ H2). }
    simpl. now rewrite E.
  - simpl in Hl |- *. apply andb_prop in Hl as [Hc Hr]. unfold non_ws in Hc.
    destruct (is_ws c) eqn:Ec; [discriminate|].
    change (trim_end (String c r ++ w2) = String c r).
    rewrite (trim_end_app_ws _ _ H2). apply trim_end_non_ws. simpl. rewrite Hr. unfold non_ws. now rewrite Ec.
Qed.

Lemma trim_start_split (s : string) :
  exists w, s = (w ++ trim_start s)%string /\ all_chars is_ws w = true.
Proof.
  induction s as [|c s IH]; simpl; [exists ""%string; auto|].
  destruct (is_ws c) eqn:Hc; [|exists ""%string; auto].
  destruct IH as [w [Hs Hw]]. exists (String c w). simpl. rewrite Hc, Hw, <- Hs. auto.
Qed.

Lemma trim_end_split (s : string) :
  exists w, s = (trim_end s ++ w)%string /\ all_chars is_ws w = true.
Proof.
  induction s as [|c s IH]; simpl; [exists ""%string; auto|].
  destruct IH as [w [Hs Hw]].
  destruct (is_ws c) eqn:Hc, (String.eqb_spec (trim_end s) "") as [He|He]; simpl;
    try (exists w; simpl; rewrite <- Hs; auto).
  exists (String c w). simpl. rewrite Hc, Hw. rewrite He in Hs. simpl in Hs. now rewrite <- Hs.
Qed.

Lemma trim_split (s : string) :
  exists w1 w2, s = (w1 ++ trim s ++ w2)%string /\
    all_chars is_ws w1 = true /\ all_chars is_ws w2 = true.
Proof.
  destruct (trim_start_split s) as [w1 [E1 H1]].
  destruct (trim_end_split (trim_start s)) as [w2 [E2 H2]].
  exists w1, w2. unfold trim. rewrite <- E2. auto.
Qed.

(** ** Lemmas: a numeric literal holds no white space *)

Lemma digit_non_ws (b : Z) (c : ascii) : b <= 16 -> is_digit_in b c = true -> non_ws c = true.
Proof.
  intros Hb H. unfold non_ws. destruct (is_ws c) eqn:E; [|reflexivity]. exfalso.
  destruct c as [[|] [|] [|] [|] [|] [|] [|] [|]]; try discriminate E;
    unfold is_digit_in, digit_in in H; simpl in H;
    (destruct (Z.ltb_spec 16 b); [lia|discriminate]).
Qed.

Lemma digits_non_ws (b : Z) (s : string) :
  b <= 16 -> all_chars (is_digit_in b) s = true -> all_chars non_ws s = true.
Proof. intros Hb. apply all_chars_impl. intros c. now apply digit_non_ws. Qed.

Lemma exponent_non_ws (x : string) : OptExponentPart x -> all_chars non_ws x = true.
Proof.
  intros [->|[c sg ds Hc Hsg [_ Hds]]]; [reflexivity|]. simpl. rewrite all_chars_app.
  destruct Hc as [-> | ->]; destruct Hsg as [-> | [-> | ->]]; simpl;
    (apply (digits_non_ws 10); [lia|exact Hds]).
Qed.

Lemma literal_non_ws (t : string) : StrNumericLiteral t -> all_chars non_ws t = true.
Proof.
  assert (Hu : forall u, StrUnsignedDecimalLiteral u -> all_chars non_ws u = true).
  { intros u [| a b x [_ Ha] Hb Hx | b x [_ Hb] Hx | a x [_ Ha] Hx]; [reflexivity| | |];
      simpl; rewrite ?all_chars_app; simpl; rewrite ?all_chars_app;
      rewrite ?(digits_non_ws 10 a), ?(digits_non_ws 10 b), (exponent_non_ws x Hx);
      auto; lia. }
  intros [s [u H|u H|u H] | s [c b ds Hr [_ Hds]]]; simpl; rewrite ?Hu by exact H; auto.
  pose proof (radix_of_le c b Hr).
  apply radix_of_letter in Hr as [-> | [-> | [-> | [-> | [-> | ->]]]]];
    simpl; apply (digits_non_ws b); auto.
Qed.

(** ** StringToNumber against the grammar *)

Lemma string_to_number_eq (s : string) :
  string_to_number s =
  if String.eqb (trim s) EmptyString then Fin 0 0
  else match parse_numeric (trim s) with Some n => n | None => NaN end.
Proof. reflexivity. Qed.

(** StringToNumber yields a number (not NaN) exactly on the strings of
    the StringNumericLiteral grammar of the standard. *)
Theorem string_to_number_not_nan_iff (s : string) :
  is_nan (string_to_number s) = false <-> StringNumericLiteral s.
Proof.
  rewrite string_to_number_eq. split.
  - destruct (trim_split s) as (w1 & w2 & E & H1 & H2).
    intros Hn. exists w1, (trim s), w2. do 3 (split; [assumption|]).
    destruct (String.eqb_spec (trim s) "") as [He|He]; [now left|right].
    destruct (parse_numeric (trim s)) as [n|] eqn:Hp; [|discriminate].
    eapply parse_numeric_sound; eauto.
  - intros (w1 & lit & w2 & -> & H1 & H2 & Hl).
    assert (Hlit : all_chars non_ws lit = true)
      by (destruct Hl as [->|Hl]; [reflexivity|now apply literal_non_ws]).
    rewrite (trim_padded w1 lit w2 H1 H2 Hlit).
    destruct (String.eqb_spec lit "") as [->|Hne]; [reflexivity|].
    destruct Hl as [->|Hl]; [contradiction|].
    destruct (parse_numeric_complete lit Hl) as [n Hn]. rewrite Hn.
    eapply parse_numeric_not_nan; eauto.
Qed.

(** ** Decimal strings: their value, and concatenation *)

Lemma digits_value_acc (base acc : Z) (ds : list Z) :
  fold_left (fun a d => a * base + d) ds acc =
  acc * base ^ Z.of_nat (length ds) + fold_left (fun a d => a * base + d) ds 0.
Proof.
  revert acc. induction ds as [|d ds IH]; intros acc; [simpl; lia|]. cbn [fold_left length].
  rewrite (IH (acc * base + d)), (IH (0 * base + d)), Nat2Z.inj_succ, Z.pow_succ_r by lia. ring.
Qed.

Lemma digits_value_app (base : Z) (a b : list Z) :
  digits_value base (a ++ b) = digits_value base a * base ^ Z.of_nat (length b) + digits_value base b.
Proof. unfold digits_value. rewrite fold_left_app. apply digits_value_acc. Qed.

Lemma take_digits_fst_app (base : Z) (a b : string) :
  all_chars (is_digit_in base) a = true ->
  fst (take_digits base (a ++ b)) = fst (take_digits base a) ++ fst (take_digits base b).
Proof.
  induction a as [|c a IH]; simpl; [reflexivity|]. intros [Hc Ha]%andb_prop.
  unfold is_digit_in in Hc. destruct (digit_in base c) as [d|]; [|discriminate].
  specialize (IH Ha). destruct (take_digits base (a ++ b)), (take_digits base a).
  simpl in *. now rewrite IH.
Qed.

Lemma take_digits_all (base : Z) (s : string) :
  all_chars (is_digit_in base) s = true ->
  snd (take_digits base s) = EmptyString /\ length (fst (take_digits base s)) = String.length s.
Proof.
  intros Hs. destruct (take_digits_app base s "" Hs eq_refl) as [ds [E L]].
  rewrite string_append_nil_r in E. rewrite E. auto.
Qed.

Lemma decimal_value_app (a b : string) :
  all_chars (is_digit_in 10) a = true -> all_chars (is_digit_in 10) b = true ->
  decimal_value (a ++ b) = decimal_value a * 10 ^ Z.of_nat (String.length b) + decimal_value b.
Proof.
  intros Ha Hb. unfold decimal_value. rewrite take_digits_fst_app by exact Ha.
  rewrite digits_value_app, (proj2 (take_digits_all 10 b Hb)). reflexivity.
Qed.

(** The engine's reading of a string of decimal digits. *)
Lemma parse_unsigned_digits (t : string) :
  Digits 10 t -> parse_unsigned t = Some (of_Z (decimal_value t)).
Proof.
  intros Ht. unfold parse_unsigned, decimal_value.
  pose proof (digits_app_not_infinity t "" Ht) as Hi. rewrite string_append_nil_r in Hi.
  rewrite (proj2 (String.eqb_neq _ _) Hi).
  destruct (take_digits_all 10 t (proj2 Ht)) as [Hr Hl].
  destruct (take_digits 10 t) as [[|d ds] r]; simpl in Hr, Hl |- *; subst r.
  - pose proof (digits_length_pos _ _ Ht). lia.
  - reflexivity.
Qed.

(** A literal made of characters that are not white space is its own trim. *)
Lemma trim_non_ws (t : string) : all_chars non_ws t = true -> trim t = t.
Proof.
  intros Hnw. pose proof (trim_padded "" t "" eq_refl eq_refl Hnw) as E.
  simpl in E. now rewrite string_append_nil_r in E.
Qed.

(** A string of decimal digits converts to the integer it spells. *)
Lemma string_to_number_digits (t : string) :
  Digits 10 t -> string_to_number t = of_Z (decimal_value t).
Proof.
  intros Ht. rewrite string_to_number_eq.
  rewrite (trim_non_ws t (digits_non_ws 10 t ltac:(lia) (proj2 Ht))).
  destruct (String.eqb_spec t "") as [E|_]; [now destruct Ht|].
  now rewrite (parse_numeric_of_unsigned _ _ (parse_unsigned_digits t Ht)).
Qed.

(** [getMonth() + s] for a month index [M] and a string of digits [s]:
    the text of [M] followed by [s] converts to [M * 10^|s| + s]. *)
Lemma month_string_concat (M : Z) (s : string) :
  0 <= M <= 11 -> Digits 10 s ->
  string_to_number (number_to_string (of_Z M) ++ s) =
  of_Z (M * 10 ^ Z.of_nat (String.length s) + decimal_value s).
Proof.
  intros HM Hs.
  assert (Hp : all_chars (is_digit_in 10) (number_to_string (of_Z M)) = true /\
               decimal_value (number_to_string (of_Z M)) = M).
  { assert (C : M = 0 \/ M = 1 \/ M = 2 \/ M = 3 \/ M = 4 \/ M = 5 \/ M = 6 \/ M = 7 \/
                M = 8 \/ M = 9 \/ M = 10 \/ M = 11) by lia.
    repeat destruct C as [->|C]; try (subst M); split; reflexivity. }
  destruct Hp as [Hd Hv].
  rewrite string_to_number_digits.
  - rewrite decimal_value_app by (exact Hd || exact (proj2 Hs)). now rewrite Hv.
  - split; [|rewrite all_chars_app, Hd; exact (proj2 Hs)].
    destruct (number_to_string (of_Z M)); simpl; [exact (proj1 Hs)|discriminate].
Qed.

End JsNumber.
