(* ===== verification/NumberString.v ===== *)
(** * NumberString: Number::toString against StringToNumber

    The component turns numbers into text and back: [getMonth() +
    duracaoMeses] converts the month with Number::toString when the
    duration is text, and [setMonth] converts the result back with
    StringToNumber; [+params['id']] reads an id the router printed.  This
    file proves that the two conversions of [JsNumber] are inverse on the
    integers that print without an exponent (magnitude below 10^21):
    the digits Number::toString produces are the decimal digits of the
    integer ([Pos.to_uint] of the Standard Library), no trailing zero is
    lost by the layout, and StringToNumber reads them back. *)

From Stdlib Require Import ZArith String Ascii List Bool Lia DecimalString DecimalPos DecimalFacts.
From S2P Require Import Prelude JsNumber.
Import ListNotations.
Open Scope Z_scope.

Module NumberString.
Import JsNumber.

(** ** The decimal digits of a positive integer *)

Lemma take_digits_cons (c : ascii) (s : string) (d : Z) :
  digit_in 10 c = Some d -> fst (take_digits 10 (String c s)) = d :: fst (take_digits 10 s).
Proof. intros H. cbn [take_digits]. rewrite H. destruct (take_digits 10 s); reflexivity. Qed.

(** Read the leading digit of a string literal in the goal. *)
Ltac take_digit :=
  match goal with
  | |- context [take_digits 10 (String ?c ?s)] =>
      let d := eval vm_compute in (digit_in 10 c) in
      match d with Some ?v => rewrite (take_digits_cons c s v eq_refl) end
  end.

Lemma uint_all_digits (d : Decimal.uint) :
  all_chars (is_digit_in 10) (NilEmpty.string_of_uint d) = true.
Proof. induction d; cbn [NilEmpty.string_of_uint all_chars]; rewrite ?IHd; reflexivity. Qed.

Lemma uint_value_acc (d : Decimal.uint) (acc : positive) :
  fold_left (fun a x => a * 10 + x) (fst (take_digits 10 (NilEmpty.string_of_uint d))) (Zpos acc) =
  Zpos (Pos.of_uint_acc d acc).
Proof.
  revert acc. induction d; intros acc; [reflexivity|..];
    cbn [NilEmpty.string_of_uint]; take_digit;
    cbn [fold_left Pos.of_uint_acc]; rewrite <- IHd; f_equal; lia.
Qed.

Lemma uint_value (d : Decimal.uint) :
  decimal_value (NilEmpty.string_of_uint d) = Z.of_N (Pos.of_uint d).
Proof.
  unfold decimal_value, digits_value.
  induction d; [reflexivity|..]; cbn [NilEmpty.string_of_uint];
    take_digit; cbn [fold_left Pos.of_uint];
    [exact IHd|exact (uint_value_acc d _)..].
Qed.

Lemma pos_value (p : positive) :
  decimal_value (NilEmpty.string_of_uint (Pos.to_uint p)) = Zpos p.
Proof. rewrite uint_value, DecimalPos.Unsigned.of_to. reflexivity. Qed.

(** [Pos.to_uint] writes no leading zero. *)
Lemma pos_head (p : positive) :
  exists c t, NilEmpty.string_of_uint (Pos.to_uint p) = String c t /\
              1 <= decimal_value (String c EmptyString).
Proof.
  assert (Hn : Pos.to_uint p = Decimal.unorm (Pos.to_uint p)).
  { rewrite <- DecimalPos.Unsigned.to_of, DecimalPos.Unsigned.of_to. reflexivity. }
  pose proof (DecimalPos.Unsigned.to_uint_nonzero p) as Hz.
  destruct (Pos.to_uint p) as [|u|u|u|u|u|u|u|u|u|u];
    try (eexists _, _; split; [reflexivity|apply Z.leb_le; reflexivity]); exfalso.
  - discriminate Hn.
  - rewrite unorm_D0 in Hn.
    assert (Hu : u <> Decimal.Nil) by (intros ->; apply Hz; reflexivity).
    pose proof (nb_digits_unorm u Hu) as Hle. rewrite <- Hn in Hle.
    cbn [Decimal.nb_digits] in Hle. lia.
Qed.

Lemma digit_in_nonneg (b : Z) (c : ascii) (d : Z) : digit_in b c = Some d -> 0 <= d.
Proof.
  unfold digit_in. cbv zeta.
  repeat match goal with |- context [if ?x then _ else _] => destruct x eqn:? end;
    intros H; inversion H; subst; clear H;
    repeat match goal with H : (_ && _)%bool = true |- _ => apply andb_prop in H as [? ?] end;
    rewrite ?Z.leb_le in *; lia.
Qed.

Lemma digits_value_nonneg_acc (s : string) (acc : Z) :
  0 <= acc -> 0 <= fold_left (fun a d => a * 10 + d) (fst (take_digits 10 s)) acc.
Proof.
  revert acc. induction s as [|c s IH]; intros acc Hacc; [exact Hacc|].
  cbn [take_digits]. destruct (digit_in 10 c) as [d|] eqn:Ed; [|exact Hacc].
  pose proof (digit_in_nonneg _ _ _ Ed).
  specialize (IH (acc * 10 + d) ltac:(lia)).
  destruct (take_digits 10 s) as [ds r]. exact IH.
Qed.

Lemma decimal_value_nonneg (s : string) : 0 <= decimal_value s.
Proof. apply digits_value_nonneg_acc. lia. Qed.

Lemma pos_length (p : positive) :
  Zpos p < 10 ^ 21 -> (String.length (NilEmpty.string_of_uint (Pos.to_uint p)) <= 21)%nat.
Proof.
  intros Hp. destruct (pos_head p) as (c & t & E & Hc).
  pose proof (pos_value p) as V. pose proof (uint_all_digits (Pos.to_uint p)) as Hd.
  rewrite E in V, Hd |- *. cbn [String.length all_chars] in *.
  apply andb_prop in Hd as [Hc' Ht].
  assert (Hc1 : all_chars (is_digit_in 10) (String c EmptyString) = true)
    by (cbn [all_chars]; rewrite Hc'; reflexivity).
  change (String c t) with (String c EmptyString ++ t)%string in V.
  rewrite (decimal_value_app _ _ Hc1 Ht) in V.
  pose proof (decimal_value_nonneg t).
  pose proof (Z.pow_pos_nonneg 10 (Z.of_nat (String.length t)) ltac:(lia) ltac:(lia)).
  assert (Hlt : 10 ^ Z.of_nat (String.length t) < 10 ^ 21) by nia.
  apply Z.pow_lt_mono_r_iff in Hlt; lia.
Qed.

(** ** The layout of Number::toString on integers *)

Lemma strip_zeros_rev_spec (r : list ascii) (k : Z) :
  let (r', k') := strip_zeros_rev r k in
  r = repeat "0"%char (Z.to_nat (k' - k)) ++ r' /\ k <= k'.
Proof.
  revert k. induction r as [|c r IH]; intros k; cbn [strip_zeros_rev].
  - rewrite Z.sub_diag. split; [reflexivity|lia].
  - destruct (Ascii.eqb_spec c "0") as [->|_].
    + specialize (IH (k + 1)). destruct (strip_zeros_rev r (k + 1)) as [r' k'].
      destruct IH as [-> Hk]. split; [|lia].
      replace (Z.to_nat (k' - k)) with (S (Z.to_nat (k' - (k + 1)))) by lia. reflexivity.
    + rewrite Z.sub_diag. split; [reflexivity|lia].
Qed.

Lemma layout_integer (s : list ascii) (n : Z) :
  Z.of_nat (length s) <= n <= 21 -> layout s n = s ++ zeros (n - Z.of_nat (length s)).
Proof.
  intros [H1 H2]. unfold layout. cbv zeta.
  rewrite (proj2 (Z.leb_le _ _) H1), (proj2 (Z.leb_le _ _) H2). reflexivity.
Qed.

Lemma length_list_ascii (t : string) : length (list_ascii_of_string t) = String.length t.
Proof. induction t as [|c t IH]; cbn; [reflexivity|now rewrite IH]. Qed.

(** Below 10^21 an integer prints as its digits, trailing zeros kept. *)
Lemma positive_to_string_int (p : positive) :
  (length (pos_digits p) <= 21)%nat -> positive_to_string p 0 = pos_digits p.
Proof.
  intros Hl. unfold positive_to_string.
  pose proof (strip_zeros_rev_spec (rev (pos_digits p)) 0) as Hs.
  destruct (strip_zeros_rev (rev (pos_digits p)) 0) as [r k]. destruct Hs as [Hr Hk].
  rewrite Z.sub_0_r in Hr.
  assert (Hd : pos_digits p = rev r ++ repeat "0"%char (Z.to_nat k)).
  { rewrite <- (rev_involutive (pos_digits p)), Hr, rev_app_distr, rev_repeat. reflexivity. }
  rewrite Hd, length_app, repeat_length in Hl.
  rewrite layout_integer by lia. unfold zeros. rewrite Hd. do 3 f_equal. lia.
Qed.

(** A minus sign before a string of decimal digits negates its value. *)
Lemma string_to_number_minus (t : string) :
  Digits 10 t -> string_to_number (String "-" t) = of_Z (- decimal_value t).
Proof.
  intros Ht. rewrite string_to_number_eq.
  rewrite trim_non_ws
    by (cbn [all_chars]; rewrite (digits_non_ws 10 t ltac:(lia) (proj2 Ht)); reflexivity).
  change (String.eqb (String "-" t) EmptyString) with false. cbv iota.
  change (parse_numeric (String "-" t)) with (option_map neg (parse_unsigned t)).
  rewrite parse_unsigned_digits by exact Ht. reflexivity.
Qed.

Lemma pos_digits_literal (p : positive) :
  Digits 10 (NilEmpty.string_of_uint (Pos.to_uint p)).
Proof.
  split; [|apply uint_all_digits].
  destruct (pos_head p) as (c & t & -> & _). discriminate.
Qed.

(** ** The round trip *)

(** Every integer of magnitude below 10^21 reads back from the
    string Number::toString writes for it: StringToNumber (ToString z) = z.
    (From 10^21 on, Number::toString switches to exponent notation.) *)
Theorem number_string_roundtrip (z : Z) :
  Z.abs z < 10 ^ 21 -> string_to_number (number_to_string (of_Z z)) = of_Z z.
Proof.
  intros Hz. destruct z as [|p|p]; [reflexivity| |];
    assert (Hl : (length (pos_digits p) <= 21)%nat)
      by (unfold pos_digits; rewrite length_list_ascii; apply pos_length; exact Hz);
    cbn [of_Z number_to_string]; rewrite (positive_to_string_int p Hl);
    unfold pos_digits; rewrite string_of_list_ascii_of_string.
  - rewrite string_to_number_digits, pos_value by apply pos_digits_literal. reflexivity.
  - rewrite string_to_number_minus, pos_value by apply pos_digits_literal. reflexivity.
Qed.

End NumberString.
