(* ===== verification/JsDate.v ===== *)
(** * JsDate: time values and the Date operations the component calls

    [calcularDataFimGarantia] runs [new Date(dataCompra)], [getMonth()] and
    [setMonth(...)]; [dateValidator] runs [new Date(control.value)] and
    [getTime()].  This file models the ECMAScript time-value arithmetic
    (ES2023 21.4.1) they are defined by: days and civil dates, MakeDay,
    MakeDate, TimeClip, local time through the platform's time-zone rules
    (an interface, [LocalTZA]: an offset and its daylight-saving
    transitions, with UTC and Sao Paulo instances; LocalTZA(t, true) is
    [offset_at], LocalTZA(t, false) is [offset_local]), the [setMonth]
    and [getMonth] algorithms on a time value, the Date Time String
    Format parser of [Date.parse] and [Date.prototype.toString].  Civil
    dates are computed with the closed-form day/civil conversions, proved
    to agree with the standard's DayFromYear/InLeapYear tables; [UTC] is
    proved to choose the instant the standard's UTC(t) chooses. *)

From Stdlib Require Import ZArith String Ascii List Bool Lia.
From S2P Require Import Prelude JsNumber.
Import ListNotations.
Open Scope Z_scope.
Open Scope string_scope.
Open Scope Z_scope.

Module JsDate.
Import JsNumber.

(** ** Constants (ES2023 21.4.1.2, 21.4.1.14) *)

Definition msPerSecond : Z := 1000.
Definition msPerMinute : Z := 60000.
Definition msPerHour : Z := 3600000.
Definition msPerDay : Z := 86400000.

(** The largest magnitude of a time value: 8.64e15 ms, 100 000 000 days. *)
Definition maxTime : Z := 8640000000000000.

(** A time value: [None] is NaN, [Some t] is [t] ms from the epoch. *)
Definition time_value := option Z.

(** ** The local time zone (ES2023 21.4.1.20, 21.4.1.25, 21.4.1.26) *)

(** What the host promises the Date algorithms: its time-zone rules, an
    offset [tza] of local time from UTC and the transitions of its
    history (daylight saving time, rule changes), each the UTC instant in
    ms from which a new offset holds, in increasing order; every offset is
    less than one day. *)
Class LocalTZA := {
  tza : Z;
  tz_transitions : list (Z * Z);
  tz_bound : Forall (fun o => - msPerDay < o < msPerDay) (tza :: map snd tz_transitions)
}.

(** The offset in force at the UTC instant [u]
    (GetNamedTimeZoneOffsetNanoseconds): that of the last transition at
    or before [u]. *)
Definition offset_at `{LocalTZA} (u : Z) : Z :=
  fold_left (fun o tr => if fst tr <=? u then snd tr else o) tz_transitions tza.

(** The offset [UTC] applies to a local time [t]: after a transition
    [t] is read with the new offset once every local time from there on
    has a single reading with it, [tz_at + max o o'] on; a local time
    repeated by a negative transition, or skipped by a positive one, is
    read with the offset before the transition (ES2023 21.4.1.26, steps
    4.b to 4.e). *)
Definition offset_local `{LocalTZA} (t : Z) : Z :=
  fold_left (fun o tr => if fst tr + Z.max o (snd tr) <=? t then snd tr else o) tz_transitions tza.

Definition LocalTime `{LocalTZA} (t : Z) : Z := t + offset_at t.
Definition UTC `{LocalTZA} (t : Z) : Z := t - offset_local t.

(** A local time that the zone does not skip: [UTC] gives an instant
    whose local time it is. *)
Definition local_time_exists `{LocalTZA} (x : Z) : bool := offset_at (UTC x) =? offset_local x.

(** Hosts' time zones; a development states which one it runs in
    ([Existing Instance]), the theorems hold for every [LocalTZA]. *)
Definition UTC_zone : LocalTZA :=
  {| tza := 0; tz_transitions := []; tz_bound := ltac:(repeat constructor; unfold msPerDay; lia) |}.

(** America/Sao_Paulo today, UTC-03:00 all year (no DST since 2019). *)
Definition SaoPaulo_zone : LocalTZA :=
  {| tza := -10800000; tz_transitions := []; tz_bound := ltac:(repeat constructor; unfold msPerDay; lia) |}.

(** America/Sao_Paulo in the 2018/19 summer: UTC-03:00, then UTC-02:00
    from 2018-11-04T03:00Z (local midnight skipped to 01:00), then
    UTC-03:00 again from 2019-02-17T02:00Z (local 23:00 to 24:00 of
    2019-02-16 repeated). *)
Definition SaoPaulo_2018_zone : LocalTZA :=
  {| tza := -10800000;
     tz_transitions := [(1541300400000, -7200000); (1550368800000, -10800000)];
     tz_bound := ltac:(cbn; repeat constructor; unfold msPerDay; lia) |}.

(** Zone rules whose transitions are spaced: each transition more than two
    days after every earlier one (offsets are less than a day, so the
    local times one transition repeats or skips are not touched by
    another). *)
Fixpoint transitions_spaced (l : list (Z * Z)) : bool :=
  match l with
  | [] => true
  | tr :: l' => forallb (fun tr' => fst tr + 2 * msPerDay <? fst tr') l' && transitions_spaced l'
  end.

(** The two folds of [offset_at] and [offset_local] on any rule list. *)
Definition fold_at (l : list (Z * Z)) (b u : Z) : Z :=
  fold_left (fun o tr => if fst tr <=? u then snd tr else o) l b.

Definition fold_local (l : list (Z * Z)) (b x : Z) : Z :=
  fold_left (fun o tr => if fst tr + Z.max o (snd tr) <=? x then snd tr else o) l b.

(** The offset after the last transition of [l]. *)
Definition last_offset (l : list (Z * Z)) (b : Z) : Z := fold_left (fun _ tr => snd tr) l b.

(** ** Days and civil dates (ES2023 21.4.1.3 to 21.4.1.13) *)

Definition Day (t : Z) : Z := t / msPerDay.
Definition TimeWithinDay (t : Z) : Z := t mod msPerDay.

(** Days from 1970-01-01 to the civil date [y]-[m]-[d], [1 <= m <= 12]. *)
Definition days_from_civil (y m d : Z) : Z :=
  let y' := if m <=? 2 then y - 1 else y in
  let era := y' / 400 in
  let yoe := y' - era * 400 in
  let mp := (m + 9) mod 12 in
  let doy := (153 * mp + 2) / 5 + d - 1 in
  let doe := yoe * 365 + yoe / 4 - yoe / 100 + doy in
  era * 146097 + doe - 719468.

(** The civil date (year, month 1..12, day 1..31) of a day number. *)
Definition civil_from_days (z0 : Z) : Z * Z * Z :=
  let z := z0 + 719468 in
  let era := z / 146097 in
  let doe := z - era * 146097 in
  let yoe := (doe - doe / 1460 + doe / 36524 - doe / 146096) / 365 in
  let doy := doe - (365 * yoe + yoe / 4 - yoe / 100) in
  let mp := (5 * doy + 2) / 153 in
  let d := doy - (153 * mp + 2) / 5 + 1 in
  let m := if mp <? 10 then mp + 3 else mp - 9 in
  let y := yoe + era * 400 in
  (if m <=? 2 then y + 1 else y, m, d).

Definition YearFromTime (t : Z) : Z := fst (fst (civil_from_days (Day t))).
(** MonthFromTime is 0-based: 0 is January. *)
Definition MonthFromTime (t : Z) : Z := snd (fst (civil_from_days (Day t))) - 1.
Definition DateFromTime (t : Z) : Z := snd (civil_from_days (Day t)).
Definition WeekDay (t : Z) : Z := (Day t + 4) mod 7.
Definition HourFromTime (t : Z) : Z := (t / msPerHour) mod 24.
Definition MinFromTime (t : Z) : Z := (t / msPerMinute) mod 60.
Definition SecFromTime (t : Z) : Z := (t / msPerSecond) mod 60.
Definition msFromTime (t : Z) : Z := t mod msPerSecond.

(** ** MakeTime, MakeDay, MakeDate, TimeClip (ES2023 21.4.1.27 to 21.4.1.31) *)

(** The four arguments are integers here: every caller in the component
    passes integral values. *)
Definition MakeTime (h m s ms : Z) : Z :=
  h * msPerHour + m * msPerMinute + s * msPerSecond + ms.

Definition MakeDay (year month date : number) : option Z :=
  match year, month, date with
  | Fin ym ye, Fin mm me, Fin dm de =>
      let y := trunc ym ye in
      let m := trunc mm me in
      let dt := trunc dm de in
      let ym' := y + m / 12 in
      let mn := m mod 12 in
      Some (days_from_civil ym' (mn + 1) 1 + dt - 1)
  | _, _, _ => None
  end.

Definition MakeDate (day : option Z) (time : Z) : option Z :=
  option_map (fun d => d * msPerDay + time) day.

Definition TimeClip (time : option Z) : time_value :=
  match time with
  | Some t => if Z.abs t <=? maxTime then Some t else None
  | None => None
  end.

(** ** The standard's definitions of years (ES2023 21.4.1.3) *)

(** These are the reference the closed-form conversions are proved
    against; the Date algorithms use the conversions. *)
Definition DayFromYear (y : Z) : Z :=
  365 * (y - 1970) + (y - 1969) / 4 - (y - 1901) / 100 + (y - 1601) / 400.

Definition InLeapYear (y : Z) : bool :=
  (y mod 4 =? 0) && (negb (y mod 100 =? 0) || (y mod 400 =? 0)).

Definition leap (y : Z) : Z := if InLeapYear y then 1 else 0.

Definition DaysInYear (y : Z) : Z := 365 + leap y.

(** Days of the year before month [m] (0-based), the table of 21.4.1.6. *)
Definition month_start (y m : Z) : Z :=
  match m with
  | 0 => 0 | 1 => 31 | 2 => 59 + leap y | 3 => 90 + leap y | 4 => 120 + leap y
  | 5 => 151 + leap y | 6 => 181 + leap y | 7 => 212 + leap y | 8 => 243 + leap y
  | 9 => 273 + leap y | 10 => 304 + leap y | _ => 334 + leap y
  end.

(** Days in month [m] (1-based) of year [y]. *)
Definition DaysInMonth (y m : Z) : Z :=
  match m with
  | 2 => 28 + leap y
  | 4 | 6 | 9 | 11 => 30
  | _ => 31
  end.

Definition valid_civil (y m d : Z) : Prop := 1 <= m <= 12 /\ 1 <= d <= DaysInMonth y m.

(** The 0-based day of a valid date within its year. *)
Definition day_in_year (y m d : Z) : Z := month_start y (m - 1) + d - 1.

(** Days from 0000-03-01 to the 1st of March of year [y]. *)
Definition gregorian_days (y : Z) : Z := 365 * y + y / 4 - y / 100 + y / 400.

(** ** The Date methods on a time value (ES2023 21.4.4) *)

(** Date.prototype.getTime (21.4.4.10). *)
Definition getTime (tv : time_value) : number :=
  match tv with Some t => of_Z t | None => NaN end.

(** Date.prototype.getMonth (21.4.4.8). *)
Definition getMonth `{LocalTZA} (tv : time_value) : number :=
  match tv with Some t => of_Z (MonthFromTime (LocalTime t)) | None => NaN end.

(** Date.prototype.setMonth (21.4.4.28) called with one argument [m]
    (already converted by ToNumber): the new [[DateValue]], which is
    both stored in the object and returned. *)
Definition setMonth `{LocalTZA} (tv : time_value) (m : number) : time_value :=
  match tv with
  | None => None
  | Some t0 =>
      let t := LocalTime t0 in
      let newDate :=
        MakeDate (MakeDay (of_Z (YearFromTime t)) m (of_Z (DateFromTime t))) (TimeWithinDay t) in
      TimeClip (option_map UTC newDate)
  end.

(** ** Date.parse on the Date Time String Format (21.4.1.32, 21.4.3.2) *)

(** Exactly [n] decimal digits at the head of [s], read into [acc]. *)
Fixpoint take_fixed (n : nat) (s : string) (acc : Z) : option (Z * string) :=
  match n, s with
  | O, _ => Some (acc, s)
  | S n', String c r =>
      match dec_digit c with Some d => take_fixed n' r (acc * 10 + d) | None => None end
  | S _, EmptyString => None
  end.

(** YYYY, +YYYYYY or -YYYYYY; -000000 is not a year. *)
Definition parse_year (s : string) : option (Z * string) :=
  match strip_char "+" s with
  | Some r => take_fixed 6 r 0
  | None =>
      match strip_char "-" s with
      | Some r =>
          match take_fixed 6 r 0 with
          | Some (y, r') => if y =? 0 then None else Some (- y, r')
          | None => None
          end
      | None => take_fixed 4 s 0
      end
  end.

(** An optional [c] followed by exactly [n] digits; [dflt] when absent. *)
Definition opt_field (c : ascii) (n : nat) (dflt : Z) (s : string) : option (Z * string) :=
  match strip_char c s with
  | Some r => take_fixed n r 0
  | None => Some (dflt, s)
  end.

(** The offset suffix: [Some None] for none (local time), [Some (Some o)]
    for "Z" or an offset of [o] ms east of UTC. *)
Definition parse_offset (s : string) : option (option Z) :=
  match s with
  | EmptyString => Some None
  | String c r =>
      if (c =? "Z")%char then (if String.eqb r "" then Some (Some 0) else None)
      else if (c =? "+")%char || (c =? "-")%char then
        match take_fixed 2 r 0 with
        | Some (hh, String ":" r2) =>
            match take_fixed 2 r2 0 with
            | Some (mm, EmptyString) =>
                if (hh <=? 23) && (mm <=? 59) then
                  Some (Some ((if (c =? "-")%char then -1 else 1) * (hh * msPerHour + mm * msPerMinute)))
                else None
            | _ => None
            end
        | _ => None
        end
      else None
  end.

(** The time part after "T": HH:mm, HH:mm:ss or HH:mm:ss.sss, an offset. *)
Definition parse_time (s : string) : option (Z * Z * Z * Z * option Z) :=
  match take_fixed 2 s 0 with
  | Some (hh, String ":" r1) =>
      match take_fixed 2 r1 0 with
      | Some (mi, r2) =>
          match opt_field ":" 2 0 r2 with
          | Some (ss, r3) =>
              match (if String.eqb r3 "" then Some (0, r3) else
                     match strip_char ":" r2 with Some _ => opt_field "." 3 0 r3 | None => Some (0, r3) end) with
              | Some (ms, r4) =>
                  match parse_offset r4 with
                  | Some off => Some (hh, mi, ss, ms, off)
                  | None => None
                  end
              | None => None
              end
          | None => None
          end
      | None => None
      end
  | _ => None
  end.

(** The time value denoted by a string of the Date Time String Format, or
    [None] for a string that does not conform or holds an illegal field. *)
Definition parse_date `{LocalTZA} (s : string) : option Z :=
  match parse_year s with
  | None => None
  | Some (y, r1) =>
      match opt_field "-" 2 1 r1 with
      | None => None
      | Some (mo, r2) =>
          match (match strip_char "-" r1 with Some _ => opt_field "-" 2 1 r2 | None => Some (1, r2) end) with
          | None => None
          | Some (dd, r3) =>
              let date_ok := (1 <=? mo) && (mo <=? 12) && (1 <=? dd) && (dd <=? 31) in
              let day := MakeDay (of_Z y) (of_Z (mo - 1)) (of_Z dd) in
              match r3 with
              | EmptyString => if date_ok then MakeDate day 0 else None
              | String "T" r4 =>
                  match parse_time r4 with
                  | Some (hh, mi, ss, ms, off) =>
                      let time_ok :=
                        (hh <=? 24) && (mi <=? 59) && (ss <=? 59) &&
                        (negb (hh =? 24) || ((mi =? 0) && (ss =? 0) && (ms =? 0))) in
                      if date_ok && time_ok then
                        let t := MakeDate day (MakeTime hh mi ss ms) in
                        match off with
                        | None => option_map UTC t
                        | Some o => option_map (fun t => t - o) t
                        end
                      else None
                  | None => None
                  end
              | _ => None
              end
          end
      end
  end.

(** The year and (1-based) month MakeDay lands in for month index [k]
    counted from January of year [y]. *)
Definition target_year (y k : Z) : Z := y + k / 12.
Definition target_month (k : Z) : Z := k mod 12 + 1.

(** The local time [setMonth] builds (steps 4 to 6) for an integral month
    [k] on the time value [t0]: the day of month of [t0] in month [k] of
    its year, at its local time of day. *)
Definition month_target `{LocalTZA} (t0 k : Z) : Z :=
  days_from_civil (target_year (YearFromTime (LocalTime t0)) k) (target_month k)
    (DateFromTime (LocalTime t0)) * msPerDay + TimeWithinDay (LocalTime t0).

(** ** Date.prototype.toString (21.4.4.41) *)

Definition week_day_name (w : Z) : string :=
  match w with
  | 0 => "Sun" | 1 => "Mon" | 2 => "Tue" | 3 => "Wed" | 4 => "Thu" | 5 => "Fri" | _ => "Sat"
  end.

Definition month_name (m : Z) : string :=
  match m with
  | 0 => "Jan" | 1 => "Feb" | 2 => "Mar" | 3 => "Apr" | 4 => "May" | 5 => "Jun"
  | 6 => "Jul" | 7 => "Aug" | 8 => "Sep" | 9 => "Oct" | 10 => "Nov" | _ => "Dec"
  end.

(** The decimal digits of [z >= 0], left-padded with zeros to [n]. *)
Definition pad (n : nat) (z : Z) : string :=
  let ds := int_digits z in
  string_of_list_ascii (repeat "0"%char (n - length ds) ++ ds).

Definition DateString (t : Z) : string :=
  let yv := YearFromTime t in
  week_day_name (WeekDay t) ++ " " ++ month_name (MonthFromTime t) ++ " " ++
  pad 2 (DateFromTime t) ++ " " ++ (if 0 <=? yv then "" else "-") ++ pad 4 (Z.abs yv).

Definition TimeString (t : Z) : string :=
  pad 2 (HourFromTime t) ++ ":" ++ pad 2 (MinFromTime t) ++ ":" ++ pad 2 (SecFromTime t) ++ " GMT".

(** The offset in force at [t]; the implementation-defined time-zone
    name is taken to be empty. *)
Definition TimeZoneString `{LocalTZA} (t : Z) : string :=
  let o := offset_at t in
  (if 0 <=? o then "+" else "-") ++
  pad 2 (HourFromTime (Z.abs o)) ++ pad 2 (MinFromTime (Z.abs o)).

Definition ToDateString `{LocalTZA} (tv : time_value) : string :=
  match tv with
  | None => "Invalid Date"
  | Some t => let lt := LocalTime t in DateString lt ++ " " ++ TimeString lt ++ TimeZoneString t
  end.

(** ** Calendar lemmas *)

Lemma leap_spec (y : Z) :
  leap y = 1 /\ y mod 4 = 0 /\ (y mod 100 <> 0 \/ y mod 400 = 0) \/
  leap y = 0 /\ (y mod 4 <> 0 \/ y mod 100 = 0 /\ y mod 400 <> 0).
Proof.
  unfold leap, InLeapYear.
  destruct (Z.eqb_spec (y mod 4) 0), (Z.eqb_spec (y mod 100) 0), (Z.eqb_spec (y mod 400) 0);
    simpl; tauto.
Qed.

Lemma gregorian_days_succ (y : Z) : gregorian_days y = gregorian_days (y - 1) + 365 + leap y.
Proof. unfold gregorian_days. destruct (leap_spec y) as [(-> & ? & ?)|(-> & ?)]; zdiv. Qed.

Lemma era_decomp (y : Z) :
  y / 400 * 146097 + (y - y / 400 * 400) * 365 + (y - y / 400 * 400) / 4
  - (y - y / 400 * 400) / 100 = gregorian_days y.
Proof. unfold gregorian_days. zdiv. Qed.

Lemma DayFromYear_gregorian (y : Z) : DayFromYear y = gregorian_days (y - 1) - 719162.
Proof. unfold DayFromYear, gregorian_days. zdiv. Qed.

Lemma DayFromYear_succ (y : Z) : DayFromYear (y + 1) = DayFromYear y + DaysInYear y.
Proof.
  rewrite !DayFromYear_gregorian. replace (y + 1 - 1) with y by lia.
  rewrite (gregorian_days_succ y). unfold DaysInYear. lia.
Qed.

Lemma leap_bounds (y : Z) : 0 <= leap y <= 1.
Proof. unfold leap. destruct (InLeapYear y); lia. Qed.

#[export] Hint Resolve leap_bounds : js.

Lemma days_from_civil_gregorian (y m d : Z) :
  days_from_civil y m d =
  gregorian_days (if m <=? 2 then y - 1 else y) + (153 * ((m + 9) mod 12) + 2) / 5 + d - 1
  - 719468.
Proof. unfold days_from_civil. cbv zeta. rewrite <- era_decomp. lia. Qed.

(** The closed form agrees with the standard: the day number of the
    [d]-th day of month [m] (0-based) of year [y] is DayFromYear plus the
    days of the months before plus the day of the month. *)
Theorem days_from_civil_spec (y m d : Z) :
  0 <= m <= 11 -> days_from_civil y (m + 1) d = DayFromYear y + month_start y m + d - 1.
Proof.
  intros Hm. rewrite days_from_civil_gregorian, DayFromYear_gregorian.
  assert (Hc : m = 0 \/ m = 1 \/ m = 2 \/ m = 3 \/ m = 4 \/ m = 5 \/ m = 6 \/ m = 7 \/
               m = 8 \/ m = 9 \/ m = 10 \/ m = 11) by lia.
  repeat destruct Hc as [-> | Hc]; subst; cbn [month_start]; zcases; cbv beta iota;
    rewrite ?(gregorian_days_succ y); try lia; zdiv.
Qed.

Lemma leap_add_400 (x k : Z) : leap (x + k * 400) = leap x.
Proof.
  unfold leap, InLeapYear.
  replace ((x + k * 400) mod 4) with (x mod 4) by zdiv.
  replace ((x + k * 400) mod 100) with (x mod 100) by zdiv.
  replace ((x + k * 400) mod 400) with (x mod 400) by zdiv. reflexivity.
Qed.

(** The year-of-era and day-of-year steps of [civil_from_days]. *)
Lemma civil_core (doe : Z) :
  0 <= doe <= 146096 ->
  let yoe := (doe - doe / 1460 + doe / 36524 - doe / 146096) / 365 in
  let doy := doe - (365 * yoe + yoe / 4 - yoe / 100) in
  0 <= yoe <= 399 /\ 0 <= doy <= 365 /\ (doy = 365 -> leap (yoe + 1) = 1).
Proof.
  intros H yoe doy. subst yoe doy.
  destruct (leap_spec ((doe - doe / 1460 + doe / 36524 - doe / 146096) / 365 + 1))
    as [(-> & _)|(-> & Hl)]; [zdiv|].
  split; [zdiv|split; [zdiv|]]. intros E. exfalso. zdiv.
Qed.

Lemma gregorian_days_era (era yoe : Z) :
  0 <= yoe <= 399 ->
  gregorian_days (yoe + era * 400) = era * 146097 + (365 * yoe + yoe / 4 - yoe / 100).
Proof. intros H. unfold gregorian_days. zdiv. Qed.

(** [days_from_civil] on a date given by its era, year of era and
    March-based month, as [civil_from_days] produces it. *)
Lemma days_from_civil_march (era yoe mp d : Z) :
  0 <= yoe <= 399 -> 0 <= mp <= 11 ->
  days_from_civil
    (if (if mp <? 10 then mp + 3 else mp - 9) <=? 2 then yoe + era * 400 + 1
     else yoe + era * 400)
    (if mp <? 10 then mp + 3 else mp - 9) d =
  era * 146097 + (365 * yoe + yoe / 4 - yoe / 100) + (153 * mp + 2) / 5 + d - 1 - 719468.
Proof.
  intros Hy Hmp. rewrite days_from_civil_gregorian.
  destruct (Z.ltb_spec mp 10); cbv beta iota; zcases; cbv beta iota; try lia;
    rewrite ?Z.add_simpl_r, gregorian_days_era by exact Hy;
    [replace ((mp + 3 + 9) mod 12) with mp by zdiv | replace ((mp - 9 + 9) mod 12) with mp by zdiv];
    lia.
Qed.

Lemma civil_month_days (y mp : Z) :
  0 <= mp <= 10 ->
  DaysInMonth y (if mp <? 10 then mp + 3 else mp - 9) = (153 * (mp + 1) + 2) / 5 - (153 * mp + 2) / 5.
Proof.
  intros H.
  assert (Hc : mp = 0 \/ mp = 1 \/ mp = 2 \/ mp = 3 \/ mp = 4 \/ mp = 5 \/ mp = 6 \/
               mp = 7 \/ mp = 8 \/ mp = 9 \/ mp = 10) by lia.
  repeat destruct Hc as [-> | Hc]; [..|subst]; reflexivity.
Qed.

(** The state of [civil_from_days z], step by step. *)
Ltac civil_unfold z :=
  unfold civil_from_days; cbv beta iota zeta;
  let era := fresh "era" in let doe := fresh "doe" in let yoe := fresh "yoe" in
  let doy := fresh "doy" in let mp := fresh "mp" in
  remember ((z + 719468) / 146097) as era eqn:Hera;
  remember (z + 719468 - era * 146097) as doe eqn:Hdoe;
  assert (Hb : 0 <= doe <= 146096) by (subst; zdiv);
  pose proof (civil_core doe Hb) as Hcore; cbv zeta in Hcore;
  remember ((doe - doe / 1460 + doe / 36524 - doe / 146096) / 365) as yoe eqn:Hyoe;
  remember (doe - (365 * yoe + yoe / 4 - yoe / 100)) as doy eqn:Hdoy;
  remember ((5 * doy + 2) / 153) as mp eqn:Hmp;
  assert (Hmpb : 0 <= mp <= 11) by (subst mp; zdiv).

(** Round trip, first half: the civil date computed for a day number
    denotes that day number. *)
Theorem days_from_civil_from_days (z : Z) :
  let '(y, m, d) := civil_from_days z in days_from_civil y m d = z.
Proof.
  civil_unfold z. destruct Hcore as (Hy & Hd & _).
  rewrite (days_from_civil_march era yoe mp) by assumption. lia.
Qed.

(** The civil date computed for a day number is a valid date. *)
Theorem civil_from_days_valid (z : Z) :
  let '(y, m, d) := civil_from_days z in valid_civil y m d.
Proof.
  civil_unfold z. destruct Hcore as (Hy & Hd & Hfeb).
  assert (Hlo : (153 * mp + 2) / 5 <= doy) by (subst mp; zdiv).
  assert (Hhi : doy < (153 * (mp + 1) + 2) / 5) by (subst mp; zdiv).
  unfold valid_civil. destruct (Z.eq_dec mp 11) as [E|E].
  - subst mp. rewrite E. cbv beta iota. zcases; cbv beta iota; try lia.
    change (DaysInMonth (yoe + era * 400 + 1) (11 - 9)) with (28 + leap (yoe + era * 400 + 1)).
    replace (yoe + era * 400 + 1) with (yoe + 1 + era * 400) by lia.
    rewrite leap_add_400. rewrite E in Hlo. cbn in Hlo.
    destruct (Z.eq_dec doy 365) as [Ed|Ed]; [rewrite (Hfeb Ed)|pose proof (leap_bounds (yoe + 1))]; zdiv.
  - rewrite civil_month_days by lia.
    destruct (Z.ltb_spec mp 10); cbv beta iota; lia.
Qed.

Lemma gregorian_days_mono (x x' : Z) : x <= x' -> gregorian_days x <= gregorian_days x'.
Proof. intros H. unfold gregorian_days. zdiv. Qed.

Lemma DayFromYear_gap (y1 y2 : Z) : y1 < y2 -> DayFromYear y1 + DaysInYear y1 <= DayFromYear y2.
Proof.
  intros H. rewrite <- DayFromYear_succ, !DayFromYear_gregorian.
  pose proof (gregorian_days_mono (y1 + 1 - 1) (y2 - 1)). lia.
Qed.

(** Days of the year before the [d]-th of month [m] (1-based). *)
Ltac month_cases m :=
  let Hc := fresh in
  assert (Hc : m = 1 \/ m = 2 \/ m = 3 \/ m = 4 \/ m = 5 \/ m = 6 \/ m = 7 \/ m = 8 \/
               m = 9 \/ m = 10 \/ m = 11 \/ m = 12) by lia;
  repeat destruct Hc as [-> | Hc]; [..|subst m].

(** Evaluates the closed month argument of [month_start], then the tables. *)
Ltac calendar_norm :=
  repeat match goal with
  | |- context [month_start _ ?k] => let k' := eval vm_compute in k in progress change k with k'
  | |- context [DaysInMonth _ ?k] => let k' := eval vm_compute in k in progress change k with k'
  end;
  cbn [month_start DaysInMonth] in *.

Lemma day_in_year_bounds (y m d : Z) :
  valid_civil y m d -> 0 <= day_in_year y m d < DaysInYear y.
Proof.
  intros [Hm Hd]. pose proof (leap_bounds y). unfold day_in_year, DaysInYear.
  month_cases m; calendar_norm; lia.
Qed.

Lemma day_in_year_inj (y m1 d1 m2 d2 : Z) :
  valid_civil y m1 d1 -> valid_civil y m2 d2 ->
  day_in_year y m1 d1 = day_in_year y m2 d2 -> m1 = m2 /\ d1 = d2.
Proof.
  intros [Hm1 Hd1] [Hm2 Hd2]. pose proof (leap_bounds y). unfold day_in_year.
  month_cases m1; month_cases m2; calendar_norm; lia.
Qed.

(** Two valid civil dates with the same day number are the same date. *)
Lemma days_from_civil_inj (y1 m1 d1 y2 m2 d2 : Z) :
  valid_civil y1 m1 d1 -> valid_civil y2 m2 d2 ->
  days_from_civil y1 m1 d1 = days_from_civil y2 m2 d2 -> y1 = y2 /\ m1 = m2 /\ d1 = d2.
Proof.
  intros V1 V2 E.
  pose proof (day_in_year_bounds _ _ _ V1) as B1. pose proof (day_in_year_bounds _ _ _ V2) as B2.
  destruct V1 as [Hm1 Hd1], V2 as [Hm2 Hd2].
  replace m1 with (m1 - 1 + 1) in E by lia. replace m2 with (m2 - 1 + 1) in E by lia.
  rewrite !days_from_civil_spec in E by lia. unfold day_in_year in B1, B2.
  assert (y1 = y2).
  { destruct (Z.lt_trichotomy y1 y2) as [H|[H|H]]; [|exact H|];
      [pose proof (DayFromYear_gap y1 y2 H) | pose proof (DayFromYear_gap y2 y1 H)]; lia. }
  subst y2. split; [reflexivity|].
  apply (day_in_year_inj y1); [split; auto | split; auto | unfold day_in_year; lia].
Qed.

(** Round trip, second half: the day number of a valid civil date is
    converted back to that date. *)
Theorem civil_from_days_from_civil (y m d : Z) :
  valid_civil y m d -> civil_from_days (days_from_civil y m d) = (y, m, d).
Proof.
  intros V. pose proof (days_from_civil_from_days (days_from_civil y m d)) as E.
  pose proof (civil_from_days_valid (days_from_civil y m d)) as V'.
  destruct (civil_from_days (days_from_civil y m d)) as [[y' m'] d'].
  destruct (days_from_civil_inj _ _ _ _ _ _ V' V E) as (-> & -> & ->). reflexivity.
Qed.

(** ** Lemmas: time values *)

Lemma trunc_int (k : Z) : trunc k 0 = k.
Proof. unfold trunc. simpl. lia. Qed.

Lemma days_from_civil_day (y m d : Z) : days_from_civil y m 1 + d - 1 = days_from_civil y m d.
Proof. unfold days_from_civil. cbv zeta. lia. Qed.

Lemma days_from_civil_pred (y m d : Z) : days_from_civil y m (d - 1) = days_from_civil y m d - 1.
Proof. unfold days_from_civil. cbv zeta. lia. Qed.

Lemma Day_split (day tod : Z) :
  0 <= tod < msPerDay -> Day (day * msPerDay + tod) = day /\ TimeWithinDay (day * msPerDay + tod) = tod.
Proof. intros H. unfold Day, TimeWithinDay, msPerDay in *. apply div_mod_unique_pos; lia. Qed.

Lemma TimeWithinDay_bounds (t : Z) : 0 <= TimeWithinDay t < msPerDay.
Proof. unfold TimeWithinDay, msPerDay. apply Z.mod_pos_bound. lia. Qed.

Lemma TimeClip_some (x t1 : Z) : TimeClip (Some x) = Some t1 -> t1 = x /\ Z.abs x <= maxTime.
Proof. simpl. destruct (Z.leb_spec (Z.abs x) maxTime); intros [=]; auto. Qed.

Lemma DateFromTime_bounds (t : Z) :
  1 <= DateFromTime t <= DaysInMonth (YearFromTime t) (MonthFromTime t + 1) /\
  0 <= MonthFromTime t <= 11.
Proof.
  unfold DateFromTime, YearFromTime, MonthFromTime.
  pose proof (civil_from_days_valid (Day t)) as V.
  destruct (civil_from_days (Day t)) as [[y m] d]. destruct V as [Hm Hd]. simpl.
  replace (m - 1 + 1) with m by lia. lia.
Qed.

Lemma DaysInMonth_bounds (y m : Z) : 28 <= DaysInMonth y m <= 31.
Proof.
  pose proof (leap_bounds y). unfold DaysInMonth.
  destruct m as [|p|p]; [lia| |lia]. repeat (destruct p as [p|p|]; try lia).
Qed.

(** The day after the last day of a month is the first of the next. *)
Lemma days_from_civil_next_month (y m e : Z) :
  1 <= m <= 12 ->
  days_from_civil y m (DaysInMonth y m + e) =
  days_from_civil (if m =? 12 then y + 1 else y) (if m =? 12 then 1 else m + 1) e.
Proof.
  intros Hm. pose proof (leap_bounds y).
  assert (E : days_from_civil y m (DaysInMonth y m + e) =
              DayFromYear y + month_start y (m - 1) + DaysInMonth y m + e - 1).
  { replace (days_from_civil y m (DaysInMonth y m + e))
      with (days_from_civil y (m - 1 + 1) (DaysInMonth y m + e)) by (f_equal; lia).
    rewrite days_from_civil_spec by lia. lia. }
  rewrite E. destruct (Z.eqb_spec m 12) as [->|Hne]; cbv beta iota.
  - replace (days_from_civil (y + 1) 1 e) with (days_from_civil (y + 1) (0 + 1) e) by reflexivity.
    rewrite days_from_civil_spec, DayFromYear_succ by lia. unfold DaysInYear. calendar_norm. lia.
  - replace (days_from_civil y (m + 1) e) with (days_from_civil y (m + 1 - 1 + 1) e) by (f_equal; lia).
    rewrite days_from_civil_spec by lia. month_cases m; calendar_norm; lia.
Qed.

(** ** The zone's offsets *)

Section Offsets.
Context `{TZ : LocalTZA}.

(** A fold that keeps its offset or takes a transition's stays within a day. *)
Lemma offset_fold_bound (f : Z -> Z * Z -> Z) (l : list (Z * Z)) (o : Z) :
  (forall o tr, f o tr = o \/ f o tr = snd tr) ->
  Forall (fun o => - msPerDay < o < msPerDay) (o :: map snd l) ->
  - msPerDay < fold_left f l o < msPerDay.
Proof.
  intros Hf. revert o. induction l as [|tr l IH]; intros o Hb; inversion Hb as [|? ? Ho Hl]; subst;
    [exact Ho|]. inversion Hl as [|? ? Htr Hl']; subst. cbn [fold_left]. apply IH.
  destruct (Hf o tr) as [-> | ->]; constructor; assumption.
Qed.

Lemma tza_bound : - msPerDay < tza < msPerDay.
Proof. exact (Forall_inv tz_bound). Qed.

Lemma offset_at_bound (u : Z) : - msPerDay < offset_at u < msPerDay.
Proof. apply offset_fold_bound; [intros o tr; destruct (_ <=? _); auto|exact tz_bound]. Qed.

Lemma offset_local_bound (t : Z) : - msPerDay < offset_local t < msPerDay.
Proof. apply offset_fold_bound; [intros o tr; destruct (_ <=? _); auto|exact tz_bound]. Qed.

(** A zone without transitions is a fixed offset. *)
Lemma LocalTime_fixed (t : Z) : tz_transitions = [] -> LocalTime t = t + tza.
Proof. intros Hf. unfold LocalTime, offset_at. rewrite ?Hf. reflexivity. Qed.

Lemma UTC_fixed (t : Z) : tz_transitions = [] -> UTC t = t - tza.
Proof. intros Hf. unfold UTC, offset_local. rewrite ?Hf. reflexivity. Qed.

Lemma local_time_exists_fixed (x : Z) : tz_transitions = [] -> local_time_exists x = true.
Proof.
  intros Hf. unfold local_time_exists, UTC, offset_at, offset_local. rewrite ?Hf. apply Z.eqb_refl.
Qed.

Lemma LocalTime_UTC (x : Z) : local_time_exists x = true -> LocalTime (UTC x) = x.
Proof. unfold local_time_exists, LocalTime, UTC. intros E%Z.eqb_eq. lia. Qed.

End Offsets.

(** ** [UTC] on zone rules with transitions *)

Lemma transitions_spaced_snoc (l : list (Z * Z)) (tr : Z * Z) :
  transitions_spaced (l ++ [tr]) = true ->
  transitions_spaced l = true /\ Forall (fun tr' => fst tr' + 2 * msPerDay < fst tr) l.
Proof.
  induction l as [|a l IH]; intros H; [split; constructor|].
  cbn [app transitions_spaced] in H. apply andb_prop in H as [Ha Hl].
  rewrite forallb_app in Ha. apply andb_prop in Ha as [Ha Htr].
  destruct (IH Hl) as [Hl' Hf]. cbn in Htr. rewrite andb_true_r, Z.ltb_lt in Htr.
  split; [cbn [transitions_spaced]; rewrite Ha, Hl'; reflexivity|constructor; assumption].
Qed.

Lemma fold_at_snoc (l : list (Z * Z)) (T o' b u : Z) :
  fold_at (l ++ [(T, o')]) b u = if T <=? u then o' else fold_at l b u.
Proof. unfold fold_at. rewrite fold_left_app. reflexivity. Qed.

Lemma fold_local_snoc (l : list (Z * Z)) (T o' b x : Z) :
  fold_local (l ++ [(T, o')]) b x =
  if T + Z.max (fold_local l b x) o' <=? x then o' else fold_local l b x.
Proof. unfold fold_local. rewrite fold_left_app. reflexivity. Qed.

(** After every transition of [l], both folds give its last offset. *)
Lemma fold_at_after (l : list (Z * Z)) (b u : Z) :
  Forall (fun tr => fst tr <= u) l -> fold_at l b u = last_offset l b.
Proof.
  unfold fold_at, last_offset. revert b.
  induction l as [|tr l IH]; intros b Hl; [reflexivity|]. inversion Hl as [|? ? Htr Hl']; subst.
  cbn [fold_left]. rewrite (proj2 (Z.leb_le _ _) Htr). exact (IH _ Hl').
Qed.

Lemma fold_local_after (l : list (Z * Z)) (b x : Z) :
  Forall (fun o => - msPerDay < o < msPerDay) (b :: map snd l) ->
  Forall (fun tr => fst tr + msPerDay <= x) l -> fold_local l b x = last_offset l b.
Proof.
  unfold fold_local, last_offset. revert b.
  induction l as [|tr l IH]; intros b Hb Hl; [reflexivity|].
  inversion Hl as [|? ? Htr Hl']; subst. inversion Hb as [|? ? Hb0 Hbs]; subst.
  inversion Hbs as [|? ? Hb1 Hbs']; subst. cbn [fold_left].
  rewrite (proj2 (Z.leb_le _ _)) by lia. apply IH; [constructor|]; assumption.
Qed.

Lemma last_offset_bound (l : list (Z * Z)) (b : Z) :
  Forall (fun o => - msPerDay < o < msPerDay) (b :: map snd l) ->
  - msPerDay < last_offset l b < msPerDay.
Proof. apply offset_fold_bound. intros o tr. auto. Qed.

Lemma fold_at_bound (l : list (Z * Z)) (b u : Z) :
  Forall (fun o => - msPerDay < o < msPerDay) (b :: map snd l) ->
  - msPerDay < fold_at l b u < msPerDay.
Proof. apply offset_fold_bound. intros o tr. destruct (_ <=? _); auto. Qed.

Lemma Forall_bound_snoc (l : list (Z * Z)) (tr : Z * Z) (b : Z) :
  Forall (fun o => - msPerDay < o < msPerDay) (b :: map snd (l ++ [tr])) ->
  Forall (fun o => - msPerDay < o < msPerDay) (b :: map snd l) /\ - msPerDay < snd tr < msPerDay.
Proof.
  rewrite map_app. intros H. inversion H as [|? ? Hb Hl]; subst.
  apply Forall_app in Hl as [Hl Htr]. split; [constructor; assumption|exact (Forall_inv Htr)].
Qed.

(** The earliest-instant property of [UTC], on a rule list: the induction
    adds the last transition [(T, o')] after the offset [o] of the earlier
    rules; an instant before [T] is handled by the earlier rules, one
    after it either has the only reading of its local time or lies in the
    repeated hour, whose first reading is the instant [x - o] before [T]. *)
Lemma fold_utc_earliest (l : list (Z * Z)) (b : Z) :
  Forall (fun o => - msPerDay < o < msPerDay) (b :: map snd l) ->
  transitions_spaced l = true ->
  forall u, let x := u + fold_at l b u in
  x - fold_local l b x <= u /\ (x - fold_local l b x) + fold_at l b (x - fold_local l b x) = x.
Proof.
  induction l as [|[T o'] l IH] using rev_ind; intros Hb Hs u x; [unfold x; cbn; lia|].
  destruct (Forall_bound_snoc _ _ _ Hb) as [Hb' Ho']. cbn [snd] in Ho'.
  destruct (transitions_spaced_snoc _ _ Hs) as [Hs' Hsp]. cbn [fst] in Hsp.
  set (o := last_offset l b). pose proof (last_offset_bound l b Hb') as Ho.
  assert (Hat : forall v, T - 2 * msPerDay <= v -> fold_at l b v = o).
  { intros v Hv. apply fold_at_after. eapply Forall_impl; [|exact Hsp]. intros ? ?. cbn in *. lia. }
  assert (Hloc : forall y, T - msPerDay <= y -> fold_local l b y = o).
  { intros y Hy. apply fold_local_after; [exact Hb'|]. eapply Forall_impl; [|exact Hsp]. intros ? ?. cbn in *. unfold msPerDay in *. lia. }
  unfold x. rewrite !fold_at_snoc, !fold_local_snoc.
  destruct (Z.leb_spec T u) as [Hu|Hu].
  - rewrite (Hloc (u + o')) by lia.
    destruct (Z.leb_spec (T + Z.max o o') (u + o')) as [Hm|Hm].
    + rewrite (proj2 (Z.leb_le T (u + o' - o'))) by lia. lia.
    + rewrite (proj2 (Z.leb_gt T (u + o' - o))), (Hat (u + o' - o)) by lia. lia.
  - set (x0 := u + fold_at l b u).
    assert (Hn : x0 < T + Z.max (fold_local l b x0) o').
    { pose proof (fold_at_bound l b u Hb') as Hab.
      destruct (Z.le_gt_cases (T - 2 * msPerDay) u) as [Hu2|Hu2]; [|unfold x0; lia].
      unfold x0. rewrite (Hat u Hu2).
      destruct (Z.le_gt_cases (T - msPerDay) (u + o)); [rewrite Hloc by lia|]; lia. }
    rewrite (proj2 (Z.leb_gt _ _) Hn).
    destruct (IH Hb' Hs' u) as [Hle He]. fold x0 in Hle, He.
    rewrite (proj2 (Z.leb_gt T (x0 - fold_local l b x0))) by lia. lia.
Qed.

(** In every host zone whose transitions are more than two days
    apart, [UTC] of a local time [x] that occurs is the earliest instant
    whose local time is [x] (possibleInstants[0] of the standard): it
    reads back as [x], and no instant with local time [x] precedes it. *)
Theorem UTC_earliest_instant `{LocalTZA} (x u : Z) :
  transitions_spaced tz_transitions = true -> LocalTime u = x ->
  UTC x <= u /\ LocalTime (UTC x) = x.
Proof. intros Hs <-. exact (fold_utc_earliest tz_transitions tza tz_bound Hs u). Qed.


Section SetMonth.
Context `{TZ : LocalTZA}.

(** [setMonth] with an integral month [k] on a valid time value: the day
    of month and time of day are kept, the month becomes [k mod 12] of
    year [YearFromTime + k / 12], days past the end of that month run into
    the next (MakeDay), the local time is read back in UTC and the result
    is clipped to the time-value range. *)
Theorem setMonth_eq (t0 k : Z) :
  setMonth (Some t0) (of_Z k) = TimeClip (Some (UTC (month_target t0 k))).
Proof.
  unfold setMonth, MakeDay, MakeDate, of_Z, month_target, target_year, target_month. cbv zeta.
  simpl option_map. rewrite !trunc_int, days_from_civil_day. reflexivity.
Qed.

(** The local day and time of day of a UTC midnight, in a fixed zone. *)
Lemma local_midnight (d : Z) :
  tz_transitions = [] ->
  (0 <= tza -> Day (LocalTime (d * msPerDay)) = d /\ TimeWithinDay (LocalTime (d * msPerDay)) = tza) /\
  (tza < 0 -> Day (LocalTime (d * msPerDay)) = d - 1 /\
              TimeWithinDay (LocalTime (d * msPerDay)) = msPerDay + tza).
Proof.
  intros Hf. pose proof tza_bound as Hb. rewrite LocalTime_fixed by exact Hf. split; intros Hs.
  - apply Day_split. lia.
  - replace (d * msPerDay + tza) with ((d - 1) * msPerDay + (msPerDay + tza)) by lia.
    apply Day_split. lia.
Qed.

(** [setMonth] on a UTC midnight [z] in a fixed zone: the local calendar
    date is the UTC one east of Greenwich and the day before west of it;
    the new time value keeps that local date's day and the local time of
    day. *)
Lemma setMonth_midnight (z y m d k : Z) :
  tz_transitions = [] ->
  civil_from_days (if 0 <=? tza then z else z - 1) = (y, m, d) ->
  MonthFromTime (LocalTime (z * msPerDay)) = m - 1 /\
  setMonth (Some (z * msPerDay)) (of_Z k) =
  TimeClip (Some (days_from_civil (target_year y k) (target_month k) d * msPerDay
                  + (if 0 <=? tza then 0 else msPerDay))).
Proof.
  intros Hf Hc. rewrite setMonth_eq. unfold month_target, YearFromTime, MonthFromTime, DateFromTime.
  rewrite (UTC_fixed _ Hf). destruct (local_midnight z Hf) as [Hpos Hneg].
  destruct (Z.leb_spec 0 tza) as [Hs|Hs]; [destruct (Hpos Hs) as [-> ->]|destruct (Hneg Hs) as [-> ->]];
    rewrite Hc; cbn [fst snd]; (split; [reflexivity|]); unfold target_year, target_month;
    do 2 f_equal; lia.
Qed.

(** C13: when the day of month exists in the target month, [setMonth] gives
    that day of the target month at the same local time of day. *)
Theorem setMonth_same_day (t0 k t1 : Z) :
  local_time_exists (month_target t0 k) = true ->
  DateFromTime (LocalTime t0) <= DaysInMonth (target_year (YearFromTime (LocalTime t0)) k) (target_month k) ->
  setMonth (Some t0) (of_Z k) = Some t1 ->
  civil_from_days (Day (LocalTime t1)) =
    (target_year (YearFromTime (LocalTime t0)) k, target_month k, DateFromTime (LocalTime t0)) /\
  TimeWithinDay (LocalTime t1) = TimeWithinDay (LocalTime t0).
Proof.
  intros He Hd Hs. rewrite setMonth_eq in Hs. apply TimeClip_some in Hs as [-> _].
  rewrite (LocalTime_UTC _ He). unfold month_target, target_year, target_month in *.
  destruct (Day_split (days_from_civil (YearFromTime (LocalTime t0) + k / 12) (k mod 12 + 1)
                         (DateFromTime (LocalTime t0))) _ (TimeWithinDay_bounds (LocalTime t0)))
    as [-> ->].
  split; [|reflexivity]. apply civil_from_days_from_civil.
  pose proof (DateFromTime_bounds (LocalTime t0)). split; [zdiv|lia].
Qed.

(** C14: when the day of month is past the end of the target month, [setMonth]
    runs over into the following month by the excess days: the code's
    month-rollover policy is overflow, not clamping to the last day. *)
Theorem setMonth_overflow (t0 k t1 : Z) :
  let y := target_year (YearFromTime (LocalTime t0)) k in
  let m := target_month k in
  local_time_exists (month_target t0 k) = true ->
  DaysInMonth y m < DateFromTime (LocalTime t0) ->
  setMonth (Some t0) (of_Z k) = Some t1 ->
  civil_from_days (Day (LocalTime t1)) =
    (if m =? 12 then y + 1 else y, if m =? 12 then 1 else m + 1,
     DateFromTime (LocalTime t0) - DaysInMonth y m) /\
  TimeWithinDay (LocalTime t1) = TimeWithinDay (LocalTime t0).
Proof.
  intros y m He Hd Hs. rewrite setMonth_eq in Hs. apply TimeClip_some in Hs as [-> _].
  rewrite (LocalTime_UTC _ He). unfold month_target. split; [|apply (Day_split _ _ (TimeWithinDay_bounds _))].
  assert (Hm : 1 <= m <= 12) by (unfold m, target_month; zdiv).
  pose proof (DateFromTime_bounds (LocalTime t0)) as [Hdb _].
  pose proof (DaysInMonth_bounds y m).
  pose proof (DaysInMonth_bounds (YearFromTime (LocalTime t0)) (MonthFromTime (LocalTime t0) + 1)).
  replace (DateFromTime (LocalTime t0))
    with (DaysInMonth y m + (DateFromTime (LocalTime t0) - DaysInMonth y m)) at 1 by lia.
  change (target_year (YearFromTime (LocalTime t0)) k) with y. change (target_month k) with m.
  rewrite days_from_civil_next_month by exact Hm.
  rewrite (proj1 (Day_split _ _ (TimeWithinDay_bounds _))).
  apply civil_from_days_from_civil.
  destruct (Z.eqb_spec m 12); cbv beta iota; split;
    try (pose proof (DaysInMonth_bounds (y + 1) 1)); try (pose proof (DaysInMonth_bounds y (m + 1))); lia.
Qed.

End SetMonth.

(** ** Bounds of the Date operations *)

(** [getMonth] of a valid time value is an integer from 0 to 11, in
    every time zone. *)
Theorem getMonth_range `{LocalTZA} (t : Z) :
  exists M, getMonth (Some t) = of_Z M /\ 0 <= M <= 11.
Proof.
  exists (MonthFromTime (LocalTime t)). split; [reflexivity|].
  exact (proj2 (DateFromTime_bounds (LocalTime t))).
Qed.

(** Whatever month number it is given (NaN, infinite, fractional or
    huge), [setMonth] either yields NaN or a time value within 8.64e15 ms
    of the epoch: the stored [[DateValue]] is always TimeClipped. *)
Theorem setMonth_clipped `{LocalTZA} (tv : time_value) (m : number) (t1 : Z) :
  setMonth tv m = Some t1 -> Z.abs t1 <= maxTime.
Proof.
  destruct tv as [t0|]; [|discriminate]. unfold setMonth.
  destruct (option_map UTC _) as [x|]; [|discriminate].
  intros Hs. destruct (TimeClip_some x t1 Hs) as [-> Hx]. exact Hx.
Qed.

(** ** The calendar against the standard's definitions *)

(** The day arithmetic of the model (Hinnant's [days_from_civil]
    and [civil_from_days], which [MakeDay] and [YearFromTime],
    [MonthFromTime], [DateFromTime] use) implements the standard's: the
    day number of a date is [DayFromYear] plus the days of the months
    before it ([DayWithinYear] tables of 21.4.1.6), and [civil_from_days]
    is its inverse, always giving a valid date. *)
Theorem calendar_refines_ecmascript :
  (forall y m d, 1 <= m <= 12 ->
     days_from_civil y m d = DayFromYear y + month_start y (m - 1) + d - 1) /\
  (forall y m d, valid_civil y m d -> civil_from_days (days_from_civil y m d) = (y, m, d)) /\
  (forall z, let '(y, m, d) := civil_from_days z in valid_civil y m d /\ days_from_civil y m d = z).
Proof.
  split; [|split].
  - intros y m d Hm. replace m with ((m - 1) + 1) at 1 by lia. apply days_from_civil_spec. lia.
  - exact civil_from_days_from_civil.
  - intros z. pose proof (civil_from_days_valid z) as V. pose proof (days_from_civil_from_days z) as E.
    destruct (civil_from_days z) as [[y m] d]. split; assumption.
Qed.

(** ** Witnesses, on a host running in UTC *)

Section Witnesses.
#[local] Existing Instance UTC_zone.

Lemma setMonth_same_day_witness :
  local_time_exists (month_target (days_from_civil 2024 1 15 * msPerDay) 12) = true /\
  DateFromTime (LocalTime (days_from_civil 2024 1 15 * msPerDay)) <=
    DaysInMonth (target_year (YearFromTime (LocalTime (days_from_civil 2024 1 15 * msPerDay))) 12)
                (target_month 12) /\
  setMonth (Some (days_from_civil 2024 1 15 * msPerDay)) (of_Z 12) =
    Some (days_from_civil 2025 1 15 * msPerDay) /\
  civil_from_days (Day (LocalTime (days_from_civil 2025 1 15 * msPerDay))) = (2025, 1, 15) /\
  TimeWithinDay (LocalTime (days_from_civil 2025 1 15 * msPerDay)) = 0.
Proof.
  assert (H0 : local_time_exists (month_target (days_from_civil 2024 1 15 * msPerDay) 12) = true)
    by reflexivity.
  assert (H1 : DateFromTime (LocalTime (days_from_civil 2024 1 15 * msPerDay)) <=
    DaysInMonth (target_year (YearFromTime (LocalTime (days_from_civil 2024 1 15 * msPerDay))) 12)
                (target_month 12)) by (apply Z.leb_le; reflexivity).
  assert (H2 : setMonth (Some (days_from_civil 2024 1 15 * msPerDay)) (of_Z 12) =
    Some (days_from_civil 2025 1 15 * msPerDay)) by reflexivity.
  split; [exact H0|split; [exact H1|split; [exact H2|]]].
  exact (setMonth_same_day _ 12 _ H0 H1 H2).
Defined.

Lemma setMonth_overflow_witness :
  local_time_exists (month_target (days_from_civil 2024 1 31 * msPerDay) 1) = true /\
  DaysInMonth (target_year (YearFromTime (LocalTime (days_from_civil 2024 1 31 * msPerDay))) 1)
              (target_month 1) < DateFromTime (LocalTime (days_from_civil 2024 1 31 * msPerDay)) /\
  setMonth (Some (days_from_civil 2024 1 31 * msPerDay)) (of_Z 1) =
    Some (days_from_civil 2024 3 2 * msPerDay) /\
  civil_from_days (Day (LocalTime (days_from_civil 2024 3 2 * msPerDay))) = (2024, 3, 2) /\
  TimeWithinDay (LocalTime (days_from_civil 2024 3 2 * msPerDay)) = 0.
Proof.
  assert (H0 : local_time_exists (month_target (days_from_civil 2024 1 31 * msPerDay) 1) = true)
    by reflexivity.
  assert (H1 : DaysInMonth (target_year (YearFromTime (LocalTime (days_from_civil 2024 1 31 * msPerDay))) 1)
              (target_month 1) < DateFromTime (LocalTime (days_from_civil 2024 1 31 * msPerDay)))
    by (apply Z.ltb_lt; reflexivity).
  assert (H2 : setMonth (Some (days_from_civil 2024 1 31 * msPerDay)) (of_Z 1) =
    Some (days_from_civil 2024 3 2 * msPerDay)) by reflexivity.
  split; [exact H0|split; [exact H1|split; [exact H2|]]].
  exact (setMonth_overflow _ 1 _ H0 H1 H2).
Defined.

End Witnesses.

End JsDate.
