(* ===== verification/JsValue.v ===== *)
(** * JsValue: the values the form holds and the conversions applied to them

    A form control holds a JavaScript value: [undefined], [null], a
    boolean, a number, a string, or a reference to a Date object.  Date
    objects live in a heap ([gmap] from locations to their [[DateValue]]),
    so that [new Date(dataCompra)] in [calcularDataFimGarantia] allocates a
    fresh object and [setMonth] mutates one object in place, while other
    references keep seeing theirs.  The conversions are the ones of
    ECMAScript the component's expressions run: [typeof] (13.5.3), ToBoolean
    (7.1.2, the [&&] and [if] of the code), ToNumber (7.1.4, [Number(v)] and
    unary [+]), ToPrimitive with a Date's @@toPrimitive (7.1.1, 21.4.4.45),
    ToString (7.1.17), the [+] operator (13.15.3) and the Date constructor
    with one argument (21.4.2.1). *)

From Stdlib Require Import ZArith String Ascii List Bool Lia.
From stdpp Require Import gmap strings.
From S2P Require Import Prelude JsNumber JsDate.
Open Scope Z_scope.

Module JsValue.
Import JsNumber JsDate.

(** ** Values and the heap of Date objects *)

Definition loc := positive.

Inductive value : Type :=
| VUndefined
| VNull
| VBool (b : bool)
| VNum (n : number)
| VStr (s : string)
| VDate (l : loc).

(** The [[DateValue]] of every allocated Date object. *)
Abbreviation heap := (gmap loc time_value).

(** The time value of a Date reference; a dangling reference (which the
    component never creates, see [Component.heap_wf]) reads as NaN. *)
Definition date_of (h : heap) (l : loc) : time_value :=
  match h !! l with Some tv => tv | None => None end.

(** ** Conversions *)

Definition typeof (v : value) : string :=
  match v with
  | VUndefined => "undefined"
  | VNull => "object"
  | VBool _ => "boolean"
  | VNum _ => "number"
  | VStr _ => "string"
  | VDate _ => "object"
  end.

Definition to_boolean (v : value) : bool :=
  match v with
  | VUndefined | VNull => false
  | VBool b => b
  | VNum n => JsNumber.to_boolean n
  | VStr s => negb (String.eqb s "")
  | VDate _ => true
  end.

(** ToPrimitive with hint "default" (the [+] operator): a Date converts to
    its string (Date.prototype[@@toPrimitive] maps "default" to "string"). *)
Definition to_primitive `{LocalTZA} (h : heap) (v : value) : value :=
  match v with
  | VDate l => VStr (ToDateString (date_of h l))
  | _ => v
  end.

(** ToNumber; a Date converts through valueOf to its time value. *)
Definition to_number (h : heap) (v : value) : number :=
  match v with
  | VUndefined => NaN
  | VNull => Fin 0 0
  | VBool b => if b then Fin 1 0 else Fin 0 0
  | VNum n => n
  | VStr s => string_to_number s
  | VDate l => getTime (date_of h l)
  end.

Definition to_string `{LocalTZA} (h : heap) (v : value) : string :=
  match v with
  | VUndefined => "undefined"
  | VNull => "null"
  | VBool b => if b then "true" else "false"
  | VNum n => number_to_string n
  | VStr s => s
  | VDate l => ToDateString (date_of h l)
  end.

Definition is_string (v : value) : bool :=
  match v with VStr _ => true | _ => false end.

(** The [+] operator: string concatenation when either primitive is a
    string, Number::add otherwise. *)
Definition js_add `{LocalTZA} (h : heap) (a b : value) : value :=
  let pa := to_primitive h a in
  let pb := to_primitive h b in
  if is_string pa || is_string pb then VStr (to_string h pa ++ to_string h pb)
  else VNum (JsNumber.add (to_number h pa) (to_number h pb)).

(** ** The Date constructor with one argument (21.4.2.1) *)

(** TimeClip of a Number (21.4.1.31): NaN beyond 8.64e15 in magnitude or
    not finite, else the value truncated toward zero. *)
Definition time_clip_number (n : number) : time_value :=
  match n with
  | Fin m e =>
      let exceeds :=
        if 0 <=? e then maxTime <? Z.abs m * 10 ^ e else maxTime * 10 ^ (- e) <? Z.abs m in
      if exceeds then None else Some (trunc m e)
  | _ => None
  end.

(** The time value [new Date(v)] is created with: a Date's own time value,
    the parse of a string, the ToNumber of any other primitive. *)
Definition date_value `{LocalTZA} (h : heap) (v : value) : time_value :=
  match v with
  | VDate l => date_of h l
  | VStr s => TimeClip (parse_date s)
  | _ => time_clip_number (to_number h v)
  end.

(** [new Date(v)]: a fresh object holding [date_value h v]. *)
Definition new_date `{LocalTZA} (h : heap) (v : value) : heap * loc :=
  let l := fresh (dom h) in (<[l := date_value h v]> h, l).

(** [d.getMonth()] on the object at [l]. *)
Definition date_getMonth `{LocalTZA} (h : heap) (l : loc) : value :=
  VNum (getMonth (date_of h l)).

(** [d.setMonth(v)] on the object at [l]: ToNumber of the argument, the new
    time value stored in the object (which alone changes). *)
Definition date_setMonth `{LocalTZA} (h : heap) (l : loc) (v : value) : heap :=
  match h !! l with
  | Some tv => <[l := setMonth tv (to_number h v)]> h
  | None => h
  end.

(** ** Lemmas: conversions *)

Lemma js_add_num `{LocalTZA} (h : heap) (a b : number) :
  js_add h (VNum a) (VNum b) = VNum (JsNumber.add a b).
Proof. reflexivity. Qed.

Lemma js_add_num_str `{LocalTZA} (h : heap) (a : number) (s : string) :
  js_add h (VNum a) (VStr s) = VStr (number_to_string a ++ s).
Proof. reflexivity. Qed.

(** ** Lemmas: the heap *)

Section Heap.
Context `{TZ : LocalTZA}.

Lemma new_date_fresh (h : heap) (v : value) :
  h !! snd (new_date h v) = None.
Proof. unfold new_date. simpl. apply not_elem_of_dom. apply is_fresh. Qed.

Lemma new_date_lookup (h : heap) (v : value) :
  fst (new_date h v) !! snd (new_date h v) = Some (date_value h v).
Proof. unfold new_date. simpl. apply lookup_insert_eq. Qed.

(** Allocation leaves every existing object as it was. *)
Lemma new_date_preserves (h : heap) (v : value) (l : loc) :
  is_Some (h !! l) -> fst (new_date h v) !! l = h !! l.
Proof.
  intros Hl. unfold new_date. simpl. apply lookup_insert_ne.
  intros <-. pose proof (is_fresh (dom h)) as Hf. apply Hf, elem_of_dom, Hl.
Qed.

Lemma new_date_dom (h : heap) (v : value) :
  dom (fst (new_date h v)) = {[snd (new_date h v)]} ∪ dom h.
Proof. unfold new_date. simpl. apply dom_insert_L. Qed.

(** [setMonth] on one object leaves every other object as it was. *)
Lemma date_setMonth_other (h : heap) (l l' : loc) (v : value) :
  l <> l' -> date_setMonth h l v !! l' = h !! l'.
Proof.
  intros Hne. unfold date_setMonth. destruct (h !! l); [|reflexivity].
  apply lookup_insert_ne. exact Hne.
Qed.

Lemma date_setMonth_dom (h : heap) (l : loc) (v : value) :
  dom (date_setMonth h l v) = dom h.
Proof.
  unfold date_setMonth. destruct (h !! l) eqn:E; [|reflexivity].
  rewrite dom_insert_L. assert (l ∈ dom h) by (apply elem_of_dom; eauto). set_solver.
Qed.

Lemma date_setMonth_lookup (h : heap) (l : loc) (v : value) (tv : time_value) :
  h !! l = Some tv -> date_setMonth h l v !! l = Some (setMonth tv (to_number h v)).
Proof. intros E. unfold date_setMonth. rewrite E. apply lookup_insert_eq. Qed.

End Heap.

End JsValue.
