(* ===== verification/Validators.v ===== *)
(** * Validators: the field validators of the form

    [numberValidator], [stringValidator] and [dateValidator] of
    cadastro.component.ts (lines 94-114), Angular's [Validators.required],
    and the way Angular runs the validator list of a control and merges
    their error objects (its [mergeErrors]).  A validator returns [None]
    for [null] (valid) or the error object, modelled as the list of its
    keys with their values. *)

From Stdlib Require Import ZArith String Ascii List Bool Lia.
From stdpp Require Import gmap strings.
From S2P Require Import Prelude JsNumber JsDate JsValue.
Import ListNotations.
Open Scope Z_scope.

Module Validators.
Import JsNumber JsDate JsValue.

Definition ValidationErrors := list (string * value).

(** The messages, with their accented letters as the Latin-1 code units
    of the JavaScript string (250 is u-acute, 225 is a-acute). *)
Definition msg_invalid_number : string :=
  "Por favor, insira um n" ++ String (ascii_of_nat 250) "mero v" ++
  String (ascii_of_nat 225) "lido.".
Definition msg_invalid_string : string :=
  "Por favor, insira um texto v" ++ String (ascii_of_nat 225) "lido.".
Definition msg_invalid_date : string :=
  "Por favor, insira uma data v" ++ String (ascii_of_nat 225) "lida.".

(** Angular's [isEmptyInputValue]: [value == null] or an empty string. *)
Definition is_empty_input (v : value) : bool :=
  match v with
  | VUndefined | VNull => true
  | VStr s => String.eqb s ""
  | _ => false
  end.

(** [Validators.required]. *)
Definition required (v : value) : option ValidationErrors :=
  if is_empty_input v then Some [("required", VBool true)] else None.

(** [numberValidator] (lines 94-99): [isNaN(Number(control.value))]. *)
Definition numberValidator (h : heap) (v : value) : option ValidationErrors :=
  if is_nan (to_number h v) then Some [("invalidNumber", VStr msg_invalid_number)] else None.

(** [stringValidator] (lines 101-106): [typeof control.value !== 'string']. *)
Definition stringValidator (v : value) : option ValidationErrors :=
  if negb (String.eqb (typeof v) "string")
  then Some [("invalidString", VStr msg_invalid_string)] else None.

(** [dateValidator] (lines 108-114): [isNaN(new Date(control.value).getTime())].
    The Date object it allocates is dropped at once, so only its time
    value matters. *)
Definition dateValidator `{LocalTZA} (h : heap) (v : value) : option ValidationErrors :=
  if is_nan (getTime (date_value h v))
  then Some [("invalidDate", VStr msg_invalid_date)] else None.

(** The validators a control of the form can carry. *)
Inductive validator : Type :=
| Required
| NumberV
| StringV
| DateV.

Definition run_validator `{LocalTZA} (h : heap) (vd : validator) (v : value)
  : option ValidationErrors :=
  match vd with
  | Required => required v
  | NumberV => numberValidator h v
  | StringV => stringValidator v
  | DateV => dateValidator h v
  end.

(** Angular's [mergeErrors]: the union of the error objects, [null] when
    there is none. *)
Definition merge_errors (rs : list (option ValidationErrors)) : option ValidationErrors :=
  match concat (map (fun r => match r with Some e => e | None => [] end) rs) with
  | [] => None
  | errs => Some errs
  end.

(** The errors of a control: every validator runs, their results merge. *)
Definition control_errors `{LocalTZA} (h : heap) (vds : list validator) (v : value)
  : option ValidationErrors :=
  merge_errors (map (fun vd => run_validator h vd v) vds).

(** ** Properties of the validators *)

Section Props.
Context `{TZ : LocalTZA}.

Lemma trim_blank (s : string) : all_chars is_ws s = true -> trim s = EmptyString.
Proof.
  intros H. rewrite <- (string_append_nil_r s).
  exact (trim_padded s "" "" H eq_refl eq_refl).
Qed.

(** C6: on text input, [numberValidator] passes exactly the strings of
    the StringNumericLiteral grammar: optional white space around an
    optional decimal, Infinity, or 0x/0o/0b literal. *)
Theorem numberValidator_string_iff (h : heap) (s : string) :
  numberValidator h (VStr s) = None <-> StringNumericLiteral s.
Proof.
  unfold numberValidator. simpl. rewrite <- string_to_number_not_nan_iff.
  destruct (is_nan (string_to_number s)); split; easy.
Qed.

(** [numberValidator] passes strings whose Number is not finite. *)
Theorem numberValidator_accepts_infinite (h : heap) :
  exists s, numberValidator h (VStr s) = None /\ is_finite (to_number h (VStr s)) = false.
Proof. exists "-Infinity". split; reflexivity. Qed.

(** C19: a non-empty string of white space passes both validators of the
    [id] and [duracaoGarantiaMeses] controls: [required] only rejects
    the empty string, and [Number] reads white space as 0. *)
Theorem blank_number_control_valid (h : heap) (s : string) :
  s <> EmptyString -> all_chars is_ws s = true ->
  control_errors h [Required; NumberV] (VStr s) = None.
Proof.
  intros Hne Hws. unfold control_errors, run_validator, required, numberValidator. simpl.
  destruct (String.eqb_spec s "") as [E|_]; [contradiction|].
  unfold string_to_number. rewrite (trim_blank s Hws). reflexivity.
Qed.

(** [stringValidator] passes exactly the string values. *)
Theorem stringValidator_iff (v : value) :
  stringValidator v = None <-> exists s, v = VStr s.
Proof.
  unfold stringValidator. split.
  - destruct v; simpl; try discriminate. eauto.
  - intros [s ->]. reflexivity.
Qed.

(** On text input, [dateValidator] passes exactly the strings of the
    Date Time String Format that denote a time value within 8.64e15 ms. *)
Theorem dateValidator_string_iff (h : heap) (s : string) :
  dateValidator h (VStr s) = None <-> exists t, parse_date s = Some t /\ Z.abs t <= maxTime.
Proof.
  unfold dateValidator, date_value. destruct (parse_date s) as [t|]; simpl.
  - destruct (Z.leb_spec (Z.abs t) maxTime); simpl; split; try discriminate; eauto.
    + intros [t' [[= <-] Ht]]. lia.
  - split; [discriminate|]. intros [t [Ht _]]. discriminate.
Qed.

(** [dateValidator] passes [null]: [new Date(null)] is the epoch. *)
Theorem dateValidator_null (h : heap) :
  dateValidator h VNull = None /\ date_value h VNull = Some 0.
Proof. split; reflexivity. Qed.

End Props.

(** ** Witnesses, on a host running in UTC *)

Section Witnesses.
#[local] Existing Instance UTC_zone.

Lemma blank_number_control_valid_witness :
  "   " <> EmptyString /\ all_chars is_ws "   " = true /\
  control_errors ∅ [Required; NumberV] (VStr "   ") = None.
Proof.
  assert (H1 : "   " <> EmptyString) by discriminate.
  assert (H2 : all_chars is_ws "   " = true) by reflexivity.
  split; [exact H1|split; [exact H2|]]. exact (blank_number_control_valid ∅ "   " H1 H2).
Defined.

End Witnesses.

End Validators.
