(* ===== verification/Form.v ===== *)
(** * Form: the reactive form (Angular FormGroup) the component owns

    The component builds its form with [FormBuilder.group] (lines 17-22
    and 45-50), reads [produtoForm.value] (lines 78-79, 118), and writes
    it with [patchValue] (lines 70, 90).  A group is its controls in
    declaration order; a control has a value, its validators and a
    disabled flag.  [form_value] is Angular's [_reduceValue] (enabled
    controls only, all of them when every control is disabled);
    [patchValue] sets the value of each key that names a control and
    ignores the other keys; a control is valid when disabled or when its
    merged errors are [null]. *)

From Stdlib Require Import ZArith String Ascii List Bool Lia.
From stdpp Require Import gmap strings.
From S2P Require Import Prelude JsNumber JsDate JsValue Validators.
Import ListNotations.
Open Scope Z_scope.

Module Form.
Import JsDate JsValue Validators.

(** A plain JavaScript object: its own keys in insertion order. *)
Definition obj := list (string * value).

(** [o[k]], [undefined] for a missing key. *)
Definition get (o : obj) (k : string) : value :=
  match find (fun kv => String.eqb (fst kv) k) o with
  | Some (_, v) => v
  | None => VUndefined
  end.

Definition has_key (o : obj) (k : string) : bool :=
  existsb (fun kv => String.eqb (fst kv) k) o.

(** [o[k] = v]: in place for an existing key, appended otherwise. *)
Definition set_prop (o : obj) (k : string) (v : value) : obj :=
  if has_key o k then map (fun kv => if String.eqb (fst kv) k then (k, v) else kv) o
  else app o [(k, v)].

Record control := mkControl {
  cvalue : value;
  cvalidators : list validator;
  cdisabled : bool
}.

Definition form := list (string * control).

Definition controls_of (f : form) : list string := map fst f.

(** The names, validators and disabled flags of the controls: what
    setting values never changes. *)
Definition form_shape (f : form) : list (string * (list validator * bool)) :=
  map (fun kc => (fst kc, (cvalidators (snd kc), cdisabled (snd kc)))) f.

Definition lookup_control (f : form) (k : string) : option control :=
  match find (fun kc => String.eqb (fst kc) k) f with
  | Some (_, c) => Some c
  | None => None
  end.

Definition all_disabled (f : form) : bool :=
  match f with
  | [] => false
  | _ => forallb (fun kc => cdisabled (snd kc)) f
  end.

(** [FormGroup.value]. *)
Definition form_value (f : form) : obj :=
  map (fun kc => (fst kc, cvalue (snd kc)))
    (List.filter (fun kc => negb (cdisabled (snd kc)) || all_disabled f) f).

(** [FormControl.setValue] on the control named [k], if there is one. *)
Definition set_control (f : form) (k : string) (v : value) : form :=
  map (fun kc => if String.eqb (fst kc) k
                 then (fst kc, {| cvalue := v; cvalidators := cvalidators (snd kc);
                                  cdisabled := cdisabled (snd kc) |})
                 else kc) f.

(** [FormGroup.patchValue]: key by key, controls that do not exist are
    skipped. *)
Definition patchValue (f : form) (o : obj) : form :=
  fold_left (fun g kv => set_control g (fst kv) (snd kv)) o f.

Definition control_valid `{LocalTZA} (h : heap) (c : control) : bool :=
  cdisabled c ||
  match control_errors h (cvalidators c) (cvalue c) with None => true | Some _ => false end.

(** [FormGroup.valid]. *)
Definition form_valid `{LocalTZA} (h : heap) (f : form) : bool :=
  forallb (fun kc => control_valid h (snd kc)) f.

(** ** Lemmas *)

Lemma set_control_absent (f : form) (k : string) (v : value) :
  ~ In k (controls_of f) -> set_control f k v = f.
Proof.
  induction f as [|[k' c] f IH]; simpl; [reflexivity|]. intros Hn.
  destruct (String.eqb_spec k' k) as [->|_]; [exfalso; auto|]. f_equal. auto.
Qed.

Lemma set_control_keys (f : form) (k : string) (v : value) :
  controls_of (set_control f k v) = controls_of f.
Proof.
  induction f as [|[k' c] f IH]; simpl; [reflexivity|].
  destruct (String.eqb (k') k); simpl; f_equal; exact IH.
Qed.

Lemma patchValue_keys (f : form) (o : obj) :
  controls_of (patchValue f o) = controls_of f.
Proof.
  revert f. induction o as [|[k v] o IH]; intros f; simpl; [reflexivity|].
  rewrite IH. apply set_control_keys.
Qed.

Lemma set_control_shape (f : form) (k : string) (v : value) :
  form_shape (set_control f k v) = form_shape f.
Proof.
  induction f as [|[k' c] f IH]; simpl; [reflexivity|].
  destruct (String.eqb (k') k); simpl; f_equal; exact IH.
Qed.

Lemma patchValue_shape (f : form) (o : obj) :
  form_shape (patchValue f o) = form_shape f.
Proof.
  revert f. induction o as [|[k v] o IH]; intros f; simpl; [reflexivity|].
  rewrite IH. apply set_control_shape.
Qed.

Lemma shape_controls (f g : form) : form_shape f = form_shape g -> controls_of f = controls_of g.
Proof.
  intros E. apply (f_equal (map fst)) in E. unfold form_shape, controls_of in *.
  rewrite !map_map in E. exact E.
Qed.

(** Patching only keys that name no control leaves the form unchanged. *)
Lemma patchValue_absent (f : form) (o : obj) :
  Forall (fun kv => ~ In (fst kv) (controls_of f)) o -> patchValue f o = f.
Proof.
  revert f. induction o as [|[k v] o IH]; intros f Ho; simpl; [reflexivity|].
  inversion Ho as [|? ? Hk Hrest]; subst. simpl in Hk.
  rewrite (set_control_absent f k v Hk). apply IH, Hrest.
Qed.

Lemma get_set_prop_eq (o : obj) (k : string) (v : value) : get (set_prop o k v) k = v.
Proof.
  unfold get, set_prop, has_key. destruct (existsb _ o) eqn:E.
  - induction o as [|[k' v'] o IH]; simpl in *; [discriminate|].
    destruct (String.eqb_spec k' k) as [->|Hne]; simpl; [now rewrite String.eqb_refl|].
    destruct (String.eqb_spec k' k); [contradiction|]. apply IH, E.
  - induction o as [|[k' v'] o IH]; simpl in *; [now rewrite String.eqb_refl|].
    destruct (String.eqb_spec k' k); [discriminate|]. apply IH, E.
Qed.

Lemma get_set_prop_neq (o : obj) (k k' : string) (v : value) :
  k' <> k -> get (set_prop o k v) k' = get o k'.
Proof.
  intros Hne. unfold get, set_prop, has_key. destruct (existsb _ o).
  - induction o as [|[k0 v0] o IH]; simpl; [reflexivity|].
    destruct (String.eqb_spec k0 k) as [->|_]; simpl.
    + destruct (String.eqb_spec k k'); [congruence|]. exact IH.
    + destruct (String.eqb k0 k'); [reflexivity|exact IH].
  - induction o as [|[k0 v0] o IH]; simpl.
    + destruct (String.eqb_spec k k'); [congruence|reflexivity].
    + destruct (String.eqb k0 k'); [reflexivity|exact IH].
Qed.

Lemma all_disabled_shape (f g : form) : form_shape f = form_shape g -> all_disabled f = all_disabled g.
Proof.
  assert (H : forall l, forallb (fun kc => cdisabled (snd kc)) l =
                        forallb (fun x => snd (snd x)) (form_shape l))
    by (induction l as [|kc l IH]; simpl; [reflexivity|now rewrite IH]).
  intros E. destruct f as [|kc f], g as [|kc' g]; try discriminate; [reflexivity|].
  unfold all_disabled. rewrite !H, E. reflexivity.
Qed.

Lemma filter_keys_shape (f : form) (b : bool) :
  map fst (List.filter (fun kc => negb (cdisabled (snd kc)) || b) f) =
  map fst (List.filter (fun x => negb (snd (snd x)) || b) (form_shape f)).
Proof.
  induction f as [|[k c] f IH]; [reflexivity|]. simpl.
  destruct (negb (cdisabled c) || b); simpl; [f_equal|]; exact IH.
Qed.

(** The keys of [FormGroup.value] depend only on the controls' shape. *)
Lemma form_value_keys (f g : form) :
  form_shape f = form_shape g -> map fst (form_value f) = map fst (form_value g).
Proof.
  intros E. unfold form_value. rewrite !map_map. cbn [fst].
  rewrite (all_disabled_shape f g E).
  change (map (fun x => fst x) ?l) with (map fst l).
  rewrite !filter_keys_shape, E. reflexivity.
Qed.

Lemma has_key_keys (o : obj) (k : string) : has_key o k = existsb (fun k' => String.eqb k' k) (map fst o).
Proof. unfold has_key. induction o as [|[k' v] o IH]; simpl; [reflexivity|]. now rewrite IH. Qed.

End Form.
