(* ===== verification/Component.v ===== *)
(** * Component: CadastroComponent as a state machine over its events

    The state is the component's fields ([produtoForm], [produtoId],
    [isEditing]) with the JavaScript heap of Date objects, the state of
    its two subscriptions (the route-parameter stream with its
    [switchMap] inner fetch, and the pending submit requests) and the
    trace of calls the component makes to its collaborators
    ([ProdutoService], [MatSnackBar], [MatDialog], [console]).  An event
    is what the framework or a collaborator delivers: [ngOnInit] with the
    current route parameters, a new emission of [route.params], the
    fetched product or a fetch error, a user's input into a control, the
    template's calls of [calcularDataFimGarantia] and [onSubmit], and the
    outcome of a submit request.  [step] dispatches each event to the
    handler that translates the code.  The end-date theorems hold for
    every host zone or for every zone with a fixed offset; C27 says
    what daylight saving time does to the end date in every zone. *)

From Stdlib Require Import ZArith String Ascii List Bool Lia.
From stdpp Require Import gmap strings.
From S2P Require Import Prelude JsNumber JsDate JsValue Validators Form.
Import ListNotations.
Open Scope Z_scope.

Module Component.
Import JsNumber JsDate JsValue Validators Form.

(** ** Data *)

(** The group built where [produtoForm] is declared (lines 17-22). *)
Definition initial_form : form :=
  [("nome", mkControl (VStr "") [Required] false);
   ("dataCompra", mkControl (VStr "") [Required] false);
   ("duracaoGarantiaMeses", mkControl (VStr "") [Required] false);
   ("dataFimGarantia", mkControl (VStr "") [] true)].

(** [createForm] (lines 44-51): the group [ngOnInit] replaces it with. *)
Definition createForm : form :=
  [("id", mkControl (VStr "") [Required; NumberV] false);
   ("nome", mkControl (VStr "") [Required; StringV] false);
   ("dataCompra", mkControl (VStr "") [Required; DateV] false);
   ("duracaoGarantiaMeses", mkControl (VStr "") [Required; NumberV] false)].

(** The calls the component makes to its collaborators, in order. *)
Inductive effect : Type :=
| GetProdutoById (id : number)
| UpdateProduto (p : obj)
| AddProduto (p : obj)
| SnackBarOpen (message action : string) (duration : Z)
| DialogCloseAll
| ConsoleError (e : value)
| UnhandledError (e : value).

Inductive request_kind : Type := UpdateRequest | AddRequest.

(** A JSON value of a product record sent by the service. *)
Inductive json : Type :=
| JNull
| JBool (b : bool)
| JNum (n : number)
| JStr (s : string).

Definition json_value (j : json) : value :=
  match j with
  | JNull => VNull
  | JBool b => VBool b
  | JNum n => VNum n
  | JStr s => VStr s
  end.

Definition json_obj (p : list (string * json)) : obj :=
  map (fun kj => (fst kj, json_value (snd kj))) p.

(** What a user's input puts into a control: text, a number (number
    input), nothing, or a new Date object (date picker). *)
Inductive input : Type :=
| IText (s : string)
| INumber (n : number)
| INull
| IDate (tv : time_value).

Inductive event : Type :=
| NgOnInit (params : list (string * string))
| RouteParams (params : list (string * string))
| ProdutoArrived (p : option (list (string * json)))
| ProdutoFailed (e : value)
| UserInput (name : string) (i : input)
| Calcular
| Submit
| RequestSucceeded (r : nat)
| RequestFailed (r : nat) (e : value).

Record state := mkState {
  produtoForm : form;
  produtoId : number;
  isEditing : bool;
  heap : gmap loc time_value;
  initialized : bool;
  route_active : bool;
  fetching : bool;
  pending : list (nat * request_kind);
  next_request : nat;
  log : list effect
}.

(** The fields as initialised (lines 17-26), before [ngOnInit]. *)
Definition init_state : state :=
  mkState initial_form (Fin 0 0) false ∅ false false false [] 0 [].

(** ** Field updates *)

Definition with_form (s : state) (f : form) : state :=
  mkState f (produtoId s) (isEditing s) (heap s) (initialized s) (route_active s)
    (fetching s) (pending s) (next_request s) (log s).

Definition with_heap (s : state) (h : gmap loc time_value) : state :=
  mkState (produtoForm s) (produtoId s) (isEditing s) h (initialized s) (route_active s)
    (fetching s) (pending s) (next_request s) (log s).

Definition with_fetching (s : state) (b : bool) : state :=
  mkState (produtoForm s) (produtoId s) (isEditing s) (heap s) (initialized s) (route_active s)
    b (pending s) (next_request s) (log s).

(** ** checkEditMode (lines 54-73) *)

Definition param_id (params : list (string * string)) : option string :=
  match find (fun kv => String.eqb (fst kv) "id") params with
  | Some (_, v) => Some v
  | None => None
  end.

(** The [switchMap] projection on one emission of [route.params]
    (lines 56-66): the previous inner fetch is dropped; with a truthy
    [params['id']] the component enters edit mode, stores [+params['id']]
    and subscribes to [getProdutoById]; otherwise it returns [[]], which
    emits nothing. *)
Definition on_params (s : state) (params : list (string * string)) : state :=
  let s := with_fetching s false in
  match param_id params with
  | Some v =>
      if to_boolean (VStr v) then
        let id := to_number (heap s) (VStr v) in
        mkState (produtoForm s) id true (heap s) (initialized s) (route_active s)
          true (pending s) (next_request s) (app (log s) [GetProdutoById id])
      else s
  | None => s
  end.

(** The subscriber (lines 67-72): patch the form with a truthy product
    while in edit mode.  The HTTP observable completes after its value. *)
Definition on_produto (s : state) (p : option (list (string * json))) : state :=
  let s' :=
    match p with
    | Some o => if isEditing s then with_form s (patchValue (produtoForm s) (json_obj o)) else s
    | None => s
    end in
  with_fetching s' false.

(** An error of the fetch reaches the outer subscription, which has no
    error callback: the subscription ends and the error is reported as
    unhandled. *)
Definition on_fetch_error (s : state) (e : value) : state :=
  mkState (produtoForm s) (produtoId s) (isEditing s) (heap s) (initialized s) false
    false (pending s) (next_request s) (app (log s) [UnhandledError e]).

(** ** ngOnInit (lines 36-41) *)

(** [createForm()], then [checkEditMode()]: subscribing to [route.params]
    delivers the current parameters at once. *)
Definition ngOnInit (s : state) (params : list (string * string)) : state :=
  let s1 := mkState createForm (produtoId s) (isEditing s) (heap s) true true
              (fetching s) (pending s) (next_request s) (log s) in
  on_params s1 params.

(** ** calcularDataFimGarantia (lines 76-92) *)

(** Lines 84-87: [new Date(dataCompra)] and its [setMonth] with
    [getMonth() + duracaoMeses]; the new heap and the new object. *)
Definition data_fim_garantia `{LocalTZA} (h : gmap loc time_value) (dataCompra duracaoMeses : value)
  : gmap loc time_value * loc :=
  let (h1, l) := new_date h dataCompra in
  (date_setMonth h1 l (js_add h1 (date_getMonth h1 l) duracaoMeses), l).

Definition calcularDataFimGarantia `{LocalTZA} (s : state) : state :=
  let v := form_value (produtoForm s) in
  let dataCompra := get v "dataCompra" in
  let duracaoMeses := get v "duracaoGarantiaMeses" in
  if to_boolean dataCompra && to_boolean duracaoMeses then
    let (h, l) := data_fim_garantia (heap s) dataCompra duracaoMeses in
    with_form (with_heap s h) (patchValue (produtoForm s) [("dataFimGarantia", VDate l)])
  else s.

(** ** onSubmit (lines 117-161) *)

(** The update subscriber's two callbacks (lines 125-139). *)
Definition on_update_result (ok : bool) (e : value) : list effect :=
  if ok then [SnackBarOpen "Produto atualizado com sucesso" "Fechar" 2000; DialogCloseAll]
  else [ConsoleError e; SnackBarOpen "Erro ao atualizar o produto" "Fechar" 2000].

(** The add subscriber's two callbacks (lines 144-158). *)
Definition on_add_result (ok : bool) (e : value) : list effect :=
  if ok then [SnackBarOpen "Produto cadastrado com sucesso" "Fechar" 2000; DialogCloseAll]
  else [ConsoleError e; SnackBarOpen "Erro ao cadastrar o produto" "Fechar" 2000].

Definition on_result (k : request_kind) (ok : bool) (e : value) : list effect :=
  match k with
  | UpdateRequest => on_update_result ok e
  | AddRequest => on_add_result ok e
  end.

(** The submitted record and the service call (lines 118-124, 143). *)
Definition onSubmit (s : state) : state :=
  let produto := form_value (produtoForm s) in
  let r := next_request s in
  let '(k, call) :=
    if isEditing s then (UpdateRequest, UpdateProduto (set_prop produto "id" (VNum (produtoId s))))
    else (AddRequest, AddProduto produto) in
  mkState (produtoForm s) (produtoId s) (isEditing s) (heap s) (initialized s) (route_active s)
    (fetching s) (app (pending s) [(r, k)]) (S r) (app (log s) [call]).

(** A submit request completes: its callbacks run once. *)
Definition on_request_done (s : state) (r : nat) (ok : bool) (e : value) : state :=
  match find (fun rk => Nat.eqb (fst rk) r) (pending s) with
  | Some (_, k) =>
      mkState (produtoForm s) (produtoId s) (isEditing s) (heap s) (initialized s)
        (route_active s) (fetching s)
        (List.filter (fun rk => negb (Nat.eqb (fst rk) r)) (pending s)) (next_request s)
        (app (log s) (on_result k ok e))
  | None => s
  end.

(** ** User input through the template's form bindings *)

Definition on_input (s : state) (k : string) (i : input) : state :=
  match i with
  | IText str => with_form s (set_control (produtoForm s) k (VStr str))
  | INumber n => with_form s (set_control (produtoForm s) k (VNum n))
  | INull => with_form s (set_control (produtoForm s) k VNull)
  | IDate tv =>
      let l := fresh (dom (heap s)) in
      with_form (with_heap s (<[l := tv]> (heap s))) (set_control (produtoForm s) k (VDate l))
  end.

(** ** The component *)

(** [ngOnInit] runs once, first; the other events reach an initialised
    component; route emissions reach it while its subscription lives,
    fetch outcomes while a fetch is in flight. *)
Definition step `{LocalTZA} (s : state) (ev : event) : state :=
  match ev with
  | NgOnInit params => if initialized s then s else ngOnInit s params
  | _ =>
      if negb (initialized s) then s else
      match ev with
      | RouteParams params => if route_active s then on_params s params else s
      | ProdutoArrived p => if fetching s then on_produto s p else s
      | ProdutoFailed e => if fetching s then on_fetch_error s e else s
      | UserInput k i => on_input s k i
      | Calcular => calcularDataFimGarantia s
      | Submit => onSubmit s
      | RequestSucceeded r => on_request_done s r true VUndefined
      | RequestFailed r e => on_request_done s r false e
      | NgOnInit _ => s
      end
  end.

Definition run `{LocalTZA} (s : state) (evs : list event) : state := fold_left step evs s.

(** The states the component can reach. *)
Inductive reachable `{LocalTZA} : state -> Prop :=
| reach_init : reachable init_state
| reach_step (s : state) (ev : event) : reachable s -> reachable (step s ev).

(** ** Invariants *)

(** Every Date object the form refers to is allocated. *)
Definition heap_wf (f : form) (h : gmap loc time_value) : Prop :=
  forall k c l, In (k, c) f -> cvalue c = VDate l -> l ∈ dom h.

(** Before [ngOnInit] nothing has happened; afterwards the form has the
    controls of [createForm]; outside edit mode no id is stored and no
    product was fetched; the form refers to allocated Date objects. *)
Definition inv (s : state) : Prop :=
  (initialized s = false -> s = init_state) /\
  (initialized s = true -> form_shape (produtoForm s) = form_shape createForm) /\
  (isEditing s = false -> produtoId s = Fin 0 0 /\ forall id, ~ In (GetProdutoById id) (log s)) /\
  heap_wf (produtoForm s) (heap s).

(** ** Lemmas: the form's Date references *)

Lemma set_control_in (f : form) (k k' : string) (v : value) (c : control) :
  In (k', c) (set_control f k v) -> In (k', c) f \/ cvalue c = v.
Proof.
  unfold set_control. intros [[k0 c0] [E Hin]]%in_map_iff. simpl in E.
  destruct (String.eqb k0 k); injection E as <- <-; [right; reflexivity | left; exact Hin].
Qed.

Lemma patchValue_in (f : form) (o : obj) (k : string) (c : control) :
  In (k, c) (patchValue f o) -> In (k, c) f \/ In (cvalue c) (map snd o).
Proof.
  revert f. induction o as [|[k1 v1] o IH]; intros f Hin; simpl in *; [left; exact Hin|].
  destruct (IH _ Hin) as [H|H]; [|right; right; exact H].
  destruct (set_control_in _ _ _ _ _ H) as [H'|H']; [left; exact H' | right; left; auto].
Qed.

Lemma heap_wf_mono (f : form) (h h' : gmap loc time_value) :
  dom h ⊆ dom h' -> heap_wf f h -> heap_wf f h'.
Proof. intros Hsub Hwf k c l Hin Hc. apply Hsub. eapply Hwf; eauto. Qed.

Lemma heap_wf_set (f : form) (h : gmap loc time_value) (k : string) (v : value) :
  heap_wf f h -> (forall l, v = VDate l -> l ∈ dom h) -> heap_wf (set_control f k v) h.
Proof.
  intros Hwf Hv k' c l Hin Hc. destruct (set_control_in _ _ _ _ _ Hin) as [H|H].
  - eapply Hwf; eauto.
  - apply Hv. congruence.
Qed.

Lemma heap_wf_patch (f : form) (h : gmap loc time_value) (o : obj) :
  heap_wf f h -> (forall l, In (VDate l) (map snd o) -> l ∈ dom h) -> heap_wf (patchValue f o) h.
Proof.
  intros Hwf Ho k c l Hin Hc. destruct (patchValue_in _ _ _ _ Hin) as [H|H].
  - eapply Hwf; eauto.
  - apply Ho. rewrite <- Hc. exact H.
Qed.

Lemma json_obj_no_date (p : list (string * json)) (l : loc) :
  ~ In (VDate l) (map snd (json_obj p)).
Proof.
  unfold json_obj. rewrite map_map. intros [[k j] [E _]]%in_map_iff.
  destruct j; discriminate.
Qed.

(** ** Lemmas: one step *)

Section Step.
Context `{TZ : LocalTZA}.

Ltac step_unfold :=
  unfold step, ngOnInit, on_params, on_produto, on_fetch_error, calcularDataFimGarantia,
    onSubmit, on_request_done, on_input, with_form, with_heap, with_fetching in *.

Lemma step_uninit (s : state) (ev : event) :
  initialized s = false -> (forall p, ev <> NgOnInit p) -> step s ev = s.
Proof. intros H Hev. destruct ev; simpl; rewrite ?H; try reflexivity. now destruct (Hev params). Qed.

(** After [ngOnInit] the form keeps its controls. *)
Lemma step_controls (s : state) (ev : event) :
  initialized s = true ->
  initialized (step s ev) = true /\ form_shape (produtoForm (step s ev)) = form_shape (produtoForm s).
Proof.
  intros H. step_unfold. destruct ev; simpl; rewrite H; simpl; repeat case_match; simpl;
    rewrite ?patchValue_shape, ?set_control_shape; auto.
Qed.

Lemma data_fim_garantia_dom (h : gmap loc time_value) (a b : value) :
  dom (fst (data_fim_garantia h a b)) = {[snd (data_fim_garantia h a b)]} ∪ dom h.
Proof.
  unfold data_fim_garantia. pose proof (new_date_dom h a) as D.
  destruct (new_date h a) as [h1 l]. cbn [fst snd] in *.
  repeat case_match; cbn [fst snd]; rewrite ?date_setMonth_dom; exact D.
Qed.

(** The heap only grows. *)
Lemma step_heap_dom (s : state) (ev : event) : dom (heap s) ⊆ dom (heap (step s ev)).
Proof.
  step_unfold. destruct ev; cbn -[data_fim_garantia]; repeat case_match; simplify_eq;
    cbn -[data_fim_garantia]; try set_solver.
  all: try (rewrite dom_insert_L; set_solver).
  all: match goal with
       | H : data_fim_garantia ?h ?a ?b = (?h', ?l') |- _ =>
           pose proof (data_fim_garantia_dom h a b) as D; rewrite H in D; cbn [fst snd] in D;
           rewrite D; set_solver
       end.
Qed.

Lemma createForm_wf (h : gmap loc time_value) : heap_wf createForm h.
Proof.
  intros k c l Hin Hc. simpl in Hin.
  repeat destruct Hin as [E|Hin]; try contradiction; injection E as _ <-; discriminate.
Qed.

Lemma on_params_fields (s : state) (p : list (string * string)) :
  produtoForm (on_params s p) = produtoForm s /\ heap (on_params s p) = heap s /\
  initialized (on_params s p) = initialized s /\ route_active (on_params s p) = route_active s.
Proof. unfold on_params, with_fetching. repeat case_match; simpl; auto. Qed.

Lemma onSubmit_fields (s : state) :
  produtoForm (onSubmit s) = produtoForm s /\ heap (onSubmit s) = heap s /\
  isEditing (onSubmit s) = isEditing s /\ produtoId (onSubmit s) = produtoId s /\
  initialized (onSubmit s) = initialized s /\ route_active (onSubmit s) = route_active s.
Proof. unfold onSubmit. destruct (isEditing s); simpl; repeat split. Qed.

Lemma calcular_wf (s : state) :
  heap_wf (produtoForm s) (heap s) ->
  heap_wf (produtoForm (calcularDataFimGarantia s)) (heap (calcularDataFimGarantia s)).
Proof.
  intros Hwf. unfold calcularDataFimGarantia. case_match; [|exact Hwf].
  pose proof (data_fim_garantia_dom (heap s) (get (form_value (produtoForm s)) "dataCompra")
                (get (form_value (produtoForm s)) "duracaoGarantiaMeses")) as D.
  destruct (data_fim_garantia _ _ _) as [h l]. cbn [fst snd] in D.
  unfold with_form, with_heap. cbn [produtoForm heap].
  apply heap_wf_patch; [apply (heap_wf_mono _ (heap s)); [set_solver|exact Hwf]|].
  intros l' [E|[]]. injection E as <-. set_solver.
Qed.

Lemma on_input_wf (s : state) (k : string) (i : input) :
  heap_wf (produtoForm s) (heap s) -> heap_wf (produtoForm (on_input s k i)) (heap (on_input s k i)).
Proof.
  intros Hwf. unfold on_input, with_form, with_heap. destruct i; simpl;
    apply heap_wf_set; try (intros l E; discriminate E); try exact Hwf.
  - apply (heap_wf_mono _ (heap s)); [rewrite dom_insert_L; set_solver|exact Hwf].
  - intros l [= <-]. rewrite dom_insert_L. set_solver.
Qed.

Lemma step_heap_wf (s : state) (ev : event) :
  heap_wf (produtoForm s) (heap s) -> heap_wf (produtoForm (step s ev)) (heap (step s ev)).
Proof.
  intros Hwf. destruct ev; simpl; destruct (initialized s); simpl; try exact Hwf.
  - unfold ngOnInit. destruct (on_params_fields (mkState createForm (produtoId s) (isEditing s)
      (heap s) true true (fetching s) (pending s) (next_request s) (log s)) params) as (-> & -> & _).
    apply createForm_wf.
  - case_match; [|exact Hwf]. destruct (on_params_fields s params) as (-> & -> & _). exact Hwf.
  - case_match; [|exact Hwf]. unfold on_produto, with_form, with_fetching.
    repeat case_match; simpl; try exact Hwf.
    apply heap_wf_patch; [exact Hwf|]. intros l0 Hl0. exfalso. eapply json_obj_no_date; eauto.
  - case_match; exact Hwf.
  - apply on_input_wf, Hwf.
  - apply calcular_wf, Hwf.
  - destruct (onSubmit_fields s) as (-> & -> & _). exact Hwf.
  - unfold on_request_done. case_match; [case_match|]; exact Hwf.
  - unfold on_request_done. case_match; [case_match|]; exact Hwf.
Qed.

Lemma on_result_no_fetch (k : request_kind) (ok : bool) (e : value) (id : number) :
  ~ In (GetProdutoById id) (on_result k ok e).
Proof. destruct k, ok; simpl; intuition discriminate. Qed.

(** Outside edit mode nothing stores an id or fetches a product. *)
Lemma step_edit (s : state) (ev : event) :
  isEditing (step s ev) = false ->
  isEditing s = false /\ produtoId (step s ev) = produtoId s /\
  (forall id, In (GetProdutoById id) (log (step s ev)) -> In (GetProdutoById id) (log s)).
Proof.
  destruct ev; simpl; destruct (initialized s); simpl; try (intros; auto; fail).
  all: unfold ngOnInit, on_params, on_produto, on_fetch_error, on_input, calcularDataFimGarantia,
         on_request_done, with_fetching, with_form, with_heap.
  all: try (destruct (onSubmit_fields s) as (_ & _ & Hed & Hid & _); rewrite Hed, Hid;
            unfold onSubmit; destruct (isEditing s)).
  all: repeat case_match; simpl; intros; try discriminate;
    repeat split; auto; intros id Hin;
    repeat match goal with
    | H : In _ (app _ _) |- _ => apply in_app_iff in H as [H|H]
    | H : In _ [_] |- _ => destruct H as [H|[]]; try discriminate H
    end; auto; exfalso; eapply on_result_no_fetch; eauto.
Qed.

Lemma ngOnInit_fields (s : state) (p : list (string * string)) :
  produtoForm (ngOnInit s p) = createForm /\ initialized (ngOnInit s p) = true.
Proof. unfold ngOnInit. destruct (on_params_fields (mkState createForm (produtoId s) (isEditing s)
  (heap s) true true (fetching s) (pending s) (next_request s) (log s)) p) as (-> & _ & -> & _). auto. Qed.

Lemma inv_init : inv init_state.
Proof.
  repeat split; try discriminate.
  - intros id [].
  - intros k c l Hin Hc. simpl in Hin.
    repeat destruct Hin as [E|Hin]; try contradiction; injection E as _ <-; discriminate.
Qed.

Lemma inv_step (s : state) (ev : event) : inv s -> inv (step s ev).
Proof.
  intros (Hpre & Hctl & Hed & Hwf).
  split; [|split; [|split]].
  - intros Hi. destruct (initialized s) eqn:Hs.
    + rewrite (proj1 (step_controls s ev Hs)) in Hi. discriminate.
    + specialize (Hpre eq_refl). subst s. destruct ev; simpl in Hi |- *; try reflexivity.
      now rewrite (proj2 (ngOnInit_fields init_state params)) in Hi.
  - intros Hi. destruct (initialized s) eqn:Hs.
    + rewrite (proj2 (step_controls s ev Hs)). auto.
    + rewrite (Hpre eq_refl) in *. destruct ev; simpl in Hi |- *;
        try (apply ngOnInit_fields in Hi; discriminate); try discriminate.
      now rewrite (proj1 (ngOnInit_fields init_state params)).
  - intros He. destruct (step_edit s ev He) as (He0 & -> & Hlog).
    destruct (Hed He0) as [Hid Hno]. split; [exact Hid|]. intros id Hin. exact (Hno id (Hlog id Hin)).
  - apply step_heap_wf, Hwf.
Qed.

(** Rule induction over the reachable states. *)
Lemma reachable_inv (s : state) : reachable s -> inv s.
Proof. induction 1; [apply inv_init | apply inv_step; assumption]. Qed.

Lemma run_reachable (s : state) (evs : list event) :
  reachable s -> reachable (run s evs).
Proof. revert s. induction evs as [|ev evs IH]; intros s Hs; simpl; [exact Hs|]. apply IH. now constructor. Qed.

End Step.

(** ** Lemmas: the end date [calcularDataFimGarantia] computes *)

Section EndDate.
Context `{TZ : LocalTZA}.

(** The new object holds [setMonth] of the purchase date's time value
    with the ToNumber of [getMonth() + duracaoMeses]. *)
Lemma data_fim_garantia_value (h : gmap loc time_value) (dc dur : value) (t0 : Z) :
  date_value h dc = Some t0 ->
  fst (data_fim_garantia h dc dur) !! snd (data_fim_garantia h dc dur) =
  Some (setMonth (Some t0)
          (to_number (fst (new_date h dc)) (js_add (fst (new_date h dc)) (VNum (getMonth (Some t0))) dur))).
Proof.
  intros Hv. unfold data_fim_garantia.
  pose proof (new_date_lookup h dc) as Hl. rewrite Hv in Hl.
  destruct (new_date h dc) as [h1 l]. cbn [fst snd] in *.
  rewrite (date_setMonth_lookup h1 l _ _ Hl). unfold date_getMonth, date_of. rewrite Hl. reflexivity.
Qed.

(** With a number of months [n], the month passed to [setMonth] is the
    purchase month plus [n]. *)
Lemma data_fim_garantia_number (h : gmap loc time_value) (dc : value) (t0 n : Z) :
  date_value h dc = Some t0 ->
  fst (data_fim_garantia h dc (VNum (Fin n 0))) !! snd (data_fim_garantia h dc (VNum (Fin n 0))) =
  Some (setMonth (Some t0) (of_Z (MonthFromTime (LocalTime t0) + n))).
Proof.
  intros Hv. rewrite (data_fim_garantia_value _ _ _ _ Hv).
  change (getMonth (Some t0)) with (of_Z (MonthFromTime (LocalTime t0))).
  rewrite js_add_num. cbn [to_number]. change (Fin n 0) with (of_Z n). rewrite add_int. reflexivity.
Qed.

End EndDate.

(** ** Properties *)

Section Props.
Context `{TZ : LocalTZA}.

Lemma lookup_control_absent (f : form) (k : string) :
  ~ In k (controls_of f) -> lookup_control f k = None.
Proof.
  unfold lookup_control. induction f as [|[k' c] f IH]; simpl; [reflexivity|]. intros Hn.
  destruct (String.eqb_spec k' k) as [->|_]; [exfalso; auto|]. apply IH. auto.
Qed.

Lemma end_date_control_absent (s : state) :
  reachable s -> initialized s = true -> ~ In "dataFimGarantia" (controls_of (produtoForm s)).
Proof.
  intros Hr Hi. destruct (reachable_inv s Hr) as (_ & Hshape & _). 
  rewrite (shape_controls _ _ (Hshape Hi)). simpl. intuition discriminate.
Qed.

(** C1: once [ngOnInit] has replaced the form by [createForm], the form
    has no [dataFimGarantia] control, so [calcularDataFimGarantia] never
    changes it: [patchValue({ dataFimGarantia })] is ignored and the end
    date it computes is lost. *)
Theorem calcular_never_sets_end_date (s : state) :
  reachable s -> initialized s = true ->
  lookup_control (produtoForm s) "dataFimGarantia" = None /\
  produtoForm (step s Calcular) = produtoForm s.
Proof.
  intros Hr Hi. pose proof (end_date_control_absent s Hr Hi) as Hn.
  split; [now apply lookup_control_absent|].
  simpl. rewrite Hi. simpl. unfold calcularDataFimGarantia.
  case_match; [|reflexivity]. destruct (data_fim_garantia _ _ _) as [h l].
  unfold with_form, with_heap. cbn [produtoForm]. apply patchValue_absent.
  constructor; [exact Hn|constructor].
Qed.

(** C3: a duration held as a string of decimal digits [s] is appended to
    the text of the purchase's 0-based local month [M]: the month passed
    to [setMonth] is [M * 10^|s| + s] instead of [M + s], for every
    purchase date and every time zone. *)
Theorem end_date_string_digits (h : gmap loc time_value) (dc : value) (t0 : Z) (str : string) :
  date_value h dc = Some t0 -> Digits 10 str ->
  fst (data_fim_garantia h dc (VStr str)) !! snd (data_fim_garantia h dc (VStr str)) =
  Some (setMonth (Some t0)
          (of_Z (MonthFromTime (LocalTime t0) * 10 ^ Z.of_nat (String.length str) + decimal_value str))).
Proof.
  intros Hv Hs. rewrite (data_fim_garantia_value _ _ _ _ Hv).
  change (getMonth (Some t0)) with (of_Z (MonthFromTime (LocalTime t0))).
  rewrite js_add_num_str. cbn [to_number].
  rewrite month_string_concat; [reflexivity| |exact Hs].
  exact (proj2 (DateFromTime_bounds (LocalTime t0))).
Qed.

(** C11: a duration whose text is not numeric once appended to the month
    (here "abc", giving "0abc" to "11abc") makes [setMonth] receive NaN:
    the end date is an Invalid Date, for every purchase date and every
    time zone; no error is reported. *)
Theorem end_date_invalid_duration (h : gmap loc time_value) (dc : value) (t0 : Z) :
  date_value h dc = Some t0 ->
  fst (data_fim_garantia h dc (VStr "abc")) !! snd (data_fim_garantia h dc (VStr "abc")) =
  Some None.
Proof.
  intros Hv. rewrite (data_fim_garantia_value _ _ _ _ Hv).
  change (getMonth (Some t0)) with (of_Z (MonthFromTime (LocalTime t0))).
  rewrite js_add_num_str. cbn [to_number].
  pose proof (proj2 (DateFromTime_bounds (LocalTime t0))) as HM.
  assert (C : forall M, 0 <= M <= 11 -> string_to_number (number_to_string (of_Z M) ++ "abc") = NaN).
  { intros M HM'.
    assert (E : M = 0 \/ M = 1 \/ M = 2 \/ M = 3 \/ M = 4 \/ M = 5 \/ M = 6 \/ M = 7 \/
                M = 8 \/ M = 9 \/ M = 10 \/ M = 11) by lia.
    repeat destruct E as [->|E]; try (subst M); reflexivity. }
  rewrite (C _ HM). reflexivity.
Qed.

(** C4: for a purchase date given as a date-only string (read as UTC
    midnight) on day [d >= 2] of its month, the end date is UTC midnight
    of day [d] of the month [n] months later (days past that month's end
    running into the next), in every time zone of the host that has a
    fixed offset. *)
Theorem end_date_zone_independent (h : gmap loc time_value) (str : string) (y m d n : Z) :
  tz_transitions = [] ->
  date_value h (VStr str) = Some (days_from_civil y m d * msPerDay) ->
  valid_civil y m d -> 2 <= d ->
  fst (data_fim_garantia h (VStr str) (VNum (Fin n 0))) !!
      snd (data_fim_garantia h (VStr str) (VNum (Fin n 0))) =
  Some (TimeClip (Some (days_from_civil (target_year y (m - 1 + n)) (target_month (m - 1 + n)) d
                        * msPerDay))).
Proof.
  intros Hf Hv Hvalid Hd. rewrite (data_fim_garantia_number _ _ _ _ Hv).
  assert (Hc : civil_from_days (if 0 <=? tza then days_from_civil y m d else days_from_civil y m d - 1)
               = (y, m, if 0 <=? tza then d else d - 1)).
  { destruct (0 <=? tza); [|rewrite <- days_from_civil_pred];
      apply civil_from_days_from_civil; [exact Hvalid|destruct Hvalid; split; lia]. }
  destruct (setMonth_midnight _ _ _ _ (m - 1 + n) Hf Hc) as [-> ->].
  do 3 f_equal. destruct (0 <=? tza); [|rewrite days_from_civil_pred]; unfold msPerDay; lia.
Qed.

(** C2: the end date depends on the host's time zone: "2024-03-01" with
    one month ends on 2024-04-01 (UTC midnight) at or east of Greenwich,
    but on 2024-03-30 west of it (Brazil included), because the
    date-only string is read as UTC midnight, which is the evening of
    February 29 in local time, and [setMonth] keeps that local day
    (for a host zone with a fixed offset). *)
Theorem end_date_first_of_month_zone (h : gmap loc time_value) :
  tz_transitions = [] ->
  fst (data_fim_garantia h (VStr "2024-03-01") (VNum (Fin 1 0))) !!
      snd (data_fim_garantia h (VStr "2024-03-01") (VNum (Fin 1 0))) =
  Some (Some (if 0 <=? tza then days_from_civil 2024 4 1 * msPerDay
              else days_from_civil 2024 3 30 * msPerDay)).
Proof.
  intros Hf. rewrite (data_fim_garantia_number h _ (days_from_civil 2024 3 1 * msPerDay) 1) by reflexivity.
  destruct (setMonth_midnight (days_from_civil 2024 3 1) 2024 (if 0 <=? tza then 3 else 2)
              (if 0 <=? tza then 1 else 29) ((if 0 <=? tza then 3 else 2) - 1 + 1) Hf) as [HM Hset];
    [destruct (0 <=? tza); reflexivity|].
  destruct (0 <=? tza); rewrite HM, Hset; reflexivity.
Qed.

(** A duration held as text is concatenated, not added: with
    "2024-03-10" and the string "12", [getMonth() + duracaoMeses] is the
    string "212", and the end date is 2041-09-10 (212 months later) in
    every time zone with a fixed offset, instead of 2025-03-10. *)
Theorem end_date_string_duration (h : gmap loc time_value) :
  tz_transitions = [] ->
  fst (data_fim_garantia h (VStr "2024-03-10") (VStr "12")) !!
      snd (data_fim_garantia h (VStr "2024-03-10") (VStr "12")) =
  Some (Some (days_from_civil 2041 9 10 * msPerDay)).
Proof.
  intros Hf. rewrite (data_fim_garantia_value h _ _ (days_from_civil 2024 3 10 * msPerDay)) by reflexivity.
  destruct (setMonth_midnight (days_from_civil 2024 3 10) 2024 3 (if 0 <=? tza then 10 else 9) 212 Hf)
    as [HM Hset]; [destruct (0 <=? tza); reflexivity|].
  change (getMonth (Some ?t)) with (of_Z (MonthFromTime (LocalTime t))). rewrite HM, js_add_num_str.
  cbn [to_number]. change (string_to_number (number_to_string (of_Z (3 - 1)) ++ "12")) with (of_Z 212).
  rewrite Hset. destruct (0 <=? tza); reflexivity.
Qed.


(** C20: [ngOnInit] with a non-empty [id] route parameter enters edit
    mode, stores [+params['id']] and requests that product; the form is
    the one [createForm] built. *)
Theorem ngOnInit_edit_mode (params : list (string * string)) (v : string) :
  param_id params = Some v -> v <> EmptyString ->
  isEditing (step init_state (NgOnInit params)) = true /\
  produtoId (step init_state (NgOnInit params)) = string_to_number v /\
  fetching (step init_state (NgOnInit params)) = true /\
  log (step init_state (NgOnInit params)) = [GetProdutoById (string_to_number v)] /\
  produtoForm (step init_state (NgOnInit params)) = createForm.
Proof.
  intros Hp Hv. simpl. unfold ngOnInit, on_params, with_fetching. simpl.
  rewrite Hp. simpl. destruct (String.eqb_spec v ""); [contradiction|]. simpl. repeat split.
Qed.

(** C21: without an [id] route parameter (or with an empty one) the
    component stays in create mode with the empty form and fetches
    nothing. *)
Theorem ngOnInit_create_mode (params : list (string * string)) :
  (forall v, param_id params = Some v -> v = EmptyString) ->
  isEditing (step init_state (NgOnInit params)) = false /\
  produtoId (step init_state (NgOnInit params)) = Fin 0 0 /\
  fetching (step init_state (NgOnInit params)) = false /\
  log (step init_state (NgOnInit params)) = [] /\
  produtoForm (step init_state (NgOnInit params)) = createForm.
Proof.
  intros Hp. simpl. unfold ngOnInit, on_params, with_fetching. simpl.
  destruct (param_id params) as [v|] eqn:E; [rewrite (Hp v eq_refl)|]; simpl; repeat split.
Qed.

(** C22: edit mode is never left, and every later emission of the route
    parameters with a non-empty id switches the stored id and fetches
    again: the mode is not entered once for the component's lifetime. *)
Theorem route_reemission_switches_id (s : state) (params : list (string * string)) (v : string) :
  initialized s = true -> route_active s = true -> param_id params = Some v -> v <> EmptyString ->
  isEditing (step s (RouteParams params)) = true /\
  produtoId (step s (RouteParams params)) = string_to_number v /\
  log (step s (RouteParams params)) = app (log s) [GetProdutoById (string_to_number v)].
Proof.
  intros Hi Ha Hp Hv. simpl. rewrite Hi, Ha. simpl. unfold on_params, with_fetching. simpl.
  rewrite Hp. simpl. destruct (String.eqb_spec v ""); [contradiction|]. simpl. repeat split.
Qed.

Lemma isEditing_stable (s : state) (ev : event) :
  isEditing s = true -> isEditing (step s ev) = true.
Proof.
  intros H. destruct (isEditing (step s ev)) eqn:E; [reflexivity|].
  destruct (step_edit s ev E) as [H' _]. congruence.
Qed.

Lemma route_inactive_stable (s : state) (ev : event) :
  initialized s = true -> route_active s = false -> route_active (step s ev) = false.
Proof.
  intros Hi Ha. destruct ev; simpl; rewrite Hi; simpl; rewrite ?Ha; try reflexivity;
    repeat case_match; try reflexivity.
  all: unfold on_produto, on_fetch_error, on_input, calcularDataFimGarantia, on_request_done,
         with_form, with_heap, with_fetching in *; repeat case_match; simpl; auto.
  destruct (onSubmit_fields s) as (_ & _ & _ & _ & _ & ->). exact Ha.
Qed.

(** C23: an error of the product fetch ends the route subscription (it
    has no error callback): the form keeps its values, the error is
    reported as unhandled, and no later route emission has any effect. *)
Theorem fetch_error_ends_route_subscription (s : state) (e : value) (evs : list event)
    (params : list (string * string)) :
  initialized s = true -> fetching s = true ->
  produtoForm (step s (ProdutoFailed e)) = produtoForm s /\
  log (step s (ProdutoFailed e)) = app (log s) [UnhandledError e] /\
  step (run (step s (ProdutoFailed e)) evs) (RouteParams params) = run (step s (ProdutoFailed e)) evs.
Proof.
  intros Hi Hf. simpl. rewrite Hi, Hf. simpl. split; [reflexivity|split; [reflexivity|]].
  assert (H : forall s', initialized s' = true -> route_active s' = false ->
                initialized (run s' evs) = true /\ route_active (run s' evs) = false).
  { induction evs as [|ev evs IH]; intros s' H1 H2; simpl; [auto|].
    apply IH; [apply (step_controls s' ev H1)|apply route_inactive_stable; assumption]. }
  destruct (H (on_fetch_error s e) Hi eq_refl) as [H1 H2].
  simpl. rewrite H1, H2. reflexivity.
Qed.

(** C5: in edit mode [onSubmit] sends [updateProduto] with the form's
    value whose [id] is the stored [produtoId], whatever the form's [id]
    control holds; every other field is the form's. *)
Theorem submit_edit_sends_stored_id (s : state) :
  initialized s = true -> isEditing s = true ->
  exists p, log (step s Submit) = app (log s) [UpdateProduto p] /\
    get p "id" = VNum (produtoId s) /\
    (forall k, k <> "id" -> get p k = get (form_value (produtoForm s)) k).
Proof.
  intros Hi He. simpl. rewrite Hi. simpl. unfold onSubmit. rewrite He. simpl.
  eexists. split; [reflexivity|]. split; [apply get_set_prop_eq|].
  intros k Hk. now apply get_set_prop_neq.
Qed.

(** C16: in create mode [onSubmit] sends [addProduto] with the form's
    value as it is; in every reachable state that value carries the
    [id] key of the [id] control that [createForm] declares. *)
Theorem submit_create_sends_form_value (s : state) :
  reachable s -> initialized s = true -> isEditing s = false ->
  log (step s Submit) = app (log s) [AddProduto (form_value (produtoForm s))] /\
  has_key (form_value (produtoForm s)) "id" = true.
Proof.
  intros Hr Hi He. destruct (reachable_inv s Hr) as (_ & Hshape & _).
  split.
  - simpl. rewrite Hi. simpl. unfold onSubmit. rewrite He. reflexivity.
  - rewrite has_key_keys, (form_value_keys _ _ (Hshape Hi)). reflexivity.
Qed.

(** C15: [onSubmit] sends the record whether or not the form is valid:
    nothing in the component checks [produtoForm.valid]. *)
Theorem submit_ignores_validity (s : state) :
  initialized s = true -> form_valid (heap s) (produtoForm s) = false ->
  exists p, log (step s Submit) =
            app (log s) [if isEditing s then UpdateProduto p else AddProduto p].
Proof.
  intros Hi _. simpl. rewrite Hi. simpl. unfold onSubmit.
  destruct (isEditing s); eexists; reflexivity.
Qed.

(** C25: when a submit request completes, its callbacks run once, with
    the messages of lines 125-137 and 144-156: on success the snack bar
    "Produto atualizado com sucesso" (update) or "Produto cadastrado com
    sucesso" (add) for 2000 ms, then [dialog.closeAll()]; on failure
    [console.error] of the error, then "Erro ao atualizar o produto" or
    "Erro ao cadastrar o produto"; in both cases the form is untouched and
    the request is no longer pending (no retry). *)
Theorem request_completion (s : state) (r : nat) (k : request_kind) (e : value) :
  initialized s = true -> find (fun rk => Nat.eqb (fst rk) r) (pending s) = Some (r, k) ->
  log (step s (RequestSucceeded r)) =
    app (log s) [SnackBarOpen (match k with UpdateRequest => "Produto atualizado com sucesso"
                                          | AddRequest => "Produto cadastrado com sucesso" end)
                   "Fechar" 2000; DialogCloseAll] /\
  log (step s (RequestFailed r e)) =
    app (log s) [ConsoleError e;
                 SnackBarOpen (match k with UpdateRequest => "Erro ao atualizar o produto"
                                          | AddRequest => "Erro ao cadastrar o produto" end)
                   "Fechar" 2000] /\
  produtoForm (step s (RequestSucceeded r)) = produtoForm s /\
  produtoForm (step s (RequestFailed r e)) = produtoForm s /\
  ~ In r (map fst (pending (step s (RequestSucceeded r)))) /\
  ~ In r (map fst (pending (step s (RequestFailed r e)))).
Proof.
  intros Hi Hf. assert (Hgone : forall ok e', ~ In r (map fst (pending (on_request_done s r ok e')))).
  { intros ok e'. unfold on_request_done. rewrite Hf. cbn [pending].
    intros ([r' k'] & E & Hin)%in_map_iff. cbn in E. subst r'.
    apply filter_In in Hin as [_ Hn]. rewrite Nat.eqb_refl in Hn. discriminate. }
  cbn [step]. rewrite Hi. cbn [negb].
  split; [|split; [|split; [|split; [|split]]]]; try apply Hgone;
    unfold on_request_done; rewrite Hf; destruct k; reflexivity.
Qed.

(** C24: in edit mode an empty answer of the fetch leaves the form as it
    was; a product patches the controls it names and nothing else. *)
Theorem fetch_result_patches (s : state) (p : option (list (string * json))) :
  initialized s = true -> fetching s = true -> isEditing s = true ->
  produtoForm (step s (ProdutoArrived p)) =
    match p with Some o => patchValue (produtoForm s) (json_obj o) | None => produtoForm s end /\
  fetching (step s (ProdutoArrived p)) = false.
Proof.
  intros Hi Hf He. simpl. rewrite Hi, Hf. simpl. unfold on_produto.
  destruct p; [rewrite He|]; split; reflexivity.
Qed.

(** C7: [calcularDataFimGarantia] works on a copy: every Date object that
    existed before, the purchase date's included, keeps its time value. *)
Theorem calcular_keeps_dates (s : state) (l : loc) :
  is_Some (heap s !! l) -> heap (calcularDataFimGarantia s) !! l = heap s !! l.
Proof.
  intros Hl. unfold calcularDataFimGarantia. case_match; [|reflexivity].
  unfold data_fim_garantia.
  pose proof (new_date_fresh (heap s) (get (form_value (produtoForm s)) "dataCompra")) as Hfr.
  pose proof (new_date_preserves (heap s) (get (form_value (produtoForm s)) "dataCompra") l Hl) as Hp.
  destruct (new_date _ _) as [h1 l1]. simpl in *.
  unfold with_form, with_heap. cbn [heap].
  repeat case_match; simplify_eq; cbn [fst snd heap] in *; try exact Hp.
  rewrite date_setMonth_other; [exact Hp|]. intros ->. destruct Hl as [x Hx]. congruence.
Qed.

(** C8: when the purchase date or the duration is missing (a falsy
    value: the empty string, [null], 0 or NaN), [calcularDataFimGarantia]
    changes nothing: no Date object is created and the form keeps its
    values, the end date included. *)
Theorem calcular_missing_input (s : state) :
  to_boolean (get (form_value (produtoForm s)) "dataCompra") = false \/
  to_boolean (get (form_value (produtoForm s)) "duracaoGarantiaMeses") = false ->
  calcularDataFimGarantia s = s.
Proof.
  intros [H|H]; unfold calcularDataFimGarantia; rewrite H; [reflexivity|].
  now rewrite andb_false_r.
Qed.

(** C26: the invariant [inv] holds before [ngOnInit] and every event
    preserves it: before initialisation the state is the initial one,
    afterwards the form has exactly the controls of [createForm], in
    create mode no id is stored and nothing was fetched, and the form
    refers only to allocated Date objects. *)
Theorem inv_inductive : inv init_state /\ (forall s ev, inv s -> inv (step s ev)).
Proof. split; [exact inv_init|exact inv_step]. Qed.

(** C27: in every host zone whose transitions are more than two days
    apart, daylight saving time included, the end date of a purchase
    date [t0] and an integral duration [n] is at the purchase's local
    time of day on its day of month [n] months on ([month_target])
    exactly when that local time occurs in the zone; it is then the first
    instant showing it (the earlier reading of a repeated hour).  At a
    local time skipped by a transition the end date shows another time
    of day. *)
Theorem end_date_local_time (h : gmap loc time_value) (dc : value) (t0 t1 n : Z) :
  transitions_spaced tz_transitions = true ->
  date_value h dc = Some t0 ->
  fst (data_fim_garantia h dc (VNum (Fin n 0))) !! snd (data_fim_garantia h dc (VNum (Fin n 0))) =
    Some (Some t1) ->
  let x := month_target t0 (MonthFromTime (LocalTime t0) + n) in
  (LocalTime t1 = x <-> exists u, LocalTime u = x) /\ (forall u, LocalTime u = x -> t1 <= u).
Proof.
  intros Hs Hv Ht x. rewrite (data_fim_garantia_number _ _ _ _ Hv), setMonth_eq in Ht.
  apply (f_equal (fun o : option time_value => match o with Some tv => tv | None => None end)) in Ht.
  apply TimeClip_some in Ht as [-> _].
  split; [split; [eauto|intros (u & Hu); exact (proj2 (UTC_earliest_instant x u Hs Hu))]|].
  intros u Hu. exact (proj1 (UTC_earliest_instant x u Hs Hu)).
Qed.

End Props.

(** ** Witnesses, on a host running in UTC *)

Section Witnesses.
#[local] Existing Instance UTC_zone.

Lemma calcular_never_sets_end_date_witness :
  let s := run init_state [NgOnInit []; UserInput "dataCompra" (IText "2024-01-15");
                           UserInput "duracaoGarantiaMeses" (INumber (Fin 12 0))] in
  reachable s /\ initialized s = true /\
  lookup_control (produtoForm s) "dataFimGarantia" = None /\
  produtoForm (step s Calcular) = produtoForm s.
Proof.
  intros s. assert (Hr : reachable s) by (apply run_reachable; constructor).
  assert (Hi : initialized s = true) by reflexivity.
  split; [exact Hr|split; [exact Hi|]]. exact (calcular_never_sets_end_date s Hr Hi).
Defined.

Lemma end_date_zone_independent_witness :
  tz_transitions = [] /\
  date_value ∅ (VStr "2024-01-15") = Some (days_from_civil 2024 1 15 * msPerDay) /\
  valid_civil 2024 1 15 /\ 2 <= 15 /\
  fst (data_fim_garantia ∅ (VStr "2024-01-15") (VNum (Fin 12 0))) !!
      snd (data_fim_garantia ∅ (VStr "2024-01-15") (VNum (Fin 12 0))) =
  Some (TimeClip (Some (days_from_civil (target_year 2024 (1 - 1 + 12)) (target_month (1 - 1 + 12)) 15
                        * msPerDay))).
Proof.
  assert (Hv : date_value ∅ (VStr "2024-01-15") = Some (days_from_civil 2024 1 15 * msPerDay))
    by reflexivity.
  assert (Hc : valid_civil 2024 1 15) by (split; [lia|split; [lia|apply Z.leb_le; reflexivity]]).
  split; [reflexivity|split; [exact Hv|split; [exact Hc|split; [lia|]]]].
  exact (end_date_zone_independent ∅ "2024-01-15" 2024 1 15 12 eq_refl Hv Hc ltac:(lia)).
Defined.

(** In Sao Paulo: 2024-03-01 with one month ends on 2024-03-30 at 21:00 UTC. *)
Lemma end_date_first_of_month_zone_witness :
  @tz_transitions SaoPaulo_zone = [] /\
  fst (@data_fim_garantia SaoPaulo_zone ∅ (VStr "2024-03-01") (VNum (Fin 1 0))) !!
      snd (@data_fim_garantia SaoPaulo_zone ∅ (VStr "2024-03-01") (VNum (Fin 1 0))) =
  Some (Some (days_from_civil 2024 3 30 * msPerDay)).
Proof.
  split; [reflexivity|]. exact (@end_date_first_of_month_zone SaoPaulo_zone ∅ eq_refl).
Defined.

Lemma end_date_string_digits_witness :
  date_value ∅ (VStr "2024-03-10") = Some (days_from_civil 2024 3 10 * msPerDay) /\
  Digits 10 "12" /\
  fst (data_fim_garantia ∅ (VStr "2024-03-10") (VStr "12")) !!
      snd (data_fim_garantia ∅ (VStr "2024-03-10") (VStr "12")) =
  Some (setMonth (Some (days_from_civil 2024 3 10 * msPerDay))
          (of_Z (MonthFromTime (LocalTime (days_from_civil 2024 3 10 * msPerDay)) * 10 ^ Z.of_nat 2
                 + decimal_value "12"))).
Proof.
  assert (Hv : date_value ∅ (VStr "2024-03-10") = Some (days_from_civil 2024 3 10 * msPerDay))
    by reflexivity.
  assert (Hs : Digits 10 "12") by (split; [discriminate|reflexivity]).
  split; [exact Hv|split; [exact Hs|]].
  exact (end_date_string_digits ∅ _ _ "12" Hv Hs).
Defined.

Lemma end_date_invalid_duration_witness :
  date_value ∅ (VStr "2024-03-10") = Some (days_from_civil 2024 3 10 * msPerDay) /\
  fst (data_fim_garantia ∅ (VStr "2024-03-10") (VStr "abc")) !!
      snd (data_fim_garantia ∅ (VStr "2024-03-10") (VStr "abc")) = Some None.
Proof.
  assert (Hv : date_value ∅ (VStr "2024-03-10") = Some (days_from_civil 2024 3 10 * msPerDay))
    by reflexivity.
  split; [exact Hv|]. exact (end_date_invalid_duration ∅ _ _ Hv).
Defined.

Lemma ngOnInit_edit_mode_witness :
  param_id [("id", "7")] = Some "7" /\ "7" <> EmptyString /\
  isEditing (step init_state (NgOnInit [("id", "7")])) = true /\
  produtoId (step init_state (NgOnInit [("id", "7")])) = string_to_number "7" /\
  fetching (step init_state (NgOnInit [("id", "7")])) = true /\
  log (step init_state (NgOnInit [("id", "7")])) = [GetProdutoById (string_to_number "7")] /\
  produtoForm (step init_state (NgOnInit [("id", "7")])) = createForm.
Proof.
  split; [reflexivity|split; [discriminate|]].
  apply ngOnInit_edit_mode; [reflexivity|discriminate].
Defined.

Lemma ngOnInit_create_mode_witness :
  (forall v, param_id [] = Some v -> v = EmptyString) /\
  isEditing (step init_state (NgOnInit [])) = false /\
  produtoId (step init_state (NgOnInit [])) = Fin 0 0 /\
  fetching (step init_state (NgOnInit [])) = false /\
  log (step init_state (NgOnInit [])) = [] /\
  produtoForm (step init_state (NgOnInit [])) = createForm.
Proof.
  assert (H : forall v, param_id [] = Some v -> v = EmptyString) by (intros v Hv; discriminate).
  split; [exact H|]. exact (ngOnInit_create_mode [] H).
Defined.

Lemma route_reemission_switches_id_witness :
  let s := step init_state (NgOnInit [("id", "7")]) in
  initialized s = true /\ route_active s = true /\ param_id [("id", "8")] = Some "8" /\
  "8" <> EmptyString /\
  isEditing (step s (RouteParams [("id", "8")])) = true /\
  produtoId (step s (RouteParams [("id", "8")])) = string_to_number "8" /\
  log (step s (RouteParams [("id", "8")])) = app (log s) [GetProdutoById (string_to_number "8")].
Proof.
  intros s. assert (H1 : initialized s = true) by reflexivity.
  assert (H2 : route_active s = true) by reflexivity.
  assert (H3 : param_id [("id", "8")] = Some "8") by reflexivity.
  assert (H4 : "8" <> EmptyString) by discriminate.
  split; [exact H1|split; [exact H2|split; [exact H3|split; [exact H4|]]]].
  exact (route_reemission_switches_id s _ _ H1 H2 H3 H4).
Defined.

Lemma fetch_error_ends_route_subscription_witness :
  let s := step init_state (NgOnInit [("id", "7")]) in
  let evs := [UserInput "nome" (IText "TV"); Submit] in
  initialized s = true /\ fetching s = true /\
  produtoForm (step s (ProdutoFailed VNull)) = produtoForm s /\
  log (step s (ProdutoFailed VNull)) = app (log s) [UnhandledError VNull] /\
  step (run (step s (ProdutoFailed VNull)) evs) (RouteParams [("id", "8")]) =
    run (step s (ProdutoFailed VNull)) evs.
Proof.
  intros s evs. assert (H1 : initialized s = true) by reflexivity.
  assert (H2 : fetching s = true) by reflexivity.
  split; [exact H1|split; [exact H2|]].
  exact (fetch_error_ends_route_subscription s VNull evs _ H1 H2).
Defined.

Lemma submit_edit_sends_stored_id_witness :
  let s := step init_state (NgOnInit [("id", "7")]) in
  initialized s = true /\ isEditing s = true /\
  exists p, log (step s Submit) = app (log s) [UpdateProduto p] /\
    get p "id" = VNum (produtoId s) /\
    (forall k, k <> "id" -> get p k = get (form_value (produtoForm s)) k).
Proof.
  intros s. assert (H1 : initialized s = true) by reflexivity.
  assert (H2 : isEditing s = true) by reflexivity.
  split; [exact H1|split; [exact H2|]]. exact (submit_edit_sends_stored_id s H1 H2).
Defined.

Lemma submit_create_sends_form_value_witness :
  let s := step init_state (NgOnInit []) in
  reachable s /\ initialized s = true /\ isEditing s = false /\
  log (step s Submit) = app (log s) [AddProduto (form_value (produtoForm s))] /\
  has_key (form_value (produtoForm s)) "id" = true.
Proof.
  intros s. assert (H0 : reachable s) by (apply reach_step, reach_init).
  assert (H1 : initialized s = true) by reflexivity.
  assert (H2 : isEditing s = false) by reflexivity.
  split; [exact H0|split; [exact H1|split; [exact H2|]]].
  exact (submit_create_sends_form_value s H0 H1 H2).
Defined.

Lemma submit_ignores_validity_witness :
  let s := step init_state (NgOnInit []) in
  initialized s = true /\ form_valid (heap s) (produtoForm s) = false /\
  exists p, log (step s Submit) = app (log s) [if isEditing s then UpdateProduto p else AddProduto p].
Proof.
  intros s. assert (H1 : initialized s = true) by reflexivity.
  assert (H2 : form_valid (heap s) (produtoForm s) = false) by reflexivity.
  split; [exact H1|split; [exact H2|]]. exact (submit_ignores_validity s H1 H2).
Defined.

Lemma request_completion_witness :
  let s := run init_state [NgOnInit []; Submit] in
  initialized s = true /\ find (fun rk => Nat.eqb (fst rk) 0%nat) (pending s) = Some (0%nat, AddRequest) /\
  log (step s (RequestSucceeded 0)) =
    app (log s) [SnackBarOpen "Produto cadastrado com sucesso" "Fechar" 2000; DialogCloseAll] /\
  log (step s (RequestFailed 0 VNull)) =
    app (log s) [ConsoleError VNull; SnackBarOpen "Erro ao cadastrar o produto" "Fechar" 2000] /\
  produtoForm (step s (RequestSucceeded 0)) = produtoForm s /\
  produtoForm (step s (RequestFailed 0 VNull)) = produtoForm s /\
  ~ In 0%nat (map fst (pending (step s (RequestSucceeded 0)))) /\
  ~ In 0%nat (map fst (pending (step s (RequestFailed 0 VNull)))).
Proof.
  intros s. assert (H1 : initialized s = true) by reflexivity.
  assert (H2 : find (fun rk => Nat.eqb (fst rk) 0%nat) (pending s) = Some (0%nat, AddRequest))
    by reflexivity.
  split; [exact H1|split; [exact H2|]]. exact (request_completion s 0 AddRequest VNull H1 H2).
Defined.

Lemma fetch_result_patches_witness :
  let s := step init_state (NgOnInit [("id", "7")]) in
  let p := Some [("nome", JStr "TV"); ("preco", JNum (Fin 1999 0))] in
  initialized s = true /\ fetching s = true /\ isEditing s = true /\
  produtoForm (step s (ProdutoArrived p)) =
    match p with Some o => patchValue (produtoForm s) (json_obj o) | None => produtoForm s end /\
  fetching (step s (ProdutoArrived p)) = false.
Proof.
  intros s p. assert (H1 : initialized s = true) by reflexivity.
  assert (H2 : fetching s = true) by reflexivity. assert (H3 : isEditing s = true) by reflexivity.
  split; [exact H1|split; [exact H2|split; [exact H3|]]]. exact (fetch_result_patches s p H1 H2 H3).
Defined.

Lemma calcular_keeps_dates_witness :
  let s := run init_state [NgOnInit []; UserInput "dataCompra" (IDate (Some 0));
                           UserInput "duracaoGarantiaMeses" (INumber (Fin 12 0))] in
  is_Some (heap s !! 1%positive) /\
  heap (calcularDataFimGarantia s) !! 1%positive = heap s !! 1%positive.
Proof.
  intros s. assert (H : is_Some (heap s !! 1%positive)) by (eexists; reflexivity).
  split; [exact H|]. exact (calcular_keeps_dates s 1%positive H).
Defined.

Lemma calcular_missing_input_witness :
  let s := run init_state [NgOnInit []; UserInput "dataCompra" (IText "2024-01-15")] in
  (to_boolean (get (form_value (produtoForm s)) "dataCompra") = false \/
   to_boolean (get (form_value (produtoForm s)) "duracaoGarantiaMeses") = false) /\
  calcularDataFimGarantia s = s.
Proof.
  intros s. assert (H : to_boolean (get (form_value (produtoForm s)) "dataCompra") = false \/
    to_boolean (get (form_value (produtoForm s)) "duracaoGarantiaMeses") = false) by (right; reflexivity).
  split; [exact H|]. exact (calcular_missing_input s H).
Defined.

Lemma inv_inductive_witness : inv (step init_state (NgOnInit [("id", "7")])).
Proof. exact (proj2 inv_inductive init_state _ (proj1 inv_inductive)). Defined.

End Witnesses.

Section SaoPaulo2018Witnesses.
#[local] Existing Instance SaoPaulo_2018_zone.

(** In Sao Paulo in 2018, a purchase Date at local midnight of 2018-10-04
    with one month: local midnight of 2018-11-04 is skipped by the start
    of summer time, and the end date is 2018-11-04T03:00Z (01:00 local). *)
Lemma end_date_local_time_witness :
  let h : gmap loc time_value := {[ 1%positive := Some (days_from_civil 2018 10 4 * msPerDay + 3 * msPerHour) ]} in
  let t0 := days_from_civil 2018 10 4 * msPerDay + 3 * msPerHour in
  let t1 := days_from_civil 2018 11 4 * msPerDay + 3 * msPerHour in
  transitions_spaced tz_transitions = true /\ date_value h (VDate 1%positive) = Some t0 /\
  fst (data_fim_garantia h (VDate 1%positive) (VNum (Fin 1 0))) !!
      snd (data_fim_garantia h (VDate 1%positive) (VNum (Fin 1 0))) = Some (Some t1) /\
  let x := month_target t0 (MonthFromTime (LocalTime t0) + 1) in
  (LocalTime t1 = x <-> exists u, LocalTime u = x) /\ (forall u, LocalTime u = x -> t1 <= u).
Proof.
  intros h t0 t1.
  assert (H1 : transitions_spaced tz_transitions = true) by reflexivity.
  assert (H2 : date_value h (VDate 1%positive) = Some t0) by reflexivity.
  assert (H3 : fst (data_fim_garantia h (VDate 1%positive) (VNum (Fin 1 0))) !!
                 snd (data_fim_garantia h (VDate 1%positive) (VNum (Fin 1 0))) = Some (Some t1))
    by (vm_compute; reflexivity).
  split; [exact H1|split; [exact H2|split; [exact H3|]]].
  exact (end_date_local_time h (VDate 1%positive) t0 t1 1 H1 H2 H3).
Defined.

End SaoPaulo2018Witnesses.

End Component.
