(* ===== verification/ModeSpec.v ===== *)
(** * ModeSpec: an abstract specification of the mode controller

    The spec describes the component's create/edit behaviour as a small
    state machine fed by the route parameters (spec 4.3).  This file
    states that machine at the level of detail the code has: a
    controller state [ctrl] (whether [ngOnInit] ran, whether the
    [route.params] subscription lives, whether a [getProdutoById] fetch is
    in flight, and the mode with its id) and its transition function
    [ctrl_step].  The abstraction [abstract] projects a component state
    onto it, and the refinement theorem shows that [Component.step]
    simulates [ctrl_step] on every event: every other handler (input,
    calculation, submission, request outcomes) leaves the controller
    untouched. *)

From Stdlib Require Import ZArith String List Bool Lia.
From stdpp Require Import gmap strings.
From S2P Require Import Prelude JsNumber JsDate JsValue Validators Form Component.
Import ListNotations.

Module ModeSpec.
Import JsNumber JsDate JsValue Form Component.

(** ** The abstract machine *)

Inductive mode : Type :=
| Create
| Edit (id : number).

Record ctrl := mkCtrl {
  c_init : bool;
  c_live : bool;
  c_fetching : bool;
  c_mode : mode
}.

(** One emission of the route parameters (lines 56-66): a non-empty
    [id] selects edit mode with [+id] and starts a fetch; any emission
    drops the fetch in flight. *)
Definition ctrl_params (c : ctrl) (params : list (string * string)) : ctrl :=
  match param_id params with
  | Some v =>
      if to_boolean (VStr v) then mkCtrl (c_init c) (c_live c) true (Edit (string_to_number v))
      else mkCtrl (c_init c) (c_live c) false (c_mode c)
  | None => mkCtrl (c_init c) (c_live c) false (c_mode c)
  end.

(** The controller's transitions: [ngOnInit] once, route emissions while
    the subscription lives, the end of the fetch in flight (an error ends
    the subscription); every other event leaves it as it is. *)
Definition ctrl_step (c : ctrl) (ev : event) : ctrl :=
  match ev with
  | NgOnInit p => if c_init c then c else ctrl_params (mkCtrl true true (c_fetching c) (c_mode c)) p
  | RouteParams p => if c_init c && c_live c then ctrl_params c p else c
  | ProdutoArrived _ =>
      if c_init c && c_fetching c then mkCtrl (c_init c) (c_live c) false (c_mode c) else c
  | ProdutoFailed _ =>
      if c_init c && c_fetching c then mkCtrl (c_init c) false false (c_mode c) else c
  | _ => c
  end.

(** The abstraction of a component state. *)
Definition abstract (s : state) : ctrl :=
  mkCtrl (initialized s) (route_active s) (fetching s)
    (if isEditing s then Edit (produtoId s) else Create).

(** ** Each handler against the abstract machine *)

Section Handlers.
Context `{TZ : LocalTZA}.

Lemma abstract_on_params (s : state) (p : list (string * string)) :
  abstract (on_params s p) = ctrl_params (abstract s) p.
Proof.
  unfold on_params, with_fetching, ctrl_params, abstract. cbn [produtoForm heap].
  destruct (param_id p) as [v|]; [destruct (to_boolean (VStr v))|]; reflexivity.
Qed.

Lemma abstract_ngOnInit (s : state) (p : list (string * string)) :
  abstract (ngOnInit s p) = ctrl_params (mkCtrl true true (fetching s) (c_mode (abstract s))) p.
Proof. unfold ngOnInit. rewrite abstract_on_params. reflexivity. Qed.

Lemma abstract_on_produto (s : state) (p : option (list (string * json))) :
  abstract (on_produto s p) = mkCtrl (initialized s) (route_active s) false (c_mode (abstract s)).
Proof.
  unfold on_produto, with_form, with_fetching, abstract.
  destruct p; [destruct (isEditing s) eqn:E|]; cbn; rewrite ?E; reflexivity.
Qed.

Lemma abstract_on_fetch_error (s : state) (e : value) :
  abstract (on_fetch_error s e) = mkCtrl (initialized s) false false (c_mode (abstract s)).
Proof. reflexivity. Qed.

Lemma abstract_on_input (s : state) (k : string) (i : input) :
  abstract (on_input s k i) = abstract s.
Proof. destruct i; reflexivity. Qed.

Lemma abstract_calcular (s : state) :
  abstract (calcularDataFimGarantia s) = abstract s.
Proof.
  unfold calcularDataFimGarantia. case_match; [|reflexivity].
  destruct (data_fim_garantia _ _ _). reflexivity.
Qed.

Lemma abstract_onSubmit (s : state) : abstract (onSubmit s) = abstract s.
Proof. unfold onSubmit, abstract. destruct (isEditing s); reflexivity. Qed.

Lemma abstract_on_request_done (s : state) (r : nat) (ok : bool) (e : value) :
  abstract (on_request_done s r ok e) = abstract s.
Proof. unfold on_request_done. repeat case_match; reflexivity. Qed.

Create Rewrite HintDb modespec.
#[local] Hint Rewrite abstract_on_params abstract_ngOnInit abstract_on_produto
  abstract_on_fetch_error abstract_on_input abstract_calcular abstract_onSubmit
  abstract_on_request_done : modespec.

(** One step of the component is one step of the controller. *)
Lemma abstract_step (s : state) (ev : event) :
  abstract (step s ev) = ctrl_step (abstract s) ev.
Proof.
  destruct ev; cbn [step ctrl_step]; cbn [abstract c_init c_live c_fetching];
    destruct (initialized s) eqn:Hi; cbn [negb andb]; try reflexivity;
    repeat case_match; autorewrite with modespec; rewrite ?Hi; reflexivity.
Qed.

(** Edit mode is absorbing in the abstract machine: only its id moves. *)
Lemma ctrl_step_edit (c : ctrl) (ev : event) (id : number) :
  c_mode c = Edit id -> exists id', c_mode (ctrl_step c ev) = Edit id'.
Proof.
  intros Hc. destruct ev; cbn [ctrl_step]; repeat case_match; cbn [c_mode] in *; eauto;
    unfold ctrl_params; repeat case_match; cbn [c_mode]; eauto.
Qed.

End Handlers.

(** ** The component refines the controller *)

Section Refinement.
Context `{TZ : LocalTZA}.

(** C12: the component refines the abstract mode controller: on every
    sequence of events, from every state, the component's initialisation
    flag, route subscription, fetch in flight, mode and stored id are
    those the controller's [ctrl_step] computes from the same events. *)
Theorem run_refines_ctrl (s : state) (evs : list event) :
  abstract (run s evs) = fold_left ctrl_step evs (abstract s).
Proof.
  revert s. induction evs as [|ev evs IH]; intros s; [reflexivity|].
  cbn [run fold_left]. rewrite <- abstract_step. apply IH.
Qed.

(** C17: only the route (through [ngOnInit] or a later emission of
    [route.params]) changes the mode or the stored id: user input, the
    end-date calculation, submission, the fetch's outcome and the
    requests' outcomes never do. *)
Theorem mode_changes_only_on_route (s : state) (ev : event) :
  c_mode (abstract (step s ev)) <> c_mode (abstract s) ->
  exists p, ev = NgOnInit p \/ ev = RouteParams p.
Proof.
  rewrite abstract_step. intros Hne.
  destruct ev; cbn [ctrl_step] in Hne; eauto; exfalso; apply Hne;
    repeat case_match; reflexivity.
Qed.

(** C18: edit mode, once entered, is never left (the spec's "no further
    transitions" holds of the mode itself, though not of its id). *)
Theorem edit_mode_absorbing (s : state) (evs : list event) (id : number) :
  c_mode (abstract s) = Edit id -> exists id', c_mode (abstract (run s evs)) = Edit id'.
Proof.
  revert s id. induction evs as [|ev evs IH]; intros s id Hs; [eauto|].
  cbn [run fold_left]. destruct (ctrl_step_edit (abstract s) ev id Hs) as [id' Hid].
  rewrite <- abstract_step in Hid. exact (IH _ _ Hid).
Qed.

End Refinement.

(** ** Witnesses, on a host running in UTC *)

Section Witnesses.
#[local] Existing Instance UTC_zone.

Lemma mode_changes_only_on_route_witness :
  let s := step init_state (NgOnInit []) in
  c_mode (abstract (step s (RouteParams [("id", "5")]))) <> c_mode (abstract s) /\
  exists p, RouteParams [("id", "5")] = NgOnInit p \/ RouteParams [("id", "5")] = RouteParams p.
Proof.
  intros s. assert (H : c_mode (abstract (step s (RouteParams [("id", "5")]))) <> c_mode (abstract s))
    by discriminate.
  split; [exact H|]. exact (mode_changes_only_on_route s _ H).
Defined.

Lemma edit_mode_absorbing_witness :
  let s := step init_state (NgOnInit [("id", "7")]) in
  c_mode (abstract s) = Edit (Fin 7 0) /\
  exists id', c_mode (abstract (run s [RouteParams [("id", "8")]; Submit; ProdutoFailed VNull])) = Edit id'.
Proof.
  intros s. assert (H : c_mode (abstract s) = Edit (Fin 7 0)) by reflexivity.
  split; [exact H|]. exact (edit_mode_absorbing s _ _ H).
Defined.

End Witnesses.

End ModeSpec.
