(* ===== verification/Records.v ===== *)
(** * Records: the product records the component sends

    [onSubmit] (lines 117-161) sends [produtoForm.value], with [id]
    overwritten in edit mode, to [updateProduto] or [addProduto].  The
    spec's data model (spec 3) gives a product five fields, the derived
    [dataFimGarantia] included.  This file proves what the code actually
    sends: in every reachable state, every record in the trace has
    exactly the keys of [createForm]'s controls, in their order. *)

From Stdlib Require Import ZArith String List Bool Lia.
From stdpp Require Import gmap strings.
From S2P Require Import Prelude JsNumber JsDate JsValue Validators Form Component.
Import ListNotations.

Module Records.
Import JsNumber JsDate JsValue Form Component.

(** The keys of a record the component sends. *)
Definition produto_keys : list string := ["id"; "nome"; "dataCompra"; "duracaoGarantiaMeses"].

(** The record a call to the service carries, if any. *)
Definition payload (e : effect) : option obj :=
  match e with
  | UpdateProduto p | AddProduto p => Some p
  | _ => None
  end.

(** ** Lemmas *)

Lemma set_prop_keys (o : obj) (k : string) (v : value) :
  has_key o k = true -> map fst (set_prop o k v) = map fst o.
Proof.
  unfold set_prop. intros ->. rewrite map_map.
  apply map_ext. intros [k' v']. cbn. destruct (String.eqb_spec k' k); cbn; congruence.
Qed.

Section Trace.
Context `{TZ : LocalTZA}.

(** Every event but a submission appends only calls without a record. *)
Lemma step_log (s : state) (ev : event) :
  (ev = Submit /\ initialized s = true /\ step s ev = onSubmit s) \/
  exists es, log (step s ev) = app (log s) es /\ forall e, In e es -> payload e = None.
Proof.
  destruct ev; cbn [step]; destruct (initialized s); cbn [negb];
    try (left; auto; fail); right.
  all: try (destruct (fetching s)); try (destruct (route_active s)); cbn [negb].
  all: unfold ngOnInit, on_params, on_produto, on_fetch_error, on_input, calcularDataFimGarantia,
         on_request_done, on_result, on_update_result, on_add_result,
         with_form, with_heap, with_fetching.
  all: repeat case_match; cbn [log];
    first [ exists (@nil effect); split; [rewrite app_nil_r; reflexivity|intros e0 []]
          | eexists; split; [reflexivity|]; intros e0 He; cbn in He;
            repeat destruct He as [<-|He]; try contradiction; reflexivity ].
Qed.

End Trace.

(** C9: every product record the component sends to [updateProduto] or
    [addProduto] has exactly the keys id, nome, dataCompra and
    duracaoGarantiaMeses, in this order: never [dataFimGarantia], which
    the spec's data model lists, and always [id], also in create mode. *)
Theorem sent_records_typed `{LocalTZA} (s : state) :
  reachable s -> forall e p, In e (log s) -> payload e = Some p -> map fst p = produto_keys.
Proof.
  intros Hr. induction Hr as [|s ev Hr Ht]; [intros e p []|].
  destruct (reachable_inv s Hr) as (_ & Hshape & _).
  destruct (step_log s ev) as [(-> & Hi & ->) | (es & -> & Hes)].
  - assert (Hk : map fst (form_value (produtoForm s)) = produto_keys)
      by (rewrite (form_value_keys _ _ (Hshape Hi)); reflexivity).
    intros e p Hin Hp. unfold onSubmit in Hin.
    destruct (isEditing s); cbn [log] in Hin; apply in_app_or in Hin as [Hin|[<-|[]]];
      try exact (Ht e p Hin Hp); cbn in Hp; injection Hp as <-;
      first [exact Hk | rewrite set_prop_keys; [exact Hk|rewrite has_key_keys, Hk; reflexivity]].
  - intros e p Hin Hp. apply in_app_or in Hin as [Hin|Hin];
      [exact (Ht e p Hin Hp)|]. rewrite (Hes e Hin) in Hp. discriminate.
Qed.

Section Witnesses.
#[local] Existing Instance UTC_zone.

Lemma sent_records_typed_witness :
  let s := run init_state [NgOnInit [("id", "7")]; UserInput "nome" (IText "TV"); Submit] in
  reachable s /\
  forall e p, In e (log s) -> payload e = Some p -> map fst p = produto_keys.
Proof.
  intros s. assert (Hr : reachable s) by (apply run_reachable, reach_init).
  split; [exact Hr|]. exact (sent_records_typed s Hr).
Defined.

End Witnesses.

End Records.
