(* ===== verification/Requests.v ===== *)
(** * Requests: the submit requests in flight

    Each call of [onSubmit] (lines 117-161) subscribes to a new
    [updateProduto] or [addProduto] request; nothing prevents a second
    submission before the first request answers (spec 5).  The component
    state records the requests in flight as [pending], each with the
    number [next_request] gave it.  This file proves that the numbers of
    the requests in flight are distinct and below [next_request] in every
    reachable state, that two submissions in a row start two independent
    requests, and that delivering the outcome of every request in flight,
    in the order they were started, leaves none pending. *)

From Stdlib Require Import ZArith String List Bool Lia.
From stdpp Require Import gmap strings.
From S2P Require Import Prelude JsNumber JsDate JsValue Validators Form Component.
Import ListNotations.

Module Requests.
Import JsNumber JsDate JsValue Form Component.

(** The requests in flight have distinct numbers, all already handed out. *)
Definition pending_wf (s : state) : Prop :=
  List.NoDup (map fst (pending s)) /\ Forall (fun rk => (fst rk < next_request s)%nat) (pending s).

(** ** Lemmas *)

Lemma filter_notin (l : list (nat * request_kind)) (r : nat) :
  ~ In r (map fst l) -> List.filter (fun rk => negb (Nat.eqb (fst rk) r)) l = l.
Proof.
  induction l as [|[r' k] l IH]; intros Hn; [reflexivity|]. cbn in *.
  destruct (Nat.eqb_spec r' r); [tauto|]. cbn. f_equal. auto.
Qed.

Lemma NoDup_filter_fst (l : list (nat * request_kind)) (f : nat * request_kind -> bool) :
  List.NoDup (map fst l) -> List.NoDup (map fst (List.filter f l)).
Proof.
  induction l as [|x l IH]; intros Hl; cbn; [constructor|].
  inversion Hl as [|? ? Hx Hl']; subst. destruct (f x); cbn; [|auto].
  constructor; [|auto]. intros Hin. apply Hx.
  apply in_map_iff in Hin as (y & <- & Hy). apply filter_In in Hy as [Hy _].
  now apply in_map.
Qed.

Section Steps.
Context `{TZ : LocalTZA}.

(** Only [onSubmit] and [on_request_done] touch the requests. *)
Lemma step_pending (s : state) (ev : event) :
  (ev = Submit /\ initialized s = true /\ step s ev = onSubmit s) \/
  (exists r ok e, initialized s = true /\ step s ev = on_request_done s r ok e) \/
  (pending (step s ev) = pending s /\ next_request (step s ev) = next_request s).
Proof.
  destruct ev; cbn [step]; destruct (initialized s) eqn:Hi; cbn [negb];
    try (left; auto; fail); try (right; left; eauto; fail); right; right.
  all: try (destruct (fetching s)); try (destruct (route_active s)); cbn [negb].
  all: unfold ngOnInit, on_params, on_produto, on_fetch_error, on_input, calcularDataFimGarantia,
         with_form, with_heap, with_fetching.
  all: repeat case_match; split; reflexivity.
Qed.

Lemma pending_wf_step (s : state) (ev : event) : pending_wf s -> pending_wf (step s ev).
Proof.
  unfold pending_wf. intros [Hnd Hlt].
  destruct (step_pending s ev) as [(_ & _ & ->) | [(r & ok & e & _ & ->) | [-> ->]]].
  - unfold onSubmit. destruct (isEditing s); cbn [pending next_request];
      rewrite map_app; cbn; split.
    all: try (apply List.NoDup_app; [exact Hnd|constructor; [intros []|constructor]|];
              intros x Hx [Hx'|[]]; subst x; apply in_map_iff in Hx as (rk & Hrk1 & Hrk);
              rewrite List.Forall_forall in Hlt; specialize (Hlt rk Hrk); lia).
    all: apply Forall_app; split; [eapply Forall_impl; [exact Hlt|]; intros x Hx; cbn in *; lia|
                                   constructor; [cbn; lia|constructor]].
  - unfold on_request_done. case_match; [|split; assumption].
    destruct p. cbn [pending next_request]. split.
    + apply NoDup_filter_fst. exact Hnd.
    + rewrite List.Forall_forall in *. intros x Hx. apply filter_In in Hx as [Hx _]. exact (Hlt x Hx).
  - split; assumption.
Qed.

End Steps.

(** In every reachable state the requests in flight have distinct
    numbers, all below the next number to hand out: outcomes can be told
    apart however they interleave. *)
Theorem pending_wf_reachable `{LocalTZA} (s : state) : reachable s -> pending_wf s.
Proof.
  induction 1 as [|s ev _ IH]; [split; [constructor|constructor]|].
  exact (pending_wf_step s ev IH).
Qed.

(** C10: two submissions in a row, before any answer, start two
    independent requests: the log gains exactly two identical calls of
    the mode's service operation ([updateProduto] in edit mode,
    [addProduto] otherwise) with the same record, and both requests are
    in flight, with different numbers (no protection against a double
    submit). *)
Theorem double_submit `{LocalTZA} (s : state) :
  initialized s = true ->
  let s2 := step (step s Submit) Submit in
  exists p, log s2 = app (log s) [if isEditing s then UpdateProduto p else AddProduto p;
                                 if isEditing s then UpdateProduto p else AddProduto p] /\
  pending s2 = app (pending s) [(next_request s, if isEditing s then UpdateRequest else AddRequest);
                                (S (next_request s), if isEditing s then UpdateRequest else AddRequest)].
Proof.
  intros Hi s2. subst s2.
  assert (E1 : step s Submit = onSubmit s) by (cbn [step]; rewrite Hi; reflexivity).
  destruct (onSubmit_fields s) as (_ & _ & He & _ & Hi' & _).
  assert (E2 : step (onSubmit s) Submit = onSubmit (onSubmit s))
    by (cbn [step]; rewrite Hi', Hi; reflexivity).
  rewrite E1, E2. unfold onSubmit at 1. rewrite He. unfold onSubmit.
  destruct (isEditing s); cbn [log pending next_request produtoForm]; (eexists; split);
    cbn; rewrite <- List.app_assoc; reflexivity.
Qed.

(** Whatever requests are in flight, delivering each one's success,
    in the order they were started, runs every callback and leaves no
    request pending. *)
Theorem pending_drains `{LocalTZA} (s : state) :
  initialized s = true -> pending_wf s ->
  pending (run s (map (fun rk => RequestSucceeded (fst rk)) (pending s))) = [].
Proof.
  intros Hi [Hnd _]. remember (pending s) as l eqn:El. revert s Hi El.
  induction l as [|[r k] l IH]; intros s Hi El; [cbn [map run fold_left]; exact (eq_sym El)|].
  cbn [map fold_left run]. cbn [step]. rewrite Hi. cbn [negb].
  unfold on_request_done. rewrite <- El. cbn [find fst]. rewrite Nat.eqb_refl.
  inversion Hnd as [|? ? Hr Hnd']; subst.
  apply IH; [exact Hnd'|exact Hi|]. cbn [pending].
  cbn [List.filter fst]. rewrite Nat.eqb_refl. cbn [negb]. now rewrite filter_notin.
Qed.

Section Witnesses.
#[local] Existing Instance UTC_zone.

Lemma double_submit_witness :
  let s := step init_state (NgOnInit [("id", "7")]) in
  initialized s = true /\
  exists p, log (step (step s Submit) Submit) =
    app (log s) [if isEditing s then UpdateProduto p else AddProduto p;
                 if isEditing s then UpdateProduto p else AddProduto p] /\
  pending (step (step s Submit) Submit) =
    app (pending s) [(next_request s, if isEditing s then UpdateRequest else AddRequest);
                     (S (next_request s), if isEditing s then UpdateRequest else AddRequest)].
Proof.
  intros s. assert (Hi : initialized s = true) by reflexivity.
  split; [exact Hi|]. exact (double_submit s Hi).
Defined.

End Witnesses.

End Requests.
